(** * Thread Viewer (main.js): filter engine, timestamp parsing and view state

    A shallow embedding of the thread viewer's script.  The script keeps its
    state in module-level variables and in the [hidden] class of a handful of
    DOM elements; here that state is one record which every handler takes and
    returns.  JavaScript strings are sequences of UTF-16 code units, absent
    object properties are [None], and an uncaught [TypeError] is an explicit
    outcome of the functions that can raise one. *)

From Stdlib Require Import List ZArith NArith Bool Lia String Ascii.
Import ListNotations.

Set Implicit Arguments.

(* ===================================================================== *)
(** ** JavaScript strings *)
(* ===================================================================== *)

(** A string value is a finite sequence of 16-bit code units. *)
Definition codeUnit := N.
Definition jsstring := list codeUnit.

(** Literals are written as UTF-8 text and decoded to code units. *)
Fixpoint utf16_of_utf8 (bs : list N) : jsstring :=
  match bs with
  | [] => []
  | b :: t =>
      if (b <? 128)%N then b :: utf16_of_utf8 t
      else if (b <? 224)%N then
        match t with
        | b2 :: t' =>
            N.lor (N.shiftl (N.land b 31) 6) (N.land b2 63) :: utf16_of_utf8 t'
        | _ => [65533%N]
        end
      else if (b <? 240)%N then
        match t with
        | b2 :: b3 :: t' =>
            N.lor (N.shiftl (N.land b 15) 12)
                  (N.lor (N.shiftl (N.land b2 63) 6) (N.land b3 63))
              :: utf16_of_utf8 t'
        | _ => [65533%N]
        end
      else
        match t with
        | b2 :: b3 :: b4 :: t' =>
            let cp := N.lor (N.shiftl (N.land b 7) 18)
                        (N.lor (N.shiftl (N.land b2 63) 12)
                           (N.lor (N.shiftl (N.land b3 63) 6) (N.land b4 63))) in
            let v := (cp - 65536)%N in
            (55296 + N.shiftr v 10)%N :: (56320 + N.land v 1023)%N
              :: utf16_of_utf8 t'
        | _ => [65533%N]
        end
  end.

Fixpoint bytes_of_string (s : string) : list N :=
  match s with
  | EmptyString => []
  | String a s' => N_of_ascii a :: bytes_of_string s'
  end.

Definition str (s : string) : jsstring := utf16_of_utf8 (bytes_of_string s).

(** [String.prototype.startsWith] and [String.prototype.includes]. *)
Fixpoint startsWith (s t : jsstring) {struct t} : bool :=
  match t, s with
  | [], _ => true
  | _ :: _, [] => false
  | c :: t', d :: s' => N.eqb c d && startsWith s' t'
  end.

Fixpoint includes (s t : jsstring) : bool :=
  startsWith s t ||
  match s with
  | [] => false
  | _ :: s' => includes s' t
  end.

(** WhiteSpace and LineTerminator code units: what [trim] strips and what
    [\s] matches. *)
Definition isWhiteSpace (c : codeUnit) : bool :=
  ((9 <=? c) && (c <=? 13) || (c =? 32) || (c =? 160) || (c =? 5760)
   || (8192 <=? c) && (c <=? 8202) || (c =? 8232) || (c =? 8233)
   || (c =? 8239) || (c =? 8287) || (c =? 12288) || (c =? 65279))%N.

Fixpoint trimStart (s : jsstring) : jsstring :=
  match s with
  | c :: s' => if isWhiteSpace c then trimStart s' else s
  | [] => []
  end.

Definition trimEnd (s : jsstring) : jsstring := rev (trimStart (rev s)).

Definition trim (s : jsstring) : jsstring := trimEnd (trimStart s).

(** ASCII digits, the class [\d]. *)
Definition isDigit (c : codeUnit) : bool := ((48 <=? c) && (c <=? 57))%N.

(** [parseInt] on a string: the value of its longest prefix of decimal
    digits, [None] (NaN) when there is none.  The script applies it to
    captures of [\d{1,4}] only, so sign, radix prefix and leading blanks do
    not arise. *)
Fixpoint parseDigits (acc : Z) (s : jsstring) : Z :=
  match s with
  | c :: s' => if isDigit c then parseDigits (10 * acc + Z.of_N (c - 48)) s' else acc
  | [] => acc
  end.

Definition parseInt (s : jsstring) : option Z :=
  match s with
  | c :: _ => if isDigit c then Some (parseDigits 0 s) else None
  | [] => None
  end.

(** Truthiness of a string-valued property: [undefined] and [''] are falsy. *)
Definition truthy (v : option jsstring) : bool :=
  match v with
  | Some (_ :: _) => true
  | _ => false
  end.

(* ===================================================================== *)
(** ** Exceptions *)
(* ===================================================================== *)

Inductive exn := TypeError.

Inductive result (A : Type) : Type :=
| Ok (a : A)
| Throw (e : exn).
Arguments Ok {A} a.
Arguments Throw {A} e.

Definition bind {A B} (m : result A) (f : A -> result B) : result B :=
  match m with
  | Ok a => f a
  | Throw e => Throw e
  end.

Declare Scope js_scope.
Delimit Scope js_scope with js.
Notation "x <- m ;; k" := (bind m (fun x => k))
  (at level 61, m at next level, right associativity) : js_scope.
(** [a || b] with [b] evaluated only when [a] is falsy. *)
Notation "a '|||' b" := (bind a (fun x => if x : bool then Ok true else b))
  (at level 50, left associativity) : js_scope.
Open Scope js_scope.

(** [Array.prototype.some]: the callback runs left to right and stops at the
    first truthy answer; an exception in the callback ends the loop. *)
Fixpoint some {A} (f : A -> result bool) (l : list A) : result bool :=
  match l with
  | [] => Ok false
  | a :: l' => b <- f a ;; if b then Ok true else some f l'
  end.

(** [Array.prototype.filter]: a new array with the elements the callback
    accepts, in order; an exception in the callback ends the loop. *)
Fixpoint filterArray {A} (f : A -> result bool) (l : list A) : result (list A) :=
  match l with
  | [] => Ok []
  | a :: l' =>
      b <- f a ;;
      r <- filterArray f l' ;;
      Ok (if b then a :: r else r)
  end.

(* ===================================================================== *)
(** ** Regular expressions of the shape the script uses *)
(* ===================================================================== *)

(** The timestamp pattern is a sequence of greedy repetitions of a character
    class, some of them capturing.  [atom] is one such repetition
    [cls{lo,hi}] ([hi = None] for an unbounded one). *)
Record atom := Atom {
  cls : codeUnit -> bool;
  lo : nat;
  hi : option nat;
  capture : bool
}.

Definition room (h : option nat) : bool :=
  match h with
  | Some 0 => false
  | _ => true
  end.

Definition less (h : option nat) : option nat :=
  match h with
  | Some n => Some (pred n)
  | None => None
  end.

(** One greedy repetition followed by the continuation [k]: take as many
    code units as the class and the upper bound allow, and give back one at
    a time while the continuation fails.  [taken] holds what was consumed,
    most recent first. *)
Fixpoint repeat_greedy {R} (c : codeUnit -> bool) (l : nat) (h : option nat)
    (s taken : jsstring) (k : jsstring -> jsstring -> option R) : option R :=
  let stop := if Nat.eqb l 0 then k (rev taken) s else None in
  match s with
  | x :: s' =>
      if room h && c x then
        match repeat_greedy c (pred l) (less h) s' (x :: taken) k with
        | Some r => Some r
        | None => stop
        end
      else stop
  | [] => stop
  end.

(** A sequence of atoms matched at the start of [s].  The answer is the
    match array: the matched text at index 0, then the captures in pattern
    order. *)
Fixpoint match_here (p : list atom) (s whole : jsstring) (caps : list jsstring)
    : option (list jsstring) :=
  match p with
  | [] => Some (whole :: rev caps)
  | a :: p' =>
      repeat_greedy (cls a) (lo a) (hi a) s []
        (fun w rest =>
           match_here p' rest (whole ++ w) (if capture a then w :: caps else caps))
  end.

(** [String.prototype.match] with a non-global pattern: the leftmost start
    position at which the pattern matches, [None] ([null]) when there is
    none. *)
Fixpoint regex_match (p : list atom) (s : jsstring) : option (list jsstring) :=
  match match_here p s [] [] with
  | Some m => Some m
  | None =>
      match s with
      | [] => None
      | _ :: s' => regex_match p s'
      end
  end.

Definition lit (c : codeUnit) : atom := Atom (N.eqb c) 1 (Some 1) false.
Definition digits (l h : nat) : atom := Atom isDigit l (Some h) true.
Definition spaces1 : atom := Atom isWhiteSpace 1 None false.

Definition nian : codeUnit := 24180%N.  (* U+5E74 *)
Definition yue : codeUnit := 26376%N.   (* U+6708 *)
Definition ri : codeUnit := 26085%N.    (* U+65E5 *)
Definition colon : codeUnit := 58%N.

(** /(\d{4})年(\d{1,2})月(\d{1,2})日\s+(\d{1,2}):(\d{1,2}):(\d{1,2})/ *)
Definition timestampPattern : list atom :=
  [ digits 4 4; lit nian; digits 1 2; lit yue; digits 1 2; lit ri; spaces1;
    digits 1 2; lit colon; digits 1 2; lit colon; digits 1 2 ].

(* ===================================================================== *)
(** ** Dates *)
(* ===================================================================== *)

Open Scope Z_scope.

(** The time value of a Date object: milliseconds since the epoch (UTC), or
    NaN for an invalid date. *)
Inductive timeValue := NaN | Finite (t : Z).

Definition msPerDay : Z := 86400000.

Definition Day (t : Z) : Z := t / msPerDay.

Definition DayFromYear (y : Z) : Z :=
  365 * (y - 1970) + (y - 1969) / 4 - (y - 1901) / 100 + (y - 1601) / 400.

Definition InLeapYear (y : Z) : bool :=
  ((y mod 4 =? 0) && negb (y mod 100 =? 0) || (y mod 400 =? 0))%Z.

(** Days from 1 January to the first day of month [m] (0 = January). *)
Definition monthStart (leap : bool) (m : Z) : Z :=
  let l := if leap then 1 else 0 in
  if m =? 0 then 0 else if m =? 1 then 31 else if m =? 2 then 59 + l
  else if m =? 3 then 90 + l else if m =? 4 then 120 + l
  else if m =? 5 then 151 + l else if m =? 6 then 181 + l
  else if m =? 7 then 212 + l else if m =? 8 then 243 + l
  else if m =? 9 then 273 + l else if m =? 10 then 304 + l else 334 + l.

Definition MakeDay (year month date : Z) : Z :=
  let ym := year + month / 12 in
  let mn := month mod 12 in
  DayFromYear ym + monthStart (InLeapYear ym) mn + date - 1.

Definition MakeTime (hour min sec ms : Z) : Z :=
  hour * 3600000 + min * 60000 + sec * 1000 + ms.

Definition MakeDate (day time : Z) : Z := day * msPerDay + time.

Definition TimeClip (t : Z) : timeValue :=
  if Z.abs t <=? 8640000000000000 then Finite t else NaN.

(** Relational comparison of two Date objects ([>=], [<=]): on their time
    values, false as soon as one is NaN. *)
Definition date_le (a b : timeValue) : bool :=
  match a, b with
  | Finite x, Finite y => x <=? y
  | _, _ => false
  end.

Definition date_ge (a b : timeValue) : bool := date_le b a.

(** A calendar date as a date input holds it: year, month (1-12), day. *)
Record calendarDate := CalendarDate { cyear : Z; cmonth : Z; cday : Z }.

(** [input.valueAsDate] of a date input: [null] when the input is empty,
    otherwise a Date at midnight UTC of the chosen day. *)
Definition valueAsDate (v : option calendarDate) : option timeValue :=
  match v with
  | None => None
  | Some d => Some (TimeClip (MakeDate (MakeDay (cyear d) (cmonth d - 1) (cday d)) 0))
  end.

(** *** Calendar fields of a time value *)

Definition TimeWithinDay (t : Z) : Z := t mod msPerDay.

(** The year a day number falls in: the one year [y] with
    [DayFromYear y <= d < DayFromYear (y + 1)], found from an estimate that
    is off by at most one. *)
Definition YearFromDay (d : Z) : Z :=
  let y := 1970 + (400 * d) / 146097 in
  if DayFromYear (y + 1) <=? d then y + 1
  else if d <? DayFromYear y then y - 1
  else y.

(** The month (0 = January) of day [n] of a year. *)
Definition MonthFromDayInYear (leap : bool) (n : Z) : Z :=
  let l := if leap then 1 else 0 in
  if n <? 31 then 0 else if n <? 59 + l then 1 else if n <? 90 + l then 2
  else if n <? 120 + l then 3 else if n <? 151 + l then 4
  else if n <? 181 + l then 5 else if n <? 212 + l then 6
  else if n <? 243 + l then 7 else if n <? 273 + l then 8
  else if n <? 304 + l then 9 else if n <? 334 + l then 10 else 11.

Definition MonthFromDay (d : Z) : Z :=
  let y := YearFromDay d in
  MonthFromDayInYear (InLeapYear y) (d - DayFromYear y).

Definition DateFromDay (d : Z) : Z :=
  let y := YearFromDay d in
  d - DayFromYear y - monthStart (InLeapYear y) (MonthFromDay d) + 1.

Definition YearFromTime (t : Z) : Z := YearFromDay (Day t).
Definition MonthFromTime (t : Z) : Z := MonthFromDay (Day t).
Definition DateFromTime (t : Z) : Z := DateFromDay (Day t).

(** Assigning a Date to [input.valueAsDate] of a date input: the input then
    holds the calendar day of that instant in UTC, or nothing for an invalid
    date. *)
Definition setValueAsDate (d : timeValue) : option calendarDate :=
  match d with
  | NaN => None
  | Finite t =>
      Some (CalendarDate (YearFromTime t) (MonthFromTime t + 1) (DateFromTime t))
  end.

(* ===================================================================== *)
(** ** Data model *)
(* ===================================================================== *)

(** Objects of data.json.  A property that is absent reads as [undefined],
    here [None]; a property that is present holds a string (or, for
    [replies], an array). *)
Record Reply := {
  user : option jsstring;
  user_id : option jsstring;
  time : option jsstring;
  reply : option jsstring
}.

Record Thread := {
  thread_number : option jsstring;
  post_title : option jsstring;
  keyword : option jsstring;
  username : option jsstring;
  replies : option (list Reply)
}.

(** The object held by [activeFilters]; [None] is [null]. *)
Record Filters := {
  keywords : list jsstring;
  startDate : option timeValue;
  endDate : option timeValue
}.

Definition noFilters : Filters :=
  {| keywords := []; startDate := None; endDate := None |}.

(** The module-level variables and the part of the document the script reads
    and writes.  Every element the script looks up by id exists. *)
Record State := {
  (* module variables *)
  allThreads : list Thread;
  currentThread : option Thread;
  activeFilters : Filters;
  (* form controls *)
  searchInput : jsstring;                 (* searchInput.value *)
  startDateInput : option calendarDate;   (* the start date input *)
  endDateInput : option calendarDate;     (* the end date input *)
  selectedChips : list jsstring;          (* data-keyword of each .keyword-chip.selected *)
  (* the [hidden] class of each section *)
  loadingHidden : bool;
  threadsHidden : bool;
  threadDetailHidden : bool;
  noResultsHidden : bool;
  filterPanelHidden : bool;
  (* rendered content *)
  threadsCards : list Thread;             (* the cards inside #threads *)
  threadContent : option Thread;          (* the thread shown in #threadContent *)
  filterToggleActive : bool               (* aria-expanded of the toggle button *)
}.

Definition set_currentThread (v : option Thread) (st : State) : State :=
  {| allThreads := allThreads st; currentThread := v;
     activeFilters := activeFilters st; searchInput := searchInput st;
     startDateInput := startDateInput st; endDateInput := endDateInput st;
     selectedChips := selectedChips st; loadingHidden := loadingHidden st;
     threadsHidden := threadsHidden st;
     threadDetailHidden := threadDetailHidden st;
     noResultsHidden := noResultsHidden st;
     filterPanelHidden := filterPanelHidden st;
     threadsCards := threadsCards st; threadContent := threadContent st;
     filterToggleActive := filterToggleActive st |}.

Definition set_activeFilters (v : Filters) (st : State) : State :=
  {| allThreads := allThreads st; currentThread := currentThread st;
     activeFilters := v; searchInput := searchInput st;
     startDateInput := startDateInput st; endDateInput := endDateInput st;
     selectedChips := selectedChips st; loadingHidden := loadingHidden st;
     threadsHidden := threadsHidden st;
     threadDetailHidden := threadDetailHidden st;
     noResultsHidden := noResultsHidden st;
     filterPanelHidden := filterPanelHidden st;
     threadsCards := threadsCards st; threadContent := threadContent st;
     filterToggleActive := filterToggleActive st |}.

Definition set_dateInputs (s e : option calendarDate) (st : State) : State :=
  {| allThreads := allThreads st; currentThread := currentThread st;
     activeFilters := activeFilters st; searchInput := searchInput st;
     startDateInput := s; endDateInput := e;
     selectedChips := selectedChips st; loadingHidden := loadingHidden st;
     threadsHidden := threadsHidden st;
     threadDetailHidden := threadDetailHidden st;
     noResultsHidden := noResultsHidden st;
     filterPanelHidden := filterPanelHidden st;
     threadsCards := threadsCards st; threadContent := threadContent st;
     filterToggleActive := filterToggleActive st |}.

Definition set_selectedChips (v : list jsstring) (st : State) : State :=
  {| allThreads := allThreads st; currentThread := currentThread st;
     activeFilters := activeFilters st; searchInput := searchInput st;
     startDateInput := startDateInput st; endDateInput := endDateInput st;
     selectedChips := v; loadingHidden := loadingHidden st;
     threadsHidden := threadsHidden st;
     threadDetailHidden := threadDetailHidden st;
     noResultsHidden := noResultsHidden st;
     filterPanelHidden := filterPanelHidden st;
     threadsCards := threadsCards st; threadContent := threadContent st;
     filterToggleActive := filterToggleActive st |}.

Definition set_threadsHidden (v : bool) (st : State) : State :=
  {| allThreads := allThreads st; currentThread := currentThread st;
     activeFilters := activeFilters st; searchInput := searchInput st;
     startDateInput := startDateInput st; endDateInput := endDateInput st;
     selectedChips := selectedChips st; loadingHidden := loadingHidden st;
     threadsHidden := v;
     threadDetailHidden := threadDetailHidden st;
     noResultsHidden := noResultsHidden st;
     filterPanelHidden := filterPanelHidden st;
     threadsCards := threadsCards st; threadContent := threadContent st;
     filterToggleActive := filterToggleActive st |}.

Definition set_threadDetailHidden (v : bool) (st : State) : State :=
  {| allThreads := allThreads st; currentThread := currentThread st;
     activeFilters := activeFilters st; searchInput := searchInput st;
     startDateInput := startDateInput st; endDateInput := endDateInput st;
     selectedChips := selectedChips st; loadingHidden := loadingHidden st;
     threadsHidden := threadsHidden st;
     threadDetailHidden := v;
     noResultsHidden := noResultsHidden st;
     filterPanelHidden := filterPanelHidden st;
     threadsCards := threadsCards st; threadContent := threadContent st;
     filterToggleActive := filterToggleActive st |}.

Definition set_noResultsHidden (v : bool) (st : State) : State :=
  {| allThreads := allThreads st; currentThread := currentThread st;
     activeFilters := activeFilters st; searchInput := searchInput st;
     startDateInput := startDateInput st; endDateInput := endDateInput st;
     selectedChips := selectedChips st; loadingHidden := loadingHidden st;
     threadsHidden := threadsHidden st;
     threadDetailHidden := threadDetailHidden st;
     noResultsHidden := v;
     filterPanelHidden := filterPanelHidden st;
     threadsCards := threadsCards st; threadContent := threadContent st;
     filterToggleActive := filterToggleActive st |}.

Definition set_filterPanel (hidden expanded : bool) (st : State) : State :=
  {| allThreads := allThreads st; currentThread := currentThread st;
     activeFilters := activeFilters st; searchInput := searchInput st;
     startDateInput := startDateInput st; endDateInput := endDateInput st;
     selectedChips := selectedChips st; loadingHidden := loadingHidden st;
     threadsHidden := threadsHidden st;
     threadDetailHidden := threadDetailHidden st;
     noResultsHidden := noResultsHidden st;
     filterPanelHidden := hidden;
     threadsCards := threadsCards st; threadContent := threadContent st;
     filterToggleActive := expanded |}.

Definition set_threadsCards (v : list Thread) (st : State) : State :=
  {| allThreads := allThreads st; currentThread := currentThread st;
     activeFilters := activeFilters st; searchInput := searchInput st;
     startDateInput := startDateInput st; endDateInput := endDateInput st;
     selectedChips := selectedChips st; loadingHidden := loadingHidden st;
     threadsHidden := threadsHidden st;
     threadDetailHidden := threadDetailHidden st;
     noResultsHidden := noResultsHidden st;
     filterPanelHidden := filterPanelHidden st;
     threadsCards := v; threadContent := threadContent st;
     filterToggleActive := filterToggleActive st |}.

Definition set_threadContent (v : option Thread) (st : State) : State :=
  {| allThreads := allThreads st; currentThread := currentThread st;
     activeFilters := activeFilters st; searchInput := searchInput st;
     startDateInput := startDateInput st; endDateInput := endDateInput st;
     selectedChips := selectedChips st; loadingHidden := loadingHidden st;
     threadsHidden := threadsHidden st;
     threadDetailHidden := threadDetailHidden st;
     noResultsHidden := noResultsHidden st;
     filterPanelHidden := filterPanelHidden st;
     threadsCards := threadsCards st; threadContent := v;
     filterToggleActive := filterToggleActive st |}.

(** The view the page shows, read off the [hidden] classes. *)
Inductive ViewState :=
| Loading
| List
| Detail (selected : option Thread)
| Empty.

Definition viewState (st : State) : option ViewState :=
  if negb (loadingHidden st) then Some Loading
  else if negb (threadDetailHidden st) then Some (Detail (currentThread st))
  else if negb (threadsHidden st) then Some List
  else if negb (noResultsHidden st) then Some Empty
  else None.

(** Strict equality of two strings. *)
Fixpoint jsstring_eqb (a b : jsstring) : bool :=
  match a, b with
  | [], [] => true
  | x :: a', y :: b' => N.eqb x y && jsstring_eqb a' b'
  | _, _ => false
  end.

(** [Array.prototype.includes] on an array of strings; [undefined] equals
    none of them. *)
Definition arrayIncludes (l : list jsstring) (v : option jsstring) : bool :=
  match v with
  | Some s => existsb (jsstring_eqb s) l
  | None => false
  end.

Definition Escape : jsstring := str "Escape".

(* ===================================================================== *)
(** ** Sample data *)
(* ===================================================================== *)

(** Lower-casing of the letters A-Z.  [String.prototype.toLowerCase] agrees
    with it on every string whose cased letters are all ASCII. *)
Definition asciiLower (s : jsstring) : jsstring :=
  map (fun c => if (65 <=? c)%N && (c <=? 90)%N then (c + 32)%N else c) s.

Definition hours (n : Z) : Z := n * 3600000.

(** A thread with one reply and a thread with none. *)
Definition threadA : Thread :=
  {| thread_number := Some (str "3691447");
     post_title := Some (str "Thread A");
     keyword := Some (str "News");
     username := Some (str "alice");
     replies := Some [ {| user := Some (str "bob");
                          user_id := Some (str "431346");
                          time := Some (str "2024年5月7日 21:24:39");
                          reply := Some (str "First reply") |} ] |}.

Definition threadB : Thread :=
  {| thread_number := Some (str "3691448");
     post_title := Some (str "Thread B");
     keyword := Some (str "Sport");
     username := Some (str "carol");
     replies := Some [] |}.

(** A thread whose only reply was written at noon on 31 May 2024. *)
Definition threadNoon : Thread :=
  {| thread_number := Some (str "3691449");
     post_title := Some (str "Thread C");
     keyword := Some (str "News");
     username := Some (str "dave");
     replies := Some [ {| user := None;
                          user_id := Some (str "454665");
                          time := Some (str "2024年5月31日 12:00:00");
                          reply := Some (str "Noon reply") |} ] |}.

(** A thread whose only reply was written at 3 a.m. on 1 May 2024. *)
Definition threadEarly : Thread :=
  {| thread_number := Some (str "3691451");
     post_title := Some (str "Thread D");
     keyword := Some (str "Sport");
     username := Some (str "frank");
     replies := Some [ {| user := Some (str "grace");
                          user_id := Some (str "431347");
                          time := Some (str "2024年5月1日 03:00:00");
                          reply := Some (str "Early reply") |} ] |}.

(** A thread object without a [post_title] property. *)
Definition threadUntitled : Thread :=
  {| thread_number := Some (str "3691450");
     post_title := None;
     keyword := Some (str "News");
     username := Some (str "erin");
     replies := Some [] |}.

(** A page showing [threads] with nothing chosen in the filter panel, as
    after loading and a click on Reset: list (or the empty notice) visible, no
    filter applied, date inputs cleared, panel closed. *)
Definition loadedPage (threads : list Thread) : State :=
  {| allThreads := threads; currentThread := None;
     activeFilters := noFilters; searchInput := [];
     startDateInput := None; endDateInput := None;
     selectedChips := []; loadingHidden := true;
     threadsHidden := Nat.eqb (List.length threads) 0;
     threadDetailHidden := true;
     noResultsHidden := negb (Nat.eqb (List.length threads) 0);
     filterPanelHidden := true;
     threadsCards := threads; threadContent := None;
     filterToggleActive := false |}.

Definition set_searchInput (v : jsstring) (st : State) : State :=
  {| allThreads := allThreads st; currentThread := currentThread st;
     activeFilters := activeFilters st; searchInput := v;
     startDateInput := startDateInput st; endDateInput := endDateInput st;
     selectedChips := selectedChips st; loadingHidden := loadingHidden st;
     threadsHidden := threadsHidden st;
     threadDetailHidden := threadDetailHidden st;
     noResultsHidden := noResultsHidden st;
     filterPanelHidden := filterPanelHidden st;
     threadsCards := threadsCards st; threadContent := threadContent st;
     filterToggleActive := filterToggleActive st |}.

(** The user opens the filter panel and picks 1 May 2024 to 31 May 2024 in
    the two date inputs. *)
Definition may2024 (st : State) : State :=
  set_dateInputs (Some (CalendarDate 2024 5 1)) (Some (CalendarDate 2024 5 31))
    (set_filterPanel false true st).

(** The list of keyword chips selected: "News" only. *)
Definition newsOnly : Filters :=
  {| keywords := [str "News"]; startDate := None; endDate := None |}.

Definition set_allThreads (v : list Thread) (st : State) : State :=
  {| allThreads := v; currentThread := currentThread st;
     activeFilters := activeFilters st; searchInput := searchInput st;
     startDateInput := startDateInput st; endDateInput := endDateInput st;
     selectedChips := selectedChips st; loadingHidden := loadingHidden st;
     threadsHidden := threadsHidden st;
     threadDetailHidden := threadDetailHidden st;
     noResultsHidden := noResultsHidden st;
     filterPanelHidden := filterPanelHidden st;
     threadsCards := threadsCards st; threadContent := threadContent st;
     filterToggleActive := filterToggleActive st |}.

Definition set_loadingHidden (v : bool) (st : State) : State :=
  {| allThreads := allThreads st; currentThread := currentThread st;
     activeFilters := activeFilters st; searchInput := searchInput st;
     startDateInput := startDateInput st; endDateInput := endDateInput st;
     selectedChips := selectedChips st; loadingHidden := v;
     threadsHidden := threadsHidden st;
     threadDetailHidden := threadDetailHidden st;
     noResultsHidden := noResultsHidden st;
     filterPanelHidden := filterPanelHidden st;
     threadsCards := threadsCards st; threadContent := threadContent st;
     filterToggleActive := filterToggleActive st |}.

(** The whole document: the page state above, the [uniqueKeywords] set (in
    insertion order), the keyword chips of the filter panel (keyword and
    whether the chip carries the [selected] class, in document order) and the
    error messages shown at the top of [main].  [selectedChips] of the page is
    what querying the selected chips gives. *)
Record Document := {
  page : State;
  uniqueKeywords : list jsstring;
  keywordChips : list (jsstring * bool);
  errorMessages : list jsstring
}.

Definition selectedKeywords (chips : list (jsstring * bool)) : list jsstring :=
  map fst (filter snd chips).

Definition set_page (st : State) (d : Document) : Document :=
  {| page := st; uniqueKeywords := uniqueKeywords d;
     keywordChips := keywordChips d; errorMessages := errorMessages d |}.

(** How the fetch of data.json ends. *)
Inductive fetchResult :=
| FetchRejected                      (* the fetch promise rejects *)
| ResponseNotOk (status : Z)         (* [response.ok] is false *)
| BodyNotJson                        (* [response.json()] rejects *)
| Body (data : list Thread).         (* the body is an array of thread objects *)

(** What the user and the browser can do to the page once the listeners are
    set up. *)
Inductive Event :=
| BackClick
| SearchClick
| SearchKeyup (key : jsstring)
| FilterToggleClick
| ApplyClick
| ResetClick
| DocumentKeydown (key : jsstring)
| ViewClick (card : nat)             (* the view button of the n-th card *)
| ChipClick (chip : nat)             (* the n-th keyword chip *)
| SearchInputEdit (v : jsstring)
| StartDateEdit (v : option calendarDate)
| EndDateEdit (v : option calendarDate).

Definition Enter : jsstring := str "Enter".

Definition loadErrorText : jsstring :=
  str "Failed to load thread data. Please try refreshing the page.".

(** A document on which the script has not run yet: only the loading
    indicator is visible, and there are no cards, chips or messages. *)
Definition blankDocument : Document :=
  {| page := {| allThreads := []; currentThread := None;
                activeFilters := noFilters; searchInput := [];
                startDateInput := None; endDateInput := None;
                selectedChips := []; loadingHidden := false;
                threadsHidden := true; threadDetailHidden := true;
                noResultsHidden := true; filterPanelHidden := true;
                threadsCards := []; threadContent := None;
                filterToggleActive := false |};
     uniqueKeywords := []; keywordChips := []; errorMessages := [] |}.

(** A thread whose only reply carries no time. *)
Definition threadUndated : Thread :=
  {| thread_number := Some (str "3691452");
     post_title := Some (str "Thread E");
     keyword := Some (str "News");
     username := Some (str "heidi");
     replies := Some [ {| user := Some (str "ivan");
                          user_id := Some (str "431348");
                          time := None;
                          reply := Some (str "Undated reply") |} ] |}.

(** 7 May 2024, 21:24:39 UTC, as a time value. *)
Definition may7evening : Z := 1715117079000.

(* ===================================================================== *)
(** ** The script *)
(* ===================================================================== *)

Section Script.

(** What the host provides: [String.prototype.toLowerCase], and the offset of
    local time from UTC in milliseconds (taken constant: no daylight-saving
    change between the instants compared). *)
Variable toLowerCase : jsstring -> jsstring.
Variable LocalTZA : Z.

Definition LocalTime (t : Z) : Z := t + LocalTZA.
Definition UTC (t : Z) : Z := t - LocalTZA.

(** [new Date(year, month, day, hours, minutes, seconds)]: the fields are
    read in local time, and a year from 0 to 99 stands for 1900 + year.  A
    NaN argument gives an invalid date. *)
Definition newDate (year month day hours minutes seconds : option Z) : timeValue :=
  match year, month, day, hours, minutes, seconds with
  | Some y, Some m, Some d, Some h, Some mi, Some s =>
      let yr := if (0 <=? y) && (y <=? 99) then 1900 + y else y in
      TimeClip (UTC (MakeDate (MakeDay yr m d) (MakeTime h mi s 0)))
  | _, _, _, _, _, _ => NaN
  end.

(** [date.setHours(h, min, sec, ms)]: the local day is kept and the local
    time of day replaced. *)
Definition setHours (h mi s ms : Z) (d : timeValue) : timeValue :=
  match d with
  | NaN => NaN
  | Finite t => TimeClip (UTC (MakeDate (Day (LocalTime t)) (MakeTime h mi s ms)))
  end.

(** [parseInt(dateParts[i])]. *)
Definition parseIntAt (dateParts : list jsstring) (i : nat) : option Z :=
  match nth_error dateParts i with
  | Some s => parseInt s
  | None => None
  end.

(** [reply.time.match(...)] in the date-range callback of [filterThreads]. *)
Definition dateParts (time : jsstring) : option (list jsstring) :=
  regex_match timestampPattern time.

(** The Date the callback builds from the match array. *)
Definition replyDate (parts : list jsstring) : timeValue :=
  newDate (parseIntAt parts 1)
          (option_map (fun m => m - 1) (parseIntAt parts 2))
          (parseIntAt parts 3)
          (parseIntAt parts 4)
          (parseIntAt parts 5)
          (parseIntAt parts 6).

(** The callback given to [thread.replies.some] for the date range. *)
Definition replyInDateRange (start finish : timeValue) (r : Reply) : bool :=
  if negb (truthy (time r)) then false
  else
    match time r with
    | None => false
    | Some tm =>
        match dateParts tm with
        | None => false
        | Some parts =>
            date_ge (replyDate parts) start && date_le (replyDate parts) finish
        end
    end.

(** [field.toLowerCase().includes(searchTerm)]; calling a method on
    [undefined] raises a TypeError. *)
Definition lowerIncludes (field : option jsstring) (searchTerm : jsstring)
    : result bool :=
  match field with
  | None => Throw TypeError
  | Some s => Ok (includes (toLowerCase s) searchTerm)
  end.

(** The callback given to [thread.replies.some] for the search term. *)
Definition replyMatches (searchTerm : jsstring) (r : Reply) : result bool :=
  lowerIncludes (reply r) searchTerm
  ||| (if truthy (user r) then lowerIncludes (user r) searchTerm else Ok false).

Definition matchesSearch (searchTerm : jsstring) (thread : Thread) : result bool :=
  lowerIncludes (post_title thread) searchTerm
  ||| lowerIncludes (keyword thread) searchTerm
  ||| lowerIncludes (username thread) searchTerm
  ||| match replies thread with
      | None => Ok false
      | Some rs => some (replyMatches searchTerm) rs
      end.

Definition isEmptyString (s : jsstring) : bool :=
  match s with
  | [] => true
  | _ :: _ => false
  end.

(** The callback of [filterThreads]: search term, then keyword filter, then
    date range. *)
Definition threadPasses (searchTerm : jsstring) (f : Filters) (thread : Thread)
    : result bool :=
  found <- (if negb (isEmptyString searchTerm)
            then matchesSearch searchTerm thread
            else Ok true) ;;
  if negb found then Ok false
  else if (0 <? Z.of_nat (List.length (keywords f)))
          && negb (arrayIncludes (keywords f) (keyword thread))
  then Ok false
  else
    match startDate f, endDate f, replies thread with
    | Some start, Some finish, Some ((_ :: _) as rs) =>
        hasReplyInDateRange <-
          some (fun r => Ok (replyInDateRange start finish r)) rs ;;
        if negb hasReplyInDateRange then Ok false else Ok true
    | _, _, _ => Ok true
    end.

Definition filterThreads (searchTerm : jsstring) (st : State)
    : result (list Thread) :=
  filterArray (threadPasses searchTerm (activeFilters st)) (allThreads st).

Definition showNoResults (st : State) : State :=
  set_threadsHidden true (set_noResultsHidden false st).

Definition hideNoResults (st : State) : State :=
  set_noResultsHidden true st.

Definition showThreadsView (st : State) : State :=
  let st1 := set_threadsHidden false (set_threadDetailHidden true st) in
  let st2 := if Nat.eqb (List.length (allThreads st1)) 0
             then showNoResults st1 else hideNoResults st1 in
  set_currentThread None st2.

Definition renderThreads (threads : list Thread) (st : State) : State :=
  let st1 := set_threadsCards [] st in
  if Nat.eqb (List.length threads) 0 then showNoResults st1
  else showThreadsView (set_threadsCards threads (hideNoResults st1)).

Definition showThreadDetail (thread : Thread) (st : State) : State :=
  let st1 := set_threadContent (Some thread) (set_currentThread (Some thread) st) in
  set_threadDetailHidden false (set_noResultsHidden true (set_threadsHidden true st1)).

(** A handler ends normally or with an uncaught exception; either way the
    state it leaves behind is the state reached so far. *)
Definition outcome : Type := State * option exn.

Definition performSearch (st : State) : outcome :=
  let searchTerm := toLowerCase (trim (searchInput st)) in
  match filterThreads searchTerm st with
  | Throw e => (st, Some e)
  | Ok filteredThreads =>
      let st1 := renderThreads filteredThreads st in
      (if Nat.eqb (List.length filteredThreads) 0 then showNoResults st1 else st1, None)
  end.

Definition toggleFilterPanel (st : State) : State :=
  let hidden := negb (filterPanelHidden st) in
  set_filterPanel hidden (negb hidden) st.

Definition applyFilters (st : State) : outcome :=
  let selectedKeywords := selectedChips st in
  let startDate := valueAsDate (startDateInput st) in
  let endDate := option_map (setHours 23 59 59 999) (valueAsDate (endDateInput st)) in
  let st1 := set_activeFilters
               {| keywords := selectedKeywords;
                  startDate := startDate;
                  endDate := endDate |} st in
  match performSearch st1 with
  | (st2, None) => (toggleFilterPanel st2, None)
  | (st2, Some e) => (st2, Some e)
  end.

Definition resetFilters (st : State) : State :=
  let st1 := set_dateInputs None None (set_selectedChips [] st) in
  renderThreads (allThreads st1) (set_activeFilters noFilters st1).

(** The document's [keydown] listener. *)
Definition onKeydown (key : jsstring) (st : State) : State :=
  if jsstring_eqb key Escape then
    if negb (filterPanelHidden st) then toggleFilterPanel st
    else if negb (threadsHidden st) then showThreadsView st
    else st
  else st.

(** *** The earlier version of the script (search only) *)

Definition threadPasses_v1 (searchTerm : jsstring) (thread : Thread) : result bool :=
  inHeader <- (lowerIncludes (post_title thread) searchTerm
               ||| lowerIncludes (keyword thread) searchTerm
               ||| lowerIncludes (username thread) searchTerm) ;;
  if inHeader then Ok true
  else
    match replies thread with
    | Some ((_ :: _) as rs) => some (replyMatches searchTerm) rs
    | _ => Ok false
    end.

Definition performSearch_v1 (st : State) : outcome :=
  let searchTerm := toLowerCase (trim (searchInput st)) in
  if isEmptyString searchTerm then (renderThreads (allThreads st) st, None)
  else
    match filterArray (threadPasses_v1 searchTerm) (allThreads st) with
    | Throw e => (st, Some e)
    | Ok filteredThreads =>
        let st1 := renderThreads filteredThreads st in
        (if Nat.eqb (List.length filteredThreads) 0 then showNoResults st1 else st1, None)
    end.

Definition onKeydown_v1 (key : jsstring) (st : State) : State :=
  if jsstring_eqb key Escape && negb (threadsHidden st)
  then showThreadsView st else st.

(** *** Loading, keyword chips and event listeners *)

(** [Set.prototype.add]: insertion order is kept and a value already present
    is not added again. *)
Definition setAdd (k : jsstring) (s : list jsstring) : list jsstring :=
  if existsb (jsstring_eqb k) s then s else s ++ [k].

(** [extractUniqueKeywords]: the set is cleared, then every truthy keyword is
    added in the order of the threads. *)
Definition extractUniqueKeywords (threads : list Thread) : list jsstring :=
  fold_left
    (fun set thread =>
       if truthy (keyword thread)
       then match keyword thread with
            | Some k => setAdd k set
            | None => set
            end
       else set)
    threads [].

(** [date.setMonth(month)]: local year, day of month and time of day are
    kept. *)
Definition setMonth (month : Z) (d : timeValue) : timeValue :=
  match d with
  | NaN => NaN
  | Finite t =>
      let lt := LocalTime t in
      TimeClip (UTC (MakeDate (MakeDay (YearFromTime lt) month (DateFromTime lt))
                              (TimeWithinDay lt)))
  end.

(** [date.getMonth()] of a valid date. *)
Definition getMonth (t : Z) : Z := MonthFromTime (LocalTime t).

(** [initializeFilters], run when [new Date()] is the instant [now]: one
    unselected chip per unique keyword, and the date inputs preset to the
    month that ends today. *)
Definition initializeFilters (now : Z) (d : Document) : Document :=
  let today := Finite now in
  let lastMonth := setMonth (getMonth now - 1) (Finite now) in
  {| page := set_dateInputs (setValueAsDate lastMonth) (setValueAsDate today)
               (set_selectedChips [] (page d));
     uniqueKeywords := uniqueKeywords d;
     keywordChips := map (fun keyword => (keyword, false)) (uniqueKeywords d);
     errorMessages := errorMessages d |}.

Definition showLoading (st : State) : State :=
  set_noResultsHidden true
    (set_threadDetailHidden true (set_threadsHidden true (set_loadingHidden false st))).

Definition hideLoading (st : State) : State := set_loadingHidden true st.

(** [showError]: earlier messages are removed and the new one is put first. *)
Definition showError (message : jsstring) (d : Document) : Document :=
  {| page := page d; uniqueKeywords := uniqueKeywords d;
     keywordChips := keywordChips d; errorMessages := [message] |}.

(** [loadThreadData] up to its first [await]. *)
Definition loadThreadData_begin (d : Document) : Document :=
  set_page (showLoading (page d)) d.

(** [loadThreadData] from the moment the fetch has settled: the body of the
    [try] after a good response, the [catch] otherwise, then the
    [finally]. *)
Definition loadThreadData_resume (now : Z) (r : fetchResult) (d : Document)
    : Document :=
  let d' :=
    match r with
    | Body data =>
        let d1 := set_page (set_allThreads data (page d)) d in
        let d2 := {| page := page d1;
                     uniqueKeywords := extractUniqueKeywords (allThreads (page d1));
                     keywordChips := keywordChips d1;
                     errorMessages := errorMessages d1 |} in
        let d3 := initializeFilters now d2 in
        set_page (renderThreads (allThreads (page d3)) (page d3)) d3
    | _ => showError loadErrorText d
    end in
  set_page (hideLoading (page d')) d'.

Definition loadThreadData (now : Z) (r : fetchResult) (d : Document) : Document :=
  loadThreadData_resume now r (loadThreadData_begin d).

(** A click on a chip toggles its [selected] class. *)
Fixpoint toggleChip (n : nat) (chips : list (jsstring * bool))
    : list (jsstring * bool) :=
  match chips, n with
  | [], _ => []
  | (k, b) :: rest, O => (k, negb b) :: rest
  | c :: rest, S n' => c :: toggleChip n' rest
  end.

(** The listeners installed by [setupEventListeners], [createThreadCard] and
    [initializeFilters], and the edits of the form controls.  The answer is
    the document the event leaves and the exception, if any, that ended the
    listener. *)
Definition dispatch (e : Event) (d : Document) : Document * option exn :=
  match e with
  | BackClick => (set_page (showThreadsView (page d)) d, None)
  | SearchClick =>
      let (st, x) := performSearch (page d) in (set_page st d, x)
  | SearchKeyup key =>
      if jsstring_eqb key Enter
      then let (st, x) := performSearch (page d) in (set_page st d, x)
      else (d, None)
  | FilterToggleClick => (set_page (toggleFilterPanel (page d)) d, None)
  | ApplyClick =>
      let (st, x) := applyFilters (page d) in (set_page st d, x)
  | ResetClick =>
      ({| page := resetFilters (page d);
          uniqueKeywords := uniqueKeywords d;
          keywordChips := map (fun c => (fst c, false)) (keywordChips d);
          errorMessages := errorMessages d |}, None)
  | DocumentKeydown key => (set_page (onKeydown key (page d)) d, None)
  | ViewClick card =>
      match nth_error (threadsCards (page d)) card with
      | Some thread => (set_page (showThreadDetail thread (page d)) d, None)
      | None => (d, None)
      end
  | ChipClick chip =>
      let chips := toggleChip chip (keywordChips d) in
      ({| page := set_selectedChips (selectedKeywords chips) (page d);
          uniqueKeywords := uniqueKeywords d;
          keywordChips := chips;
          errorMessages := errorMessages d |}, None)
  | SearchInputEdit v => (set_page (set_searchInput v (page d)) d, None)
  | StartDateEdit v =>
      (set_page (set_dateInputs v (endDateInput (page d)) (page d)) d, None)
  | EndDateEdit v =>
      (set_page (set_dateInputs (startDateInput (page d)) v (page d)) d, None)
  end.

(** The document after a sequence of events. *)
Definition run (events : list Event) (d : Document) : Document :=
  fold_left (fun d e => fst (dispatch e d)) events d.

(* ===================================================================== *)
(** ** Vocabulary of the properties *)
(* ===================================================================== *)

(** [t] occurs in [s] as a contiguous run of code units. *)
Definition Substring (t s : jsstring) : Prop :=
  exists pre post, s = pre ++ t ++ post.

(** The elements on which the callback ends normally with [true]. *)
Definition accepts {A} (f : A -> result bool) (a : A) : bool :=
  match f a with
  | Ok true => true
  | _ => false
  end.

(** The keyword and date-range criteria as the callback applies them once
    the search term has been dealt with. *)
Definition keywordPasses (f : Filters) (t : Thread) : bool :=
  match keywords f with
  | [] => true
  | _ :: _ => arrayIncludes (keywords f) (keyword t)
  end.

Definition dateRangePasses (f : Filters) (t : Thread) : bool :=
  match startDate f, endDate f, replies t with
  | Some start, Some finish, Some ((_ :: _) as rs) =>
      existsb (replyInDateRange start finish) rs
  | _, _, _ => true
  end.

(** A thread as the data format describes it: title, keyword and user name
    present, and reply text present on every reply.  The [user] of a reply and
    the [replies] array itself may be missing. *)
Definition ThreadConforms (t : Thread) : Prop :=
  post_title t <> None /\ keyword t <> None /\ username t <> None
  /\ forall rs r, replies t = Some rs -> In r rs -> reply r <> None.

(** The search-term test on conforming threads, without the exception
    plumbing. *)
Definition fieldHas (T : jsstring) (field : option jsstring) : bool :=
  match field with
  | Some s => includes (toLowerCase s) T
  | None => false
  end.

Definition replyHit (T : jsstring) (r : Reply) : bool :=
  fieldHas T (reply r) || (truthy (user r) && fieldHas T (user r)).

Definition searchHit (T : jsstring) (t : Thread) : bool :=
  fieldHas T (post_title t) || fieldHas T (keyword t) || fieldHas T (username t)
  || match replies t with
     | Some rs => existsb (replyHit T) rs
     | None => false
     end.

(** Case-insensitive containment: the lower-cased term occurs in the
    lower-cased text. *)
Definition CaseInsensitiveSubstring (T s : jsstring) : Prop :=
  Substring (toLowerCase T) (toLowerCase s).

Definition FieldContains (T : jsstring) (field : option jsstring) : Prop :=
  exists s, field = Some s /\ CaseInsensitiveSubstring T s.

Definition SearchTermOccurs (T : jsstring) (t : Thread) : Prop :=
  FieldContains T (post_title t) \/ FieldContains T (keyword t)
  \/ FieldContains T (username t)
  \/ exists rs r, replies t = Some rs /\ In r rs
       /\ (FieldContains T (reply r) \/ FieldContains T (user r)).

(** Lower-casing maps the empty string, and nothing else, to the empty
    string. *)
Hypothesis toLowerCase_nil : toLowerCase [] = [].

Hypothesis toLowerCase_nonempty : forall s, s <> [] -> toLowerCase s <> [].

(** What a pattern accepts: one word per atom, each made of code units of
    the atom's class and of a length within the atom's bounds. *)
Definition bounded (h : option nat) (n : nat) : Prop :=
  match h with
  | Some m => (n <= m)%nat
  | None => True
  end.

Definition fits (a : atom) (w : jsstring) : Prop :=
  forallb (cls a) w = true /\ (lo a <= List.length w)%nat
  /\ bounded (hi a) (List.length w).

(** The pattern occurs somewhere in [s]. *)
Definition Occurs (p : list atom) (s : jsstring) : Prop :=
  exists pre ws rest, Forall2 fits p ws /\ s = pre ++ List.concat ws ++ rest.




(** A run of decimal digits of a length between [a] and [b], and a non-empty
    run of white space. *)
Definition digitRun (a b : nat) (w : jsstring) : Prop :=
  forallb isDigit w = true /\ (a <= List.length w <= b)%nat.

Definition blankRun (w : jsstring) : Prop :=
  forallb isWhiteSpace w = true /\ w <> [].

(** The text  y年m月d日 h:mi:se  with [sp] between date and time. *)
Definition timestampText (y m d sp h mi se : jsstring) : jsstring :=
  y ++ nian :: m ++ yue :: d ++ ri :: sp ++ h ++ colon :: mi ++ colon :: se.

Definition TimestampFields (y m d sp h mi se : jsstring) : Prop :=
  digitRun 4 4 y /\ digitRun 1 2 m /\ digitRun 1 2 d /\ blankRun sp
  /\ digitRun 1 2 h /\ digitRun 1 2 mi /\ digitRun 1 2 se.

Definition ContainsTimestamp (s : jsstring) : Prop :=
  exists pre y m d sp h mi se post,
    TimestampFields y m d sp h mi se
    /\ s = pre ++ timestampText y m d sp h mi se ++ post.


(** A reply whose timestamp parses to an instant between [start] and
    [finish], both ends included. *)
Definition InRange (start finish : timeValue) (r : Reply) : Prop :=
  exists tm parts,
    time r = Some tm /\ dateParts tm = Some parts
    /\ date_le start (replyDate parts) = true
    /\ date_le (replyDate parts) finish = true.

Definition NoReplies (t : Thread) : Prop :=
  replies t = None \/ replies t = Some [].

Definition HasReplyInRange (start finish : timeValue) (t : Thread) : Prop :=
  exists rs r, replies t = Some rs /\ In r rs /\ InRange start finish r.

(** The filters with the date range taken out. *)
Definition withoutDates (f : Filters) : Filters :=
  {| keywords := keywords f; startDate := None; endDate := None |}.

(** The three criteria of the filter, each as a property of a thread. *)
Definition SearchCriterion (T : jsstring) (t : Thread) : Prop :=
  T = [] \/ matchesSearch T t = Ok true.

Definition KeywordCriterion (f : Filters) (t : Thread) : Prop :=
  keywords f = [] \/ exists k, keyword t = Some k /\ In k (keywords f).

Definition DateCriterion (f : Filters) (t : Thread) : Prop :=
  match startDate f, endDate f with
  | Some start, Some finish => NoReplies t \/ HasReplyInRange start finish t
  | _, _ => True
  end.

(** The fields the search-term test reads, in the order it reads them: title,
    keyword, user name, then for each reply its text and, when it has a
    non-empty one, its user. *)
Definition probes (t : Thread) : list (option jsstring) :=
  [post_title t; keyword t; username t]
  ++ match replies t with
     | None => []
     | Some rs =>
         flat_map (fun r => reply r :: (if truthy (user r) then [user r] else [])) rs
     end.

(** A field that is present and does not contain the term. *)
Definition Misses (T : jsstring) (p : option jsstring) : Prop :=
  exists s, p = Some s /\ includes (toLowerCase s) T = false.

(** Reading the fields one after the other up to the first that contains the
    term or is absent. *)
Fixpoint scan (T : jsstring) (ps : list (option jsstring)) : result bool :=
  match ps with
  | [] => Ok false
  | None :: _ => Throw TypeError
  | Some s :: ps' => if includes (toLowerCase s) T then Ok true else scan T ps'
  end.

(** [g] lets through at least what [f] lets through: no keyword restriction
    or a larger keyword selection, and no date range or a wider one. *)
Definition Loosens (g f : Filters) : Prop :=
  (keywords g = [] \/ (keywords f <> [] /\ incl (keywords f) (keywords g)))
  /\ match startDate g, endDate g with
     | Some start', Some finish' =>
         exists start finish,
           startDate f = Some start /\ endDate f = Some finish
           /\ date_le start' start = true /\ date_le finish finish' = true
     | _, _ => True
     end.

(** The day number (days since 1 January 1970) of a calendar date. *)
Definition dayNumber (c : calendarDate) : Z :=
  MakeDay (cyear c) (cmonth c - 1) (cday c).

(** What the script's variables and the generated parts of the document hold
    before anything has run. *)
Definition Initial (d : Document) : Prop :=
  allThreads (page d) = [] /\ currentThread (page d) = None
  /\ activeFilters (page d) = noFilters /\ selectedChips (page d) = []
  /\ threadsCards (page d) = []
  /\ uniqueKeywords d = [] /\ keywordChips d = [].

(** What holds of the page at every moment from then on, [uk] being the
    unique keywords: the active keywords are among them, the cards are
    threads of the collection in collection order, the thread shown in detail
    belongs to the collection, the detail section is visible exactly while a
    thread is current, and the list is never visible together with the detail
    section or the no-results notice. *)
Definition PageCoherent (uk : list jsstring) (st : State) : Prop :=
  incl (keywords (activeFilters st)) uk
  /\ (exists keep : Thread -> bool, threadsCards st = filter keep (allThreads st))
  /\ (forall t, currentThread st = Some t -> In t (allThreads st))
  /\ (threadDetailHidden st = false <-> currentThread st <> None)
  /\ (threadsHidden st = false ->
      noResultsHidden st = true /\ threadDetailHidden st = true).

(** The same for the whole document: the unique keywords are those of the
    collection, there is one chip per unique keyword, and the selected chips
    are what the page reads. *)
Definition Coherent (d : Document) : Prop :=
  uniqueKeywords d = extractUniqueKeywords (allThreads (page d))
  /\ map fst (keywordChips d) = uniqueKeywords d
  /\ selectedChips (page d) = selectedKeywords (keywordChips d)
  /\ PageCoherent (uniqueKeywords d) (page d).

(** The collection a fetch result loads. *)
Definition loaded (r : fetchResult) : list Thread :=
  match r with
  | Body data => data
  | _ => []
  end.

(* ===================================================================== *)
(** ** Strings, arrays and exceptions: basic facts *)
(* ===================================================================== *)

Lemma startsWith_spec (s t : jsstring) :
  startsWith s t = true <-> exists post, s = t ++ post.
Proof.
  revert s; induction t as [|c t IH]; intros s; simpl.
  - split; [intros _; now exists s | reflexivity].
  - destruct s as [|d s].
    + split; [discriminate | intros [post H]; discriminate].
    + rewrite andb_true_iff, N.eqb_eq, IH. split.
      * intros [-> [post ->]]. now exists post.
      * intros [post H]. injection H as -> ->. split; [reflexivity | now exists post].
Qed.

Lemma includes_spec (s t : jsstring) :
  includes s t = true <-> Substring t s.
Proof.
  unfold Substring. induction s as [|d s IH]; simpl.
  - rewrite orb_false_r, startsWith_spec. split.
    + intros [post H]. now exists [], post.
    + intros [pre [post H]]. destruct pre; [now exists post | discriminate].
  - rewrite orb_true_iff, startsWith_spec, IH. split.
    + intros [[post H] | [pre [post H]]].
      * now exists [], post.
      * exists (d :: pre), post. simpl. now rewrite H.
    + intros [[|x pre] [post H]].
      * left. now exists post.
      * right. simpl in H. injection H as -> ->. now exists pre, post.
Qed.

Lemma includes_empty_term (s : jsstring) : includes s [] = true.
Proof. destruct s; reflexivity. Qed.

Lemma jsstring_eqb_eq (a b : jsstring) : jsstring_eqb a b = true <-> a = b.
Proof.
  revert b; induction a as [|x a IH]; intros [|y b]; simpl;
    try (split; [discriminate | congruence]); [tauto|].
  rewrite andb_true_iff, N.eqb_eq, IH. split.
  - intros [-> ->]; reflexivity.
  - intros H; injection H as -> ->; auto.
Qed.

Lemma arrayIncludes_spec (l : list jsstring) (v : option jsstring) :
  arrayIncludes l v = true <-> exists k, v = Some k /\ In k l.
Proof.
  destruct v as [s|]; simpl.
  - rewrite existsb_exists. split.
    + intros [x [Hin Heq]]. apply jsstring_eqb_eq in Heq. subst. now exists x.
    + intros [k [[= ->] Hin]]. exists k. split; [assumption | now apply jsstring_eqb_eq].
  - split; [discriminate | intros [k [H _]]; discriminate].
Qed.

Lemma some_pure {A} (f : A -> bool) (l : list A) :
  some (fun a => Ok (f a)) l = Ok (existsb f l).
Proof.
  induction l as [|a l IH]; simpl; [reflexivity|].
  destruct (f a); simpl; [reflexivity | exact IH].
Qed.

Lemma some_ok {A} (f : A -> result bool) (p : A -> bool) (l : list A) :
  (forall a, In a l -> f a = Ok (p a)) -> some f l = Ok (existsb p l).
Proof.
  induction l as [|a l IH]; simpl; intros H; [reflexivity|].
  rewrite (H a (or_introl eq_refl)). simpl.
  destruct (p a); simpl; [reflexivity|]. apply IH. intros; apply H; now right.
Qed.

Lemma filterArray_ok {A} (f : A -> result bool) (p : A -> bool) (l : list A) :
  (forall a, In a l -> f a = Ok (p a)) -> filterArray f l = Ok (filter p l).
Proof.
  induction l as [|a l IH]; simpl; intros H; [reflexivity|].
  rewrite (H a (or_introl eq_refl)). simpl.
  rewrite IH by (intros; apply H; now right). reflexivity.
Qed.

Lemma filterArray_ext {A} (f g : A -> result bool) (l : list A) :
  (forall a, In a l -> f a = g a) -> filterArray f l = filterArray g l.
Proof.
  induction l as [|a l IH]; simpl; intros H; [reflexivity|].
  rewrite (H a (or_introl eq_refl)).
  rewrite IH by (intros; apply H; now right). reflexivity.
Qed.

(** When the loop ends normally, every call of the callback did, and the
    result keeps exactly the elements it accepted. *)
Lemma filterArray_inv {A} (f : A -> result bool) (l res : list A) :
  filterArray f l = Ok res ->
  (forall a, In a l -> exists b, f a = Ok b) /\ res = filter (accepts f) l.
Proof.
  revert res; induction l as [|a l IH]; simpl; intros res H.
  - injection H as <-. split; [contradiction | reflexivity].
  - destruct (f a) as [b|e] eqn:Ea; simpl in H; [|discriminate].
    destruct (filterArray f l) as [r|e] eqn:El; simpl in H; [|discriminate].
    injection H as <-.
    destruct (IH r eq_refl) as [Hall ->]. split.
    + intros x [<- | Hx]; [now exists b | now apply Hall].
    + assert (Hb : accepts f a = b)
        by (unfold accepts; rewrite Ea; destruct b; reflexivity).
      simpl. rewrite Hb. destruct b; reflexivity.
Qed.

Lemma filterArray_In {A} (f : A -> result bool) (l res : list A) (a : A) :
  filterArray f l = Ok res -> (In a res <-> In a l /\ f a = Ok true).
Proof.
  intros H. destruct (filterArray_inv _ _ H) as [Hall ->].
  rewrite filter_In. unfold accepts. split.
  - intros [Hin Hf]. split; [assumption|].
    destruct (f a) as [[|]|]; congruence.
  - intros [Hin ->]. now split.
Qed.

(* ===================================================================== *)
(** ** The filter engine *)
(* ===================================================================== *)

Lemma date_branch (f : Filters) (t : Thread) :
  match startDate f, endDate f, replies t with
  | Some start, Some finish, Some ((_ :: _) as rs) =>
      hasReplyInDateRange <-
        some (fun r => Ok (replyInDateRange start finish r)) rs ;;
      if negb hasReplyInDateRange then Ok false else Ok true
  | _, _, _ => Ok true
  end = Ok (dateRangePasses f t).
Proof.
  unfold dateRangePasses.
  destruct (startDate f) as [sd|], (endDate f) as [ed|],
           (replies t) as [[|r rs]|]; try reflexivity.
  rewrite some_pure. unfold bind.
  destruct (existsb (replyInDateRange sd ed) (r :: rs)); reflexivity.
Qed.

Lemma threadPasses_split (T : jsstring) (f : Filters) (t : Thread) :
  threadPasses T f t =
  (found <- (if negb (isEmptyString T) then matchesSearch T t else Ok true) ;;
   Ok (found && keywordPasses f t && dateRangePasses f t)).
Proof.
  unfold threadPasses. rewrite date_branch.
  destruct (if negb (isEmptyString T) then matchesSearch T t else Ok true)
    as [[|]|e]; unfold bind; try reflexivity.
  unfold keywordPasses. destruct (keywords f) as [|k ks]; [reflexivity|].
  cbn [negb List.length andb]. 
  replace (0 <? Z.of_nat (S (List.length ks))) with true
    by (symmetry; apply Z.ltb_lt; lia).
  cbn [andb]. destruct (arrayIncludes (k :: ks) (keyword t)); reflexivity.
Qed.

Lemma threadPasses_no_term (f : Filters) (t : Thread) :
  threadPasses [] f t = Ok (keywordPasses f t && dateRangePasses f t).
Proof. rewrite threadPasses_split. reflexivity. Qed.

Lemma filterThreads_no_term (st : State) :
  filterThreads [] st =
  Ok (filter (fun t => keywordPasses (activeFilters st) t
                       && dateRangePasses (activeFilters st) t)
             (allThreads st)).
Proof.
  unfold filterThreads. apply filterArray_ok.
  intros t _. apply threadPasses_no_term.
Qed.

Lemma filter_all {A} (p : A -> bool) (l : list A) :
  (forall a, In a l -> p a = true) -> filter p l = l.
Proof.
  induction l as [|a l IH]; simpl; intros H; [reflexivity|].
  rewrite (H a (or_introl eq_refl)). f_equal. apply IH. intros; apply H; now right.
Qed.

(** What [renderThreads] and the view switches leave alone. *)
Lemma renderThreads_frame (l : list Thread) (st : State) :
  let st' := renderThreads l st in
  allThreads st' = allThreads st /\ activeFilters st' = activeFilters st
  /\ searchInput st' = searchInput st /\ threadsCards st' = l.
Proof.
  unfold renderThreads, showThreadsView, showNoResults, hideNoResults.
  destruct l as [|t l]; simpl; [tauto|].
  destruct (Nat.eqb (List.length (allThreads st)) 0); simpl; tauto.
Qed.

(** A search that raises nothing shows exactly the threads the filter
    returned, and touches neither the collection nor the filters. *)
Lemma performSearch_ok (st : State) (res : list Thread) :
  filterThreads (toLowerCase (trim (searchInput st))) st = Ok res ->
  snd (performSearch st) = None
  /\ allThreads (fst (performSearch st)) = allThreads st
  /\ activeFilters (fst (performSearch st)) = activeFilters st
  /\ searchInput (fst (performSearch st)) = searchInput st
  /\ threadsCards (fst (performSearch st)) = res.
Proof.
  intros H. unfold performSearch. rewrite H.
  destruct (renderThreads_frame res st) as [H1 [H2 [H3 H4]]].
  destruct (Nat.eqb (List.length res) 0); simpl; auto.
Qed.

(** A search whose callback raises leaves the page as it was. *)
Lemma performSearch_throw (st : State) (e : exn) :
  filterThreads (toLowerCase (trim (searchInput st))) st = Throw e ->
  performSearch st = (st, Some e).
Proof. intros H. unfold performSearch. now rewrite H. Qed.

(** *** Claim C5: the empty filter is the identity *)

(** C5.  With no keyword selected, no date range and an empty search term,
    [filterThreads] returns the loaded collection itself: the same threads,
    in the same order, each as often as it occurs.  A search with such a term
    ends normally, shows that sequence, and leaves [allThreads] (and hence
    every thread in it) as it was. *)
Theorem filter_empty_state_is_identity (st : State) :
  activeFilters st = noFilters ->
  filterThreads [] st = Ok (allThreads st)
  /\ (toLowerCase (trim (searchInput st)) = [] ->
      snd (performSearch st) = None
      /\ threadsCards (fst (performSearch st)) = allThreads st
      /\ allThreads (fst (performSearch st)) = allThreads st).
Proof.
  intros Hf.
  assert (H : filterThreads [] st = Ok (allThreads st)).
  { rewrite filterThreads_no_term, Hf. f_equal. apply filter_all. reflexivity. }
  split; [exact H|].
  intros Hterm. rewrite <- Hterm in H.
  destruct (performSearch_ok st H) as [H1 [H2 [_ [_ H5]]]]. auto.
Qed.

(** *** Claim C10: the earlier search and the later filter *)

Lemma threadPasses_v1_agrees (T : jsstring) (f : Filters) (t : Thread) :
  T <> [] -> keywords f = [] -> startDate f = None \/ endDate f = None ->
  threadPasses_v1 T t = threadPasses T f t.
Proof.
  intros HT Hk Hd. rewrite threadPasses_split.
  assert (Hkw : keywordPasses f t = true) by (unfold keywordPasses; now rewrite Hk).
  assert (Hdt : dateRangePasses f t = true).
  { unfold dateRangePasses. destruct Hd as [-> | ->]; [reflexivity|].
    destruct (startDate f); reflexivity. }
  rewrite Hkw, Hdt. destruct T as [|c T]; [congruence|]. cbn [isEmptyString negb].
  unfold threadPasses_v1, matchesSearch.
  destruct (lowerIncludes (post_title t) (c :: T)
            ||| lowerIncludes (keyword t) (c :: T)
            ||| lowerIncludes (username t) (c :: T)) as [[|]|e];
    cbn [bind]; try reflexivity.
  destruct (replies t) as [[|r rs]|]; cbn [bind some]; try reflexivity.
  destruct (replyMatches (c :: T) r) as [[|]|e]; cbn [bind]; try reflexivity.
  destruct (some (replyMatches (c :: T)) rs) as [[|]|e]; reflexivity.
Qed.

(** C10.  With no keyword selected and no date range, the earlier
    [performSearch] and the later [filterThreads] select the same sequence of
    threads for every search term, raise in the same cases, and the two
    versions of [performSearch] leave the page in the same state. *)
Theorem earlier_search_equals_filterThreads (st : State) :
  keywords (activeFilters st) = [] ->
  startDate (activeFilters st) = None \/ endDate (activeFilters st) = None ->
  (forall T, T <> [] ->
     filterArray (threadPasses_v1 T) (allThreads st) = filterThreads T st)
  /\ filterThreads [] st = Ok (allThreads st)
  /\ performSearch_v1 st = performSearch st.
Proof.
  intros Hk Hd.
  assert (Hne : forall T, T <> [] ->
     filterArray (threadPasses_v1 T) (allThreads st) = filterThreads T st).
  { intros T HT. unfold filterThreads. apply filterArray_ext.
    intros t _. now apply threadPasses_v1_agrees. }
  assert (He : filterThreads [] st = Ok (allThreads st)).
  { rewrite filterThreads_no_term. f_equal. apply filter_all. intros t _.
    unfold keywordPasses, dateRangePasses. rewrite Hk.
    destruct Hd as [-> | ->]; [reflexivity|].
    destruct (startDate (activeFilters st)); reflexivity. }
  split; [exact Hne|]. split; [exact He|].
  unfold performSearch_v1, performSearch.
  destruct (toLowerCase (trim (searchInput st))) as [|c T] eqn:ET.
  - cbn [isEmptyString]. rewrite He.
    unfold renderThreads. destruct (allThreads st) as [|t l]; reflexivity.
  - cbn [isEmptyString]. rewrite Hne by discriminate. reflexivity.
Qed.

(** *** Claim C7: the keyword filter *)

Lemma threadPasses_true_keyword (T : jsstring) (f : Filters) (t : Thread) :
  keywords f <> [] -> threadPasses T f t = Ok true ->
  arrayIncludes (keywords f) (keyword t) = true.
Proof.
  intros Hk H. rewrite threadPasses_split in H.
  destruct (if negb (isEmptyString T) then matchesSearch T t else Ok true)
    as [found|e]; cbn [bind] in H; [|discriminate].
  injection H as H. apply andb_true_iff in H as [H _].
  apply andb_true_iff in H as [_ H].
  unfold keywordPasses in H. destruct (keywords f); [congruence | exact H].
Qed.

(** C7.  With a non-empty keyword selection K, every thread [filterThreads]
    returns belongs to the collection and carries a keyword that is one of
    the strings of K, code unit for code unit; so no thread whose keyword is
    outside K is returned, whatever the search term and the date range.
    When the keyword selection is the only criterion, the result is exactly
    the threads of the collection whose keyword is in K, in order. *)
Theorem keyword_filter_membership (st : State) :
  keywords (activeFilters st) <> [] ->
  (forall T res, filterThreads T st = Ok res ->
     forall t, In t res ->
       In t (allThreads st)
       /\ exists k, keyword t = Some k /\ In k (keywords (activeFilters st)))
  /\ (forall T res t, filterThreads T st = Ok res ->
        In t (allThreads st) ->
        ~ (exists k, keyword t = Some k /\ In k (keywords (activeFilters st))) ->
        ~ In t res)
  /\ (startDate (activeFilters st) = None \/ endDate (activeFilters st) = None ->
      filterThreads [] st =
      Ok (filter (fun t => arrayIncludes (keywords (activeFilters st)) (keyword t))
                 (allThreads st))).
Proof.
  intros Hk.
  assert (H1 : forall T res, filterThreads T st = Ok res ->
     forall t, In t res ->
       In t (allThreads st)
       /\ exists k, keyword t = Some k /\ In k (keywords (activeFilters st))).
  { intros T res H t Hin. unfold filterThreads in H.
    apply (filterArray_In _ _ t H) in Hin as [Hin Hp]. split; [exact Hin|].
    apply arrayIncludes_spec. eapply threadPasses_true_keyword; eauto. }
  split; [exact H1|]. split.
  - intros T res t H _ Hnot Hin. apply Hnot. now apply (H1 T res H t).
  - intros Hd. rewrite filterThreads_no_term. f_equal. apply filter_ext.
    intros t. unfold keywordPasses, dateRangePasses.
    destruct (keywords (activeFilters st)) as [|k ks]; [congruence|].
    destruct Hd as [-> | ->]; [now rewrite andb_true_r|].
    destruct (startDate (activeFilters st)); now rewrite andb_true_r.
Qed.

(** *** Claims C2 and C6: the search term *)

Lemma lowerIncludes_present (T : jsstring) (field : option jsstring) :
  field <> None -> lowerIncludes field T = Ok (fieldHas T field).
Proof. destruct field; [reflexivity | congruence]. Qed.

Lemma replyMatches_conforms (T : jsstring) (r : Reply) :
  reply r <> None -> replyMatches T r = Ok (replyHit T r).
Proof.
  intros H. unfold replyMatches, replyHit.
  rewrite (lowerIncludes_present T H). cbn [bind].
  destruct (fieldHas T (reply r)); [reflexivity|]. cbn [orb].
  destruct (user r) as [[|c u]|]; reflexivity.
Qed.

Lemma matchesSearch_conforms (T : jsstring) (t : Thread) :
  ThreadConforms t -> matchesSearch T t = Ok (searchHit T t).
Proof.
  intros [H1 [H2 [H3 H4]]]. unfold matchesSearch, searchHit.
  rewrite (lowerIncludes_present T H1), (lowerIncludes_present T H2),
    (lowerIncludes_present T H3). cbn [bind].
  destruct (fieldHas T (post_title t)); [reflexivity|].
  destruct (fieldHas T (keyword t)); [reflexivity|].
  destruct (fieldHas T (username t)); [reflexivity|]. cbn [orb].
  destruct (replies t) as [rs|]; [|reflexivity].
  apply some_ok. intros r Hr. apply replyMatches_conforms. now apply (H4 rs).
Qed.

Lemma threadPasses_conforms (T : jsstring) (f : Filters) (t : Thread) :
  ThreadConforms t ->
  threadPasses T f t =
  Ok ((isEmptyString T || searchHit T t) && keywordPasses f t && dateRangePasses f t).
Proof.
  intros H. rewrite threadPasses_split.
  destruct T as [|c T]; [reflexivity|]. cbn [isEmptyString negb orb].
  now rewrite matchesSearch_conforms.
Qed.

(** C2 (as amended).  The search-term test raises nothing, and
    [filterThreads] returns a result for the whole collection, when every
    thread has its title, keyword and user name (and every reply its text);
    and with an empty search term it raises nothing on any collection, since
    no field is read.  An absent field is not read as the empty string. *)
Theorem search_raises_nothing_when_fields_present (st : State) (T : jsstring) :
  (forall t, In t (allThreads st) -> ThreadConforms t) \/ T = [] ->
  (forall t, In t (allThreads st) ->
     exists b, threadPasses T (activeFilters st) t = Ok b)
  /\ exists res, filterThreads T st = Ok res.
Proof.
  intros [Hc | ->].
  - split.
    + intros t Ht. rewrite threadPasses_conforms by auto. eauto.
    + eexists. unfold filterThreads. apply filterArray_ok.
      intros t Ht. apply threadPasses_conforms. auto.
  - split.
    + intros t _. rewrite threadPasses_no_term. eauto.
    + rewrite filterThreads_no_term. eauto.
Qed.

Lemma fieldHas_spec (T : jsstring) (field : option jsstring) :
  fieldHas (toLowerCase T) field = true <-> FieldContains T field.
Proof.
  unfold FieldContains, CaseInsensitiveSubstring. destruct field as [s|]; simpl.
  - rewrite includes_spec. split.
    + intros H. now exists s.
    + intros [s' [[= <-] H]]. exact H.
  - split; [discriminate | intros [s [H _]]; discriminate].
Qed.

Lemma replyHit_spec (T : jsstring) (r : Reply) :
  T <> [] ->
  replyHit (toLowerCase T) r = true <->
  FieldContains T (reply r) \/ FieldContains T (user r).
Proof.
  intros HT. unfold replyHit.
  rewrite orb_true_iff, andb_true_iff, !fieldHas_spec. split.
  - intros [H | [_ H]]; auto.
  - intros [H | H]; [now left | right]. split; [|exact H].
    destruct H as [u [Hu [pre [post Hsub]]]]. rewrite Hu.
    destruct u as [|c u]; [|reflexivity].
    rewrite toLowerCase_nil in Hsub.
    destruct pre; [|discriminate]. simpl in Hsub.
    destruct (toLowerCase T) eqn:E; [|discriminate].
    now apply toLowerCase_nonempty in E.
Qed.

Lemma searchHit_spec (T : jsstring) (t : Thread) :
  T <> [] -> searchHit (toLowerCase T) t = true <-> SearchTermOccurs T t.
Proof.
  intros HT. unfold searchHit, SearchTermOccurs.
  rewrite !orb_true_iff, !fieldHas_spec. split.
  - intros [[[H | H] | H] | H]; auto.
    destruct (replies t) as [rs|]; [|discriminate].
    apply existsb_exists in H as [r [Hr Hhit]].
    right; right; right. exists rs, r. split; [reflexivity|]. split; [exact Hr|].
    now apply replyHit_spec.
  - intros [H | [H | [H | [rs [r [Hrs [Hr Hhit]]]]]]]; auto.
    right. rewrite Hrs. apply existsb_exists. exists r. split; [exact Hr|].
    now apply replyHit_spec.
Qed.

(** C6.  On a collection that conforms to the data format, with no keyword
    selected and no date range, searching for a non-empty term T returns
    the threads of the collection, in order, in which T occurs
    case-insensitively in the title, the keyword, the user name, or in some
    reply's text or user; a reply without a user is only compared on its
    text.  [performSearch] passes the trimmed content of the search box,
    lower-cased, and shows that result. *)
Theorem search_term_selects_matching_threads (st : State) (T : jsstring) :
  T <> [] ->
  (forall t, In t (allThreads st) -> ThreadConforms t) ->
  keywords (activeFilters st) = [] ->
  startDate (activeFilters st) = None \/ endDate (activeFilters st) = None ->
  exists keep : Thread -> bool,
    (forall t, keep t = true <-> SearchTermOccurs T t)
    /\ filterThreads (toLowerCase T) st = Ok (filter keep (allThreads st))
    /\ (forall t, In t (filter keep (allThreads st)) <->
                  In t (allThreads st) /\ SearchTermOccurs T t)
    /\ (trim (searchInput st) = T ->
        snd (performSearch st) = None
        /\ threadsCards (fst (performSearch st)) = filter keep (allThreads st)).
Proof.
  intros HT Hc Hk Hd. exists (searchHit (toLowerCase T)).
  assert (Hs : forall t, searchHit (toLowerCase T) t = true <-> SearchTermOccurs T t)
    by (intros t; now apply searchHit_spec).
  assert (Hf : filterThreads (toLowerCase T) st =
               Ok (filter (searchHit (toLowerCase T)) (allThreads st))).
  { unfold filterThreads. apply filterArray_ok. intros t Ht.
    rewrite threadPasses_conforms by auto.
    assert (Hkw : keywordPasses (activeFilters st) t = true)
      by (unfold keywordPasses; now rewrite Hk).
    assert (Hdt : dateRangePasses (activeFilters st) t = true).
    { unfold dateRangePasses. destruct Hd as [-> | ->]; [reflexivity|].
      destruct (startDate (activeFilters st)); reflexivity. }
    rewrite Hkw, Hdt, !andb_true_r.
    destruct (toLowerCase T) eqn:E; [now apply toLowerCase_nonempty in E|].
    reflexivity. }
  split; [exact Hs|]. split; [exact Hf|]. split.
  - intros t. rewrite filter_In, Hs. tauto.
  - intros Htrim. rewrite <- Htrim in Hf.
    destruct (performSearch_ok st Hf) as [H1 [_ [_ [_ H5]]]].
    rewrite Htrim in H5. auto.
Qed.

(* ===================================================================== *)
(** ** The views *)
(* ===================================================================== *)

Lemma jsstring_eqb_refl (s : jsstring) : jsstring_eqb s s = true.
Proof. now apply jsstring_eqb_eq. Qed.

(** Escape with the filter panel open closes the panel and changes nothing
    else that decides the view. *)
Lemma escape_closes_open_panel (st : State) :
  filterPanelHidden st = false ->
  onKeydown Escape st = toggleFilterPanel st
  /\ filterPanelHidden (onKeydown Escape st) = true
  /\ viewState (onKeydown Escape st) = viewState st
  /\ currentThread (onKeydown Escape st) = currentThread st
  /\ threadsCards (onKeydown Escape st) = threadsCards st.
Proof.
  intros H. unfold onKeydown. rewrite jsstring_eqb_refl, H. cbn [negb].
  unfold toggleFilterPanel, viewState. rewrite H. simpl. tauto.
Qed.

(** With the panel closed the listener is the one of the earlier version. *)
Lemma onKeydown_panel_closed (key : jsstring) (st : State) :
  filterPanelHidden st = true -> onKeydown key st = onKeydown_v1 key st.
Proof.
  intros H. unfold onKeydown, onKeydown_v1. rewrite H.
  destruct (jsstring_eqb key Escape), (threadsHidden st); reflexivity.
Qed.

(** The Back button leaves the detail view whatever the panel does. *)
Lemma back_button_leaves_detail (st : State) (t : Thread) :
  loadingHidden st = true -> allThreads st <> [] ->
  viewState (showThreadsView (showThreadDetail t st)) = Some List.
Proof.
  intros Hl Hne. unfold showThreadsView, showThreadDetail, viewState. simpl.
  destruct (allThreads st); [congruence|]. simpl. now rewrite Hl.
Qed.

(** Reset clears the filters and shows the whole collection. *)
Lemma resetFilters_shows_everything (st : State) :
  activeFilters (resetFilters st) = noFilters
  /\ allThreads (resetFilters st) = allThreads st
  /\ threadsCards (resetFilters st) = allThreads st.
Proof.
  unfold resetFilters.
  destruct (renderThreads_frame
              (allThreads (set_dateInputs None None (set_selectedChips [] st)))
              (set_activeFilters noFilters
                 (set_dateInputs None None (set_selectedChips [] st))))
    as [H1 [H2 [_ H4]]].
  auto.
Qed.

(** C3.  Escape pressed in the detail view with the filter panel closed does
    nothing: the listener calls [showThreadsView] only while the thread list
    is not hidden, and [showThreadDetail] has hidden it.  The page stays in
    Detail, where the claim has it return to List. *)
Theorem escape_in_detail_changes_nothing (st : State) (t : Thread) :
  loadingHidden st = true ->
  filterPanelHidden st = true ->
  viewState (showThreadDetail t st) = Some (Detail (Some t))
  /\ onKeydown Escape (showThreadDetail t st) = showThreadDetail t st
  /\ viewState (onKeydown Escape (showThreadDetail t st)) = Some (Detail (Some t)).
Proof.
  intros Hl Hp.
  assert (Hv : viewState (showThreadDetail t st) = Some (Detail (Some t))).
  { unfold viewState, showThreadDetail. simpl. now rewrite Hl. }
  assert (Hk : onKeydown Escape (showThreadDetail t st) = showThreadDetail t st).
  { unfold onKeydown. rewrite jsstring_eqb_refl.
    unfold showThreadDetail at 1 2. simpl. now rewrite Hp. }
  split; [exact Hv|]. split; [exact Hk|]. now rewrite Hk.
Qed.

(** C9.  Opening a thread from the list and going back leaves the loaded
    collection, the active filters, the search box, the filter controls and
    the rendered cards as they were; the list is visible again, so the
    threads shown after Back are the threads shown before the selection, and
    the filter gives the same answer as before for every term. *)
Theorem detail_round_trip_preserves_filtered_list (st : State) (t : Thread) :
  viewState st = Some List ->
  In t (allThreads st) ->
  let detail := showThreadDetail t st in
  let back := showThreadsView detail in
  viewState detail = Some (Detail (Some t))
  /\ threadContent detail = Some t
  /\ viewState back = Some List
  /\ allThreads back = allThreads st
  /\ activeFilters back = activeFilters st
  /\ searchInput back = searchInput st
  /\ (selectedChips back, startDateInput back, endDateInput back)
     = (selectedChips st, startDateInput st, endDateInput st)
  /\ threadsCards back = threadsCards st
  /\ (forall T, filterThreads T back = filterThreads T st).
Proof.
  intros Hv Hin detail back.
  assert (Hl : loadingHidden st = true).
  { unfold viewState in Hv. destruct (loadingHidden st); [reflexivity | discriminate]. }
  assert (Hne : Nat.eqb (List.length (allThreads st)) 0 = false).
  { destruct (allThreads st); [contradiction | reflexivity]. }
  subst detail back. unfold showThreadsView, showThreadDetail, viewState, filterThreads.
  simpl. rewrite Hne. simpl. rewrite Hl. simpl. repeat split; reflexivity.
Qed.

(* ===================================================================== *)
(** ** The timestamp pattern *)
(* ===================================================================== *)

Section Repetition.

Context {R : Type}.
Variable c : codeUnit -> bool.
Variable k : jsstring -> jsstring -> option R.

Lemma room_bounded (h : option nat) (n : nat) :
  bounded h (S n) -> room h = true /\ bounded (less h) n.
Proof.
  destruct h as [[|m]|]; simpl; intros H; split; try reflexivity; try lia; auto.
Qed.

Lemma bounded_less (h : option nat) (n : nat) :
  room h = true -> bounded (less h) n -> bounded h (S n).
Proof. destruct h as [[|m]|]; simpl; intros Hr H; try discriminate; try lia; auto. Qed.

Lemma bounded_zero (h : option nat) : bounded h 0.
Proof. destruct h; simpl; [lia | exact I]. Qed.

Lemma repeat_greedy_sound (s : jsstring) :
  forall l h taken r,
    repeat_greedy c l h s taken k = Some r ->
    exists w s', s = w ++ s' /\ forallb c w = true
      /\ (l <= List.length w)%nat /\ bounded h (List.length w)
      /\ k (rev taken ++ w) s' = Some r.
Proof.
  induction s as [|x s IH]; intros l h taken r H.
  - simpl in H. destruct (Nat.eqb_spec l 0) as [-> |]; [|discriminate].
    exists [], []. rewrite !app_nil_r. repeat split; auto using bounded_zero.
  - assert (Hstop : (if Nat.eqb l 0 then k (rev taken) (x :: s) else None) = Some r ->
        exists w s', x :: s = w ++ s' /\ forallb c w = true
          /\ (l <= List.length w)%nat /\ bounded h (List.length w)
          /\ k (rev taken ++ w) s' = Some r).
    { intros H'. destruct (Nat.eqb_spec l 0) as [-> |]; [|discriminate].
      exists [], (x :: s). rewrite !app_nil_r. repeat split; auto using bounded_zero. }
    simpl in H. destruct (room h && c x) eqn:E; [|auto].
    destruct (repeat_greedy c (pred l) (less h) s (x :: taken) k) as [r'|] eqn:Er;
      [|auto].
    injection H as <-. apply andb_true_iff in E as [Hroom Hx].
    destruct (IH _ _ _ _ Er) as [w [s' [-> [Hw [Hl [Hb Hk]]]]]].
    exists (x :: w), s'. simpl. rewrite Hx, Hw.
    repeat split; [lia | now apply bounded_less |].
    simpl in Hk. now rewrite <- app_assoc in Hk.
Qed.

Lemma repeat_greedy_complete (w : jsstring) :
  forall l h taken s' r,
    forallb c w = true -> (l <= List.length w)%nat -> bounded h (List.length w) ->
    k (rev taken ++ w) s' = Some r ->
    exists r', repeat_greedy c l h (w ++ s') taken k = Some r'.
Proof.
  induction w as [|x w IH]; intros l h taken s' r Hw Hl Hb Hk.
  - simpl in Hl. assert (l = 0%nat) as -> by lia. rewrite app_nil_r in Hk.
    destruct s' as [|y s']; simpl; [eauto|].
    destruct (room h && c y); [|eauto].
    destruct (repeat_greedy c 0 (less h) s' (y :: taken) k); eauto.
  - simpl in Hw, Hl, Hb. apply andb_true_iff in Hw as [Hx Hw].
    destruct (room_bounded h _ Hb) as [Hroom Hb'].
    simpl. rewrite Hroom, Hx. simpl.
    destruct (IH (pred l) (less h) (x :: taken) s' r Hw) as [r' ->]; eauto; try lia.
    simpl. now rewrite <- app_assoc.
Qed.


End Repetition.

Lemma match_here_sound (p : list atom) :
  forall s whole caps m,
    match_here p s whole caps = Some m ->
    exists ws rest, Forall2 fits p ws /\ s = List.concat ws ++ rest.
Proof.
  induction p as [|a p IH]; intros s whole caps m H.
  - exists [], s. split; [constructor | reflexivity].
  - simpl in H. apply repeat_greedy_sound in H
      as [w [s' [-> [Hw [Hl [Hb Hk]]]]]].
    apply IH in Hk as [ws [rest [Hws ->]]].
    exists (w :: ws), rest. split.
    + constructor; [repeat split; assumption | assumption].
    + simpl. now rewrite app_assoc.
Qed.

Lemma match_here_complete (p : list atom) (ws : list jsstring) :
  Forall2 fits p ws ->
  forall rest whole caps, exists m,
    match_here p (List.concat ws ++ rest) whole caps = Some m.
Proof.
  induction 1 as [|a w p ws [Hw [Hl Hb]] _ IH]; intros rest whole caps.
  - simpl. eauto.
  - simpl. rewrite <- app_assoc.
    destruct (IH rest (whole ++ w) (if capture a then w :: caps else caps)) as [m Hm].
    eapply repeat_greedy_complete; eauto.
Qed.


Lemma regex_match_here (p : list atom) (s : jsstring) (m : list jsstring) :
  match_here p s [] [] = Some m -> regex_match p s = Some m.
Proof. intros H. destruct s; simpl; now rewrite H. Qed.

Lemma regex_match_sound (p : list atom) (s : jsstring) (m : list jsstring) :
  regex_match p s = Some m -> Occurs p s.
Proof.
  induction s as [|x s IH]; simpl.
  - destruct (match_here p [] [] []) eqn:E; [|discriminate]. intros _.
    apply match_here_sound in E as [ws [rest [Hws Hs]]].
    now exists [], ws, rest.
  - destruct (match_here p (x :: s) [] []) eqn:E.
    + intros _. apply match_here_sound in E as [ws [rest [Hws Hs]]].
      now exists [], ws, rest.
    + intros H. destruct (IH H) as [pre [ws [rest [Hws ->]]]].
      now exists (x :: pre), ws, rest.
Qed.

Lemma regex_match_complete (p : list atom) (s : jsstring) :
  Occurs p s -> exists m, regex_match p s = Some m.
Proof.
  intros [pre [ws [rest [Hws ->]]]].
  induction pre as [|x pre IH].
  - destruct (match_here_complete Hws rest [] []) as [m Hm].
    exists m. now apply regex_match_here.
  - simpl. destruct (match_here p (x :: pre ++ List.concat ws ++ rest) [] []); eauto.
Qed.

Lemma regex_match_none (p : list atom) (s : jsstring) :
  regex_match p s = None <-> ~ Occurs p s.
Proof.
  split.
  - intros H Hocc. apply regex_match_complete in Hocc as [m Hm]. congruence.
  - intros H. destruct (regex_match p s) eqn:E; [|reflexivity].
    exfalso. apply H. eapply regex_match_sound; eauto.
Qed.

(** *** Claim C4: timestamps *)


Lemma fits_lit (c : codeUnit) (w : jsstring) : fits (lit c) w <-> w = [c].
Proof.
  unfold fits; simpl. split.
  - intros [Hw [Hl Hb]]. destruct w as [|x [|y w]]; simpl in *; try lia.
    rewrite andb_true_r in Hw. apply N.eqb_eq in Hw. now subst.
  - intros ->. simpl. rewrite N.eqb_refl. repeat split; lia.
Qed.

Lemma fits_digits (a b : nat) (w : jsstring) : fits (digits a b) w <-> digitRun a b w.
Proof. unfold fits, digitRun; simpl. tauto. Qed.

Lemma fits_spaces1 (w : jsstring) : fits spaces1 w <-> blankRun w.
Proof.
  unfold fits, blankRun; simpl. split.
  - intros [Hw [Hl _]]. split; [exact Hw|]. destruct w; simpl in *; [lia | discriminate].
  - intros [Hw Hne]. repeat split; auto. destruct w; simpl; [congruence | lia].
Qed.

Lemma timestampText_concat (y m d sp h mi se : jsstring) :
  List.concat [y; [nian]; m; [yue]; d; [ri]; sp; h; [colon]; mi; [colon]; se]
  = timestampText y m d sp h mi se.
Proof.
  unfold timestampText. simpl. rewrite app_nil_r.
  repeat (rewrite <- ?app_assoc; simpl; f_equal).
Qed.

Lemma occurs_timestamp (s : jsstring) :
  Occurs timestampPattern s <-> ContainsTimestamp s.
Proof.
  unfold Occurs, ContainsTimestamp, TimestampFields, timestampPattern. split.
  - intros [pre [ws [rest [Hws ->]]]].
    repeat match goal with
           | H : Forall2 fits (_ :: _) _ |- _ => inversion H; subst; clear H
           | H : Forall2 fits [] _ |- _ => inversion H; subst; clear H
           | H : fits (lit _) _ |- _ => apply (proj1 (fits_lit _ _)) in H; subst
           | H : fits (digits _ _) _ |- _ => apply (proj1 (fits_digits _ _ _)) in H
           | H : fits spaces1 _ |- _ => apply (proj1 (fits_spaces1 _)) in H
           end.
    rewrite timestampText_concat.
    do 9 eexists. split; [|reflexivity]. tauto.
  - intros [pre [y [m [d [sp [h [mi [se [post [Hf ->]]]]]]]]]].
    destruct Hf as [Hy [Hm [Hd [Hsp [Hh [Hmi Hse]]]]]].
    exists pre, [y; [nian]; m; [yue]; d; [ri]; sp; h; [colon]; mi; [colon]; se], post.
    split; [|now rewrite timestampText_concat].
    repeat (apply Forall2_cons;
            [ first [ now apply (proj2 (fits_lit _ _))
                    | now apply (proj2 (fits_digits _ _ _))
                    | now apply (proj2 (fits_spaces1 _)) ] | ]).
    apply Forall2_nil.
Qed.





Lemma dateParts_none (s : jsstring) : dateParts s = None <-> ~ ContainsTimestamp s.
Proof. unfold dateParts. now rewrite regex_match_none, occurs_timestamp. Qed.


(* ===================================================================== *)
(** ** The date range *)
(* ===================================================================== *)

Lemma replyInDateRange_spec (start finish : timeValue) (r : Reply) :
  replyInDateRange start finish r = true <-> InRange start finish r.
Proof.
  unfold replyInDateRange, InRange, date_ge. split.
  - destruct (time r) as [tm|]; [|discriminate].
    destruct (truthy (Some tm)); [|discriminate]. cbn [negb].
    destruct (dateParts tm) as [parts|] eqn:Ep; [|discriminate].
    intros H. apply andb_true_iff in H. exists tm, parts. tauto.
  - intros [tm [parts [-> [Hp [H1 H2]]]]].
    destruct tm as [|c tm]; [discriminate Hp|]. cbn [truthy negb].
    rewrite Hp, H1, H2. reflexivity.
Qed.

Lemma dateRangePasses_spec (f : Filters) (start finish : timeValue) (t : Thread) :
  startDate f = Some start -> endDate f = Some finish ->
  dateRangePasses f t = true <-> NoReplies t \/ HasReplyInRange start finish t.
Proof.
  intros Hs He. unfold dateRangePasses, NoReplies, HasReplyInRange.
  rewrite Hs, He. destruct (replies t) as [[|r rs]|].
  - split; auto.
  - rewrite existsb_exists. split.
    + intros [x [Hx Hr]]. right. exists (r :: rs), x.
      split; [reflexivity|]. split; [exact Hx|]. now apply replyInDateRange_spec.
    + intros [[H | H] | [rs' [x [[= <-] [Hx Hr]]]]]; try discriminate.
      exists x. split; [exact Hx|]. now apply replyInDateRange_spec.
  - split; auto.
Qed.

Lemma date_le_refl (t : Z) : date_le (Finite t) (Finite t) = true.
Proof. simpl. apply Z.leb_refl. Qed.

(** The comparison keeps both ends of the range. *)
Lemma range_is_inclusive (a b : Z) :
  a <= b ->
  date_ge (Finite a) (Finite a) && date_le (Finite a) (Finite b) = true
  /\ date_ge (Finite b) (Finite a) && date_le (Finite b) (Finite b) = true.
Proof.
  intros H. unfold date_ge, date_le. rewrite !Z.leb_refl.
  assert ((a <=? b) = true) as -> by now apply Z.leb_le. auto.
Qed.

(** What [setHours(23, 59, 59, 999)] makes of an instant: the last
    millisecond of the local day that instant falls on. *)
Lemma setHours_end_of_local_day (t : Z) :
  Z.abs (MakeDate (Day (LocalTime t)) 86399999 - LocalTZA) <= 8640000000000000 ->
  exists u, setHours 23 59 59 999 (Finite t) = Finite u
    /\ Day (LocalTime u) = Day (LocalTime t)
    /\ LocalTime u mod msPerDay = 86399999.
Proof.
  intros Hclip. unfold setHours, TimeClip, UTC.
  change (MakeTime 23 59 59 999) with 86399999.
  apply Z.leb_le in Hclip. rewrite Hclip. eexists. split; [reflexivity|].
  unfold LocalTime, MakeDate, Day, msPerDay.
  set (q := (t + LocalTZA) / 86400000).
  replace (q * 86400000 + 86399999 - LocalTZA + LocalTZA)
    with (86399999 + q * 86400000) by lia.
  split.
  - rewrite Z.div_add by lia. reflexivity.
  - rewrite Z.mod_add by lia. reflexivity.
Qed.

(** The same on the Date a date input gives for day number [D], midnight
    UTC: at or east of UTC the local day is [D] itself, west of UTC it is the
    day before. *)
Lemma setHours_on_utc_midnight (D : Z) :
  - msPerDay <= LocalTZA < msPerDay ->
  Z.abs (MakeDate (Day (LocalTime (MakeDate D 0))) 86399999 - LocalTZA)
    <= 8640000000000000 ->
  exists u, setHours 23 59 59 999 (Finite (MakeDate D 0)) = Finite u
    /\ LocalTime u mod msPerDay = 86399999
    /\ Day (LocalTime u) = if 0 <=? LocalTZA then D else D - 1.
Proof.
  intros Htz Hclip.
  destruct (setHours_end_of_local_day _ Hclip) as [u [Hu [Hday Hmod]]].
  exists u. split; [exact Hu|]. split; [exact Hmod|]. rewrite Hday.
  unfold LocalTime, MakeDate, Day, msPerDay in *.
  destruct (Z.leb_spec 0 LocalTZA) as [Hpos | Hneg].
  - replace (D * 86400000 + 0 + LocalTZA) with (LocalTZA + D * 86400000) by lia.
    rewrite Z.div_add by lia. rewrite Z.div_small by lia. lia.
  - replace (D * 86400000 + 0 + LocalTZA)
      with ((LocalTZA + 86400000) + (D - 1) * 86400000) by lia.
    rewrite Z.div_add by lia. rewrite Z.div_small by lia. lia.
Qed.

(** What [applyFilters] stores in [activeFilters]. *)
Lemma applyFilters_activeFilters (st : State) :
  activeFilters (fst (applyFilters st)) =
  {| keywords := selectedChips st;
     startDate := valueAsDate (startDateInput st);
     endDate := option_map (setHours 23 59 59 999) (valueAsDate (endDateInput st)) |}.
Proof.
  unfold applyFilters.
  set (st1 := set_activeFilters _ st).
  unfold performSearch.
  destruct (filterThreads (toLowerCase (trim (searchInput st1))) st1) as [res|e];
    [|reflexivity].
  cbn [fst]. unfold toggleFilterPanel.
  destruct (renderThreads_frame res st1) as [_ [H _]].
  destruct (Nat.eqb (List.length res) 0); simpl; exact H.
Qed.

(** *** Claim C1: threads without replies under an active date range *)

(** The instants of the May 2024 scenario. *)
Lemma may2024_start : valueAsDate (Some (CalendarDate 2024 5 1)) = Some (Finite 1714521600000).
Proof. vm_compute. reflexivity. Qed.

Lemma may2024_end_midnight :
  valueAsDate (Some (CalendarDate 2024 5 31)) = Some (Finite 1717113600000).
Proof. vm_compute. reflexivity. Qed.

Lemma threadA_replyDate :
  exists parts,
    dateParts (str "2024年5月7日 21:24:39") = Some parts
    /\ replyDate parts = TimeClip (1715117079000 - LocalTZA).
Proof.
  eexists. split; [vm_compute; reflexivity|].
  unfold replyDate, newDate, UTC.
  repeat match goal with
         | |- context [parseIntAt ?p ?i] =>
             let v := eval vm_compute in (parseIntAt p i) in
             change (parseIntAt p i) with v
         end.
  cbn [option_map].
  change (5 - 1) with 4.
  change ((0 <=? 2024) && (2024 <=? 99)) with false. cbv iota.
  change (MakeDate (MakeDay 2024 4 7) (MakeTime 21 24 39 0)) with 1715117079000.
  reflexivity.
Qed.

Lemma may2024_end_of_day :
  - hours 12 <= LocalTZA <= hours 14 ->
  exists u, setHours 23 59 59 999 (Finite 1717113600000) = Finite u
    /\ 1717113599999 - LocalTZA <= u.
Proof.
  unfold hours. intros Htz. unfold setHours, TimeClip, UTC, LocalTime, MakeDate, Day, msPerDay.
  change (MakeTime 23 59 59 999) with 86399999.
  assert (Hq : 19873 <= (1717113600000 + LocalTZA) / 86400000 <= 19874).
  { split.
    - apply Z.div_le_lower_bound; lia.
    - apply Z.lt_succ_r. apply Z.div_lt_upper_bound; lia. }
  set (q := (1717113600000 + LocalTZA) / 86400000) in *.
  assert (Hclip : (Z.abs (q * 86400000 + 86399999 - LocalTZA) <=? 8640000000000000) = true)
    by (apply Z.leb_le; lia).
  rewrite Hclip. eexists. split; [reflexivity | lia].
Qed.

Lemma scenario_A_and_B :
  - hours 12 <= LocalTZA <= hours 14 ->
  let page := may2024 (loadedPage [threadA; threadB]) in
  snd (applyFilters page) = None
  /\ threadsCards (fst (applyFilters page)) = [threadA; threadB].
Proof.
  intros Htz page.
  assert (Hres : filterThreads [] (set_activeFilters
             {| keywords := selectedChips page;
                startDate := valueAsDate (startDateInput page);
                endDate := option_map (setHours 23 59 59 999)
                             (valueAsDate (endDateInput page)) |} page)
          = Ok [threadA; threadB]).
  { rewrite filterThreads_no_term. f_equal.
    apply filter_all. intros t Ht.
    apply andb_true_iff. split; [reflexivity|].
    cbn [activeFilters set_activeFilters page may2024 set_dateInputs
         startDateInput endDateInput].
    rewrite may2024_start, may2024_end_midnight. cbn [option_map].
    destruct (may2024_end_of_day Htz) as [u [Hu Hle]]. rewrite Hu.
    eapply dateRangePasses_spec; [reflexivity | reflexivity |].
    destruct Ht as [<- | [<- | []]].
    - right. eexists _, _. split; [reflexivity|]. split; [left; reflexivity|].
      destruct threadA_replyDate as [parts [Hp Hd]].
      exists (str "2024年5月7日 21:24:39"), parts.
      split; [reflexivity|]. split; [exact Hp|]. rewrite Hd.
      unfold TimeClip, hours in *.
      assert (Hclip : (Z.abs (1715117079000 - LocalTZA) <=? 8640000000000000) = true)
        by (apply Z.leb_le; lia).
      rewrite Hclip. cbv beta iota delta [date_le]. split; apply Z.leb_le; lia.
    - left. right. reflexivity. }
  unfold applyFilters. unfold performSearch at 1 2.
  cbn [searchInput set_activeFilters page may2024 set_dateInputs set_filterPanel
       loadedPage].
  change (trim []) with (@nil codeUnit). rewrite toLowerCase_nil.
  fold page. rewrite Hres. split; reflexivity.
Qed.

Lemma keywordPasses_spec (f : Filters) (t : Thread) :
  keywordPasses f t = true <->
  keywords f = [] \/ exists k, keyword t = Some k /\ In k (keywords f).
Proof.
  unfold keywordPasses. destruct (keywords f) as [|k ks] eqn:E.
  - split; auto.
  - rewrite arrayIncludes_spec. split; [auto | intros [H | H]; [discriminate | exact H]].
Qed.

Lemma threadPasses_no_replies (T : jsstring) (f : Filters) (t : Thread) :
  NoReplies t -> threadPasses T f t = threadPasses T (withoutDates f) t.
Proof.
  intros Hn. rewrite !threadPasses_split.
  assert (Hd : dateRangePasses f t = true).
  { unfold dateRangePasses. destruct Hn as [-> | ->];
      destruct (startDate f), (endDate f); reflexivity. }
  rewrite Hd. reflexivity.
Qed.

(** C1 (as amended).  With both ends of the date range set, a thread that has
    replies is returned only if one of them carries a timestamp that parses
    to an instant within the range; a thread with no replies is not put to
    the date test at all, so the filter treats it exactly as it would without
    a date range.  In the scenario (thread A with a reply of 7 May 2024,
    thread B without replies, range 1 May to 31 May 2024) both A and B are
    shown. *)
Theorem date_range_tests_only_threads_with_replies
    (st : State) (start finish : timeValue) :
  startDate (activeFilters st) = Some start ->
  endDate (activeFilters st) = Some finish ->
  (forall T t, NoReplies t ->
     threadPasses T (activeFilters st) t
     = threadPasses T (withoutDates (activeFilters st)) t)
  /\ (forall T res t, filterThreads T st = Ok res -> In t res ->
        NoReplies t \/ HasReplyInRange start finish t)
  /\ (exists res, filterThreads [] st = Ok res
        /\ forall t, In t res <->
             In t (allThreads st)
             /\ (keywords (activeFilters st) = []
                 \/ exists k, keyword t = Some k /\ In k (keywords (activeFilters st)))
             /\ (NoReplies t \/ HasReplyInRange start finish t))
  /\ (- hours 12 <= LocalTZA <= hours 14 ->
      let page := may2024 (loadedPage [threadA; threadB]) in
      snd (applyFilters page) = None
      /\ threadsCards (fst (applyFilters page)) = [threadA; threadB]).
Proof.
  intros Hs He. split; [|split; [|split]].
  - intros T t. apply threadPasses_no_replies.
  - intros T res t H Hin. unfold filterThreads in H.
    apply (filterArray_In _ _ t H) in Hin as [_ Hp].
    rewrite threadPasses_split in Hp.
    destruct (if negb (isEmptyString T) then matchesSearch T t else Ok true)
      as [found|e]; cbn [bind] in Hp; [|discriminate].
    injection Hp as Hp. apply andb_true_iff in Hp as [_ Hp].
    now apply (dateRangePasses_spec _ _ Hs He).
  - eexists. split; [apply filterThreads_no_term|].
    intros t. rewrite filter_In, andb_true_iff, keywordPasses_spec,
      (dateRangePasses_spec _ _ Hs He). tauto.
  - exact scenario_A_and_B.
Qed.

(* ===================================================================== *)
(** ** Further properties of the filter engine *)
(* ===================================================================== *)

Lemma dateRangePasses_criterion (f : Filters) (t : Thread) :
  dateRangePasses f t = true <-> DateCriterion f t.
Proof.
  unfold DateCriterion.
  destruct (startDate f) as [s|] eqn:Es, (endDate f) as [e|] eqn:Ee.
  - now apply dateRangePasses_spec.
  - unfold dateRangePasses. rewrite Es, Ee. tauto.
  - unfold dateRangePasses. rewrite Es. tauto.
  - unfold dateRangePasses. rewrite Es. tauto.
Qed.

Lemma threadPasses_true_iff (T : jsstring) (f : Filters) (t : Thread) :
  threadPasses T f t = Ok true <->
  SearchCriterion T t /\ KeywordCriterion f t /\ DateCriterion f t.
Proof.
  rewrite threadPasses_split. unfold SearchCriterion, KeywordCriterion.
  rewrite <- keywordPasses_spec, <- dateRangePasses_criterion.
  destruct T as [|c T]; cbn [isEmptyString negb bind].
  - split.
    + intros [= H]. apply andb_true_iff in H. cbn in H. tauto.
    + intros [_ [H1 H2]]. now rewrite H1, H2.
  - destruct (matchesSearch (c :: T) t) as [[|]|e]; cbn [bind andb].
    + split.
      * intros [= H]. apply andb_true_iff in H. tauto.
      * intros [_ [H1 H2]]. now rewrite H1, H2.
    + split; [discriminate | intros [[H | H] _]; discriminate].
    + split; [discriminate | intros [[H | H] _]; discriminate].
Qed.

(** X1.  Whatever the term and the filters, a result of [filterThreads] is the
    collection with some threads left out: order is kept, nothing is added,
    and a thread is kept exactly when it meets the three criteria together. *)
Theorem filterThreads_keeps_order_and_conjoins (st : State) (T : jsstring)
    (res : list Thread) :
  filterThreads T st = Ok res ->
  (exists keep : Thread -> bool, res = filter keep (allThreads st))
  /\ (List.length res <= List.length (allThreads st))%nat
  /\ (NoDup (allThreads st) -> NoDup res)
  /\ (forall t, In t res <->
        In t (allThreads st) /\ SearchCriterion T t
        /\ KeywordCriterion (activeFilters st) t
        /\ DateCriterion (activeFilters st) t).
Proof.
  intros H. unfold filterThreads in H.
  destruct (filterArray_inv _ _ H) as [_ Hres].
  split; [eexists; exact Hres|]. split; [|split].
  - rewrite Hres. apply filter_length_le.
  - intros Hnd. rewrite Hres. now apply NoDup_filter.
  - intros t. rewrite (filterArray_In _ _ t H), threadPasses_true_iff. tauto.
Qed.

(** *** The search-term test, field by field *)

Lemma scan_app_miss (T : jsstring) (ps qs : list (option jsstring)) :
  scan T ps = Ok false -> scan T (ps ++ qs) = scan T qs.
Proof.
  induction ps as [|[s|] ps IH]; simpl; intros H; [reflexivity | | discriminate].
  destruct (includes (toLowerCase s) T); [discriminate | auto].
Qed.

Lemma scan_app_decided (T : jsstring) (ps qs : list (option jsstring)) :
  scan T ps <> Ok false -> scan T (ps ++ qs) = scan T ps.
Proof.
  induction ps as [|[s|] ps IH]; simpl; intros H; [congruence | | reflexivity].
  destruct (includes (toLowerCase s) T); [reflexivity | auto].
Qed.

Lemma replyMatches_scan (T : jsstring) (r : Reply) :
  replyMatches T r = scan T (reply r :: (if truthy (user r) then [user r] else [])).
Proof.
  unfold replyMatches, lowerIncludes.
  destruct (reply r) as [s|]; [|reflexivity]. cbn [bind scan].
  destruct (includes (toLowerCase s) T); [reflexivity|].
  destruct (user r) as [[|c u]|]; cbn [truthy scan]; try reflexivity.
  destruct (includes (toLowerCase (c :: u)) T); reflexivity.
Qed.

Lemma some_replyMatches_scan (T : jsstring) (rs : list Reply) :
  some (replyMatches T) rs =
  scan T (flat_map (fun r => reply r :: (if truthy (user r) then [user r] else [])) rs).
Proof.
  induction rs as [|r rs IH]; [reflexivity|].
  cbn [some flat_map]. rewrite replyMatches_scan.
  set (ps := reply r :: (if truthy (user r) then [user r] else [])).
  destruct (scan T ps) as [[|]|e] eqn:E; cbn [bind].
  - rewrite scan_app_decided; congruence.
  - rewrite scan_app_miss by exact E. exact IH.
  - rewrite scan_app_decided; congruence.
Qed.

Lemma matchesSearch_scan (T : jsstring) (t : Thread) :
  matchesSearch T t = scan T (probes t).
Proof.
  unfold matchesSearch, probes, lowerIncludes. cbn [app scan].
  destruct (post_title t) as [a|]; [|reflexivity]. cbn [bind].
  destruct (includes (toLowerCase a) T); [reflexivity|].
  destruct (keyword t) as [b|]; [|reflexivity]. cbn [bind].
  destruct (includes (toLowerCase b) T); [reflexivity|].
  destruct (username t) as [c|]; [|reflexivity]. cbn [bind].
  destruct (includes (toLowerCase c) T); [reflexivity|].
  destruct (replies t) as [rs|]; [|reflexivity].
  apply some_replyMatches_scan.
Qed.

Lemma Misses_Some (T s : jsstring) :
  Misses T (Some s) <-> includes (toLowerCase s) T = false.
Proof.
  unfold Misses. split.
  - intros [s' [H Hs]]. injection H as H. now subst s'.
  - intros H. now exists s.
Qed.

Lemma Misses_None (T : jsstring) : ~ Misses T None.
Proof. intros [s [H _]]. discriminate. Qed.

Lemma scan_throw_iff (T : jsstring) (ps : list (option jsstring)) :
  scan T ps = Throw TypeError <->
  exists before after,
    ps = before ++ None :: after /\ Forall (Misses T) before.
Proof.
  induction ps as [|[s|] ps IH]; simpl.
  - split; [discriminate | intros [[|x b] [a [H _]]]; discriminate].
  - destruct (includes (toLowerCase s) T) eqn:E.
    + split; [discriminate|].
      intros [[|x b] [a [H Hb]]]; [discriminate|].
      injection H as Hx _. subst x.
      apply Forall_cons_iff in Hb as [Hs _]. apply Misses_Some in Hs. congruence.
    + rewrite IH. split.
      * intros [b [a [-> Hb]]]. exists (Some s :: b), a. split; [reflexivity|].
        constructor; [now apply Misses_Some | exact Hb].
      * intros [[|x b] [a [H Hb]]]; [discriminate|].
        injection H as Hx Hps. subst x ps. exists b, a. split; [reflexivity|].
        now apply Forall_cons_iff in Hb.
  - split; [intros _; now exists [], ps | reflexivity].
Qed.

Lemma scan_true_iff (T : jsstring) (ps : list (option jsstring)) :
  scan T ps = Ok true <->
  exists before s after,
    ps = before ++ Some s :: after /\ Forall (Misses T) before
    /\ includes (toLowerCase s) T = true.
Proof.
  induction ps as [|[s|] ps IH]; simpl.
  - split; [discriminate | intros [[|x b] [s [a [H _]]]]; discriminate].
  - destruct (includes (toLowerCase s) T) eqn:E.
    + split; [intros _; now exists [], s, ps | reflexivity].
    + rewrite IH. split.
      * intros [b [s' [a [-> [Hb Hs]]]]]. exists (Some s :: b), s', a.
        split; [reflexivity|]. split; [|exact Hs].
        constructor; [now apply Misses_Some | exact Hb].
      * intros [[|x b] [s' [a [H [Hb Hs]]]]].
        -- injection H as Hs' _. subst s'. congruence.
        -- injection H as Hx Hps. subst x ps. exists b, s', a.
           split; [reflexivity|]. split; [|exact Hs].
           now apply Forall_cons_iff in Hb.
  - split; [discriminate|].
    intros [[|x b] [s [a [H [Hb _]]]]]; [discriminate|].
    injection H as Hx _. subst x.
    apply Forall_cons_iff in Hb as [Hn _]. now apply Misses_None in Hn.
Qed.

Lemma scan_false_iff (T : jsstring) (ps : list (option jsstring)) :
  scan T ps = Ok false <-> Forall (Misses T) ps.
Proof.
  induction ps as [|[s|] ps IH]; simpl.
  - split; [constructor | reflexivity].
  - rewrite Forall_cons_iff, Misses_Some, <- IH.
    destruct (includes (toLowerCase s) T); split; try tauto; try discriminate.
    intros [H _]. discriminate.
  - rewrite Forall_cons_iff. split; [discriminate|].
    intros [H _]. now apply Misses_None in H.
Qed.

(** X2.  The search-term test reads title, keyword, user name, then each reply's
    text and (non-empty) user, and stops at the first field that contains the
    term.  It raises a TypeError exactly when it meets an absent title,
    keyword, user name or reply text before any field contains the term; it
    answers true exactly when some field contains the term and every field
    read before it is present; it answers false exactly when every field is
    present and none contains the term.  The user of a reply is only read
    when it is present and non-empty, so it never causes the error. *)
Theorem search_test_reads_fields_in_order (T : jsstring) (t : Thread) :
  (matchesSearch T t = Throw TypeError <->
   exists before after,
     probes t = before ++ None :: after /\ Forall (Misses T) before)
  /\ (matchesSearch T t = Ok true <->
      exists before s after,
        probes t = before ++ Some s :: after /\ Forall (Misses T) before
        /\ includes (toLowerCase s) T = true)
  /\ (matchesSearch T t = Ok false <-> Forall (Misses T) (probes t)).
Proof.
  rewrite matchesSearch_scan. split; [apply scan_throw_iff|].
  split; [apply scan_true_iff | apply scan_false_iff].
Qed.

(** *** Narrowing and widening *)

Lemma Substring_trans (a b c : jsstring) :
  Substring a b -> Substring b c -> Substring a c.
Proof.
  intros [p1 [q1 ->]] [p2 [q2 ->]]. exists (p2 ++ p1), (q1 ++ q2).
  now rewrite <- !app_assoc.
Qed.

Lemma includes_shorter_term (s T1 T2 : jsstring) :
  Substring T1 T2 -> includes s T2 = true -> includes s T1 = true.
Proof.
  rewrite !includes_spec. apply Substring_trans.
Qed.

Lemma scan_shorter_term (T1 T2 : jsstring) (ps : list (option jsstring)) (b : bool) :
  Substring T1 T2 -> scan T2 ps = Ok b ->
  exists b', scan T1 ps = Ok b' /\ (b = true -> b' = true).
Proof.
  intros Hsub. induction ps as [|[s|] ps IH]; simpl; intros H.
  - exists false. split; [reflexivity | congruence].
  - destruct (includes (toLowerCase s) T1) eqn:E1; [now exists true|].
    destruct (includes (toLowerCase s) T2) eqn:E2; [|auto].
    rewrite (includes_shorter_term _ Hsub E2) in E1. discriminate.
  - discriminate.
Qed.

Lemma filterArray_wider {A} (f g : A -> result bool) (l r : list A) :
  (forall a b, In a l -> f a = Ok b -> exists b', g a = Ok b' /\ (b = true -> b' = true)) ->
  filterArray f l = Ok r ->
  exists r', filterArray g l = Ok r' /\ incl r r'.
Proof.
  revert r. induction l as [|a l IH]; simpl; intros r Hfg H.
  - injection H as <-. exists []. split; [reflexivity | apply incl_refl].
  - destruct (f a) as [b|e] eqn:Ea; cbn [bind] in H; [|discriminate].
    destruct (filterArray f l) as [r0|e] eqn:El; cbn [bind] in H; [|discriminate].
    injection H as <-.
    destruct (Hfg a b (or_introl eq_refl) Ea) as [b' [Eg Hb]].
    destruct (IH r0 (fun x y Hx => Hfg x y (or_intror Hx)) eq_refl) as [r' [Er Hincl]].
    rewrite Eg, Er. cbn [bind]. eexists. split; [reflexivity|].
    destruct b.
    + rewrite (Hb eq_refl). intros x [<- | Hx]; [now left | right; auto].
    + destruct b'; [apply incl_tl|]; exact Hincl.
Qed.

Lemma threadPasses_shorter_term (T1 T2 : jsstring) (f : Filters) (t : Thread) (b : bool) :
  Substring T1 T2 -> threadPasses T2 f t = Ok b ->
  exists b', threadPasses T1 f t = Ok b' /\ (b = true -> b' = true).
Proof.
  intros Hsub. rewrite !threadPasses_split, !matchesSearch_scan.
  destruct T2 as [|c2 T2].
  - destruct Hsub as [[|x p] [q H]]; [|discriminate].
    destruct T1; [|discriminate]. cbn [isEmptyString negb bind]. eauto.
  - cbn [isEmptyString negb].
    destruct (scan (c2 :: T2) (probes t)) as [b2|e] eqn:E2; cbn [bind]; [|discriminate].
    intros [= <-].
    destruct (scan_shorter_term _ Hsub E2) as [b1 [E1 Hb]].
    destruct T1 as [|c1 T1]; cbn [isEmptyString negb bind].
    + eexists. split; [reflexivity|]. cbn [andb]. intros H.
      apply andb_true_iff in H as [H1 H2]. apply andb_true_iff in H1 as [_ H1].
      now rewrite H1, H2.
    + rewrite E1. cbn [bind]. eexists. split; [reflexivity|].
      intros H. apply andb_true_iff in H as [H1 H2].
      apply andb_true_iff in H1 as [H0 H1]. now rewrite (Hb H0), H1, H2.
Qed.

(** X3.  Shortening the search term never loses a thread: when the filter gives a
    result for a term, it gives one for every term contained in it (the empty
    one included), and that result has all the threads of the first. *)
Theorem shorter_term_keeps_every_match (st : State) (T1 T2 : jsstring)
    (res2 : list Thread) :
  Substring T1 T2 ->
  filterThreads T2 st = Ok res2 ->
  exists res1, filterThreads T1 st = Ok res1 /\ incl res2 res1.
Proof.
  intros Hsub H. unfold filterThreads in *.
  eapply filterArray_wider; [|exact H].
  intros t b _. now apply threadPasses_shorter_term.
Qed.

Lemma date_le_trans (a b c : timeValue) :
  date_le a b = true -> date_le b c = true -> date_le a c = true.
Proof.
  destruct a, b, c; simpl; try discriminate.
  rewrite !Z.leb_le. lia.
Qed.

Lemma keywordPasses_loosens (g f : Filters) (t : Thread) :
  Loosens g f -> keywordPasses f t = true -> keywordPasses g t = true.
Proof.
  intros [[Hg | [Hf Hincl]] _]; rewrite !keywordPasses_spec; [auto|].
  intros [H | [k [Hk Hin]]]; [contradiction|].
  right. exists k. auto.
Qed.

Lemma dateRangePasses_loosens (g f : Filters) (t : Thread) :
  Loosens g f -> dateRangePasses f t = true -> dateRangePasses g t = true.
Proof.
  intros [_ Hd]. rewrite !dateRangePasses_criterion. unfold DateCriterion.
  destruct (startDate g) as [s'|]; [|auto].
  destruct (endDate g) as [e'|]; [|auto].
  destruct Hd as [s [e [-> [-> [Hs He]]]]].
  intros [Hn | [rs [r [Hrs [Hr [tm [parts [Htm [Hp [H1 H2]]]]]]]]]]; [now left|].
  right. exists rs, r. split; [exact Hrs|]. split; [exact Hr|].
  exists tm, parts. split; [exact Htm|]. split; [exact Hp|].
  split; eapply date_le_trans; eauto.
Qed.

(** X4.  Loosening the filters never loses a thread: dropping the keyword
    selection or selecting more keywords, and dropping the date range or
    widening it at either end, gives a result that has all the threads of the
    stricter one. *)
Theorem looser_filters_keep_every_match (st st' : State) (T : jsstring)
    (res : list Thread) :
  allThreads st' = allThreads st ->
  Loosens (activeFilters st') (activeFilters st) ->
  filterThreads T st = Ok res ->
  exists res', filterThreads T st' = Ok res' /\ incl res res'.
Proof.
  intros Hall Hl H. unfold filterThreads in *. rewrite Hall.
  eapply filterArray_wider; [|exact H].
  intros t b _. rewrite !threadPasses_split.
  destruct (if negb (isEmptyString T) then matchesSearch T t else Ok true)
    as [found|e]; cbn [bind]; [|discriminate].
  intros [= <-]. eexists. split; [reflexivity|].
  intros Hb. apply andb_true_iff in Hb as [H1 H2].
  apply andb_true_iff in H1 as [H0 H1].
  rewrite H0, (keywordPasses_loosens _ Hl H1), (dateRangePasses_loosens _ Hl H2).
  reflexivity.
Qed.

(** *** Edge cases of the date range *)

Lemma threadPasses_half_range (T : jsstring) (f : Filters) (t : Thread) :
  startDate f = None \/ endDate f = None ->
  threadPasses T f t = threadPasses T (withoutDates f) t.
Proof.
  intros Hd. rewrite !threadPasses_split.
  assert (H : dateRangePasses f t = true).
  { unfold dateRangePasses. destruct Hd as [-> | ->]; [reflexivity|].
    destruct (startDate f); reflexivity. }
  rewrite H. reflexivity.
Qed.

Lemma performSearch_same_filter (st st' : State) :
  searchInput st' = searchInput st ->
  threadsCards st' = threadsCards st ->
  filterThreads (toLowerCase (trim (searchInput st))) st'
  = filterThreads (toLowerCase (trim (searchInput st))) st ->
  snd (performSearch st') = snd (performSearch st)
  /\ threadsCards (fst (performSearch st')) = threadsCards (fst (performSearch st)).
Proof.
  intros Hi Hc Hf.
  destruct (filterThreads (toLowerCase (trim (searchInput st))) st) as [res|e] eqn:E.
  - assert (E' := Hf). rewrite <- Hi in E'.
    destruct (performSearch_ok st' E') as [H1 [_ [_ [_ H5]]]].
    destruct (performSearch_ok st E) as [H1' [_ [_ [_ H5']]]].
    rewrite H1, H1', H5, H5'. auto.
  - assert (E' := Hf). rewrite <- Hi in E'.
    rewrite (performSearch_throw st' E'), (performSearch_throw st E). auto.
Qed.

(** X5.  A date range filled in on one side only is no range: with the start or the
    end input left empty, Apply shows the same threads, and ends the same
    way, as with both inputs empty. *)
Theorem half_filled_date_range_is_ignored (st : State) :
  startDateInput st = None \/ endDateInput st = None ->
  let one := applyFilters st in
  let none := applyFilters (set_dateInputs None None st) in
  snd one = snd none
  /\ threadsCards (fst one) = threadsCards (fst none)
  /\ (startDate (activeFilters (fst one)) = None
      \/ endDate (activeFilters (fst one)) = None).
Proof.
  intros Hd one none. subst one none.
  assert (Hact : startDate (activeFilters (fst (applyFilters st))) = None
                 \/ endDate (activeFilters (fst (applyFilters st))) = None).
  { rewrite applyFilters_activeFilters. cbn [startDate endDate].
    destruct Hd as [-> | ->]; [left | right]; reflexivity. }
  split; [|split; [|exact Hact]].
  all: unfold applyFilters;
    set (f1 := {| keywords := selectedChips st;
                  startDate := valueAsDate (startDateInput st);
                  endDate := option_map (setHours 23 59 59 999)
                               (valueAsDate (endDateInput st)) |});
    set (f0 := {| keywords := selectedChips (set_dateInputs None None st);
                  startDate := valueAsDate (startDateInput (set_dateInputs None None st));
                  endDate := option_map (setHours 23 59 59 999)
                               (valueAsDate (endDateInput (set_dateInputs None None st))) |});
    assert (Hsame :
      snd (performSearch (set_activeFilters f1 st))
      = snd (performSearch (set_activeFilters f0 (set_dateInputs None None st)))
      /\ threadsCards (fst (performSearch (set_activeFilters f1 st)))
         = threadsCards (fst (performSearch
                                (set_activeFilters f0 (set_dateInputs None None st)))))
      by (apply (@performSearch_same_filter
                   (set_activeFilters f0 (set_dateInputs None None st))
                   (set_activeFilters f1 st));
          [reflexivity | reflexivity |];
          unfold filterThreads; apply filterArray_ext; intros t _;
          cbn [activeFilters set_activeFilters set_dateInputs];
          rewrite (@threadPasses_half_range _ f1 t)
            by (subst f1; cbn [startDate endDate];
                destruct Hd as [-> | ->]; [left | right]; reflexivity);
          reflexivity);
    destruct Hsame as [Hs Hc];
    destruct (performSearch (set_activeFilters f1 st)) as [s1 [e1|]];
    destruct (performSearch (set_activeFilters f0 (set_dateInputs None None st)))
      as [s0 [e0|]];
    cbn [fst snd] in *; try discriminate; try assumption; try reflexivity.
Qed.

(** X6.  With the range active, a thread that has replies but none with a
    timestamp the pattern finds is left out, whatever the term and the
    keywords. *)
Theorem thread_with_only_unparsable_times_is_dropped
    (st : State) (start finish : timeValue) (t : Thread) (r : Reply)
    (rs : list Reply) :
  startDate (activeFilters st) = Some start ->
  endDate (activeFilters st) = Some finish ->
  replies t = Some (r :: rs) ->
  (forall x, In x (r :: rs) ->
     time x = None \/ exists s, time x = Some s /\ ~ ContainsTimestamp s) ->
  forall T res, filterThreads T st = Ok res -> ~ In t res.
Proof.
  intros Hs He Hr Hbad T res H Hin. unfold filterThreads in H.
  apply (filterArray_In _ _ t H) in Hin as [_ Hp].
  apply threadPasses_true_iff in Hp as [_ [_ Hd]].
  unfold DateCriterion in Hd. rewrite Hs, He in Hd.
  destruct Hd as [[Hn | Hn] | [rs' [x [Hrs' [Hx [tm [parts [Htm [Hparts _]]]]]]]]].
  - congruence.
  - congruence.
  - rewrite Hr in Hrs'. injection Hrs' as <-.
    destruct (Hbad x Hx) as [Hnone | [s [Hsome Hno]]]; [congruence|].
    rewrite Htm in Hsome. injection Hsome as <-.
    apply dateParts_none in Hno. congruence.
Qed.

(** *** Searches that raise *)

Lemma filterArray_throw {A} (f : A -> result bool) (l : list A) (a : A) :
  In a l -> f a = Throw TypeError -> filterArray f l = Throw TypeError.
Proof.
  induction l as [|x l IH]; simpl; [contradiction|].
  intros [-> | Hin] Ha.
  - now rewrite Ha.
  - destruct (f x) as [b|[]]; cbn [bind]; [|reflexivity].
    now rewrite (IH Hin Ha).
Qed.

Lemma threadPasses_throw (T : jsstring) (f : Filters) (t : Thread) :
  threadPasses T f t = Throw TypeError <->
  T <> [] /\ matchesSearch T t = Throw TypeError.
Proof.
  rewrite threadPasses_split. destruct T as [|c T]; cbn [isEmptyString negb bind].
  - split; [discriminate | intros [H _]; congruence].
  - destruct (matchesSearch (c :: T) t) as [b|[]]; cbn [bind].
    + split; [discriminate | intros [_ H]; discriminate].
    + split; [intros _; split; [discriminate | reflexivity] | reflexivity].
Qed.

(** X7.  One thread on which the search-term test raises is enough to make the
    whole search fail: [filterThreads] gives no partial result,
    [performSearch] leaves the page exactly as it was, and [applyFilters] has
    by then stored the new filters but neither redraws the list nor closes
    the panel. *)
Theorem one_raising_thread_fails_the_whole_search (st : State) (t : Thread) :
  let T := toLowerCase (trim (searchInput st)) in
  In t (allThreads st) ->
  T <> [] ->
  matchesSearch T t = Throw TypeError ->
  filterThreads T st = Throw TypeError
  /\ performSearch st = (st, Some TypeError)
  /\ snd (applyFilters st) = Some TypeError
  /\ fst (applyFilters st) =
     set_activeFilters
       {| keywords := selectedChips st;
          startDate := valueAsDate (startDateInput st);
          endDate := option_map (setHours 23 59 59 999)
                       (valueAsDate (endDateInput st)) |} st.
Proof.
  intros T Hin HT Hm.
  assert (Hf : forall f, filterArray (threadPasses T f) (allThreads st) = Throw TypeError).
  { intros f. apply (filterArray_throw _ _ t Hin). now apply threadPasses_throw. }
  split; [apply Hf|]. split; [apply performSearch_throw; apply Hf|].
  unfold applyFilters.
  rewrite (@performSearch_throw (set_activeFilters _ st) TypeError) by (apply Hf).
  split; reflexivity.
Qed.

(** *** Searching twice, blank searches, reset *)

Lemma renderThreads_twice (l : list Thread) (st : State) :
  renderThreads l (renderThreads l st) = renderThreads l st.
Proof.
  destruct st. unfold renderThreads, showThreadsView, showNoResults, hideNoResults.
  destruct l as [|t l]; [reflexivity|]. cbn.
  destruct allThreads0; reflexivity.
Qed.

Lemma renderThreads_after_notice (st : State) :
  renderThreads [] (showNoResults (renderThreads [] st))
  = showNoResults (renderThreads [] st).
Proof. destruct st. reflexivity. Qed.

(** X8.  Searching again without changing anything changes nothing: the second
    [performSearch] leaves the page the first one left, and ends the same
    way. *)
Theorem performSearch_twice (st : State) :
  performSearch (fst (performSearch st)) = performSearch st.
Proof.
  destruct (filterThreads (toLowerCase (trim (searchInput st))) st) as [res|e] eqn:E.
  - destruct (performSearch_ok st E) as [_ [H2 [H3 [H4 _]]]].
    assert (E' : filterThreads (toLowerCase (trim (searchInput (fst (performSearch st)))))
                   (fst (performSearch st)) = Ok res).
    { rewrite H4. unfold filterThreads in *. now rewrite H2, H3. }
    unfold performSearch at 1. rewrite E'.
    unfold performSearch. rewrite E. cbn [fst].
    destruct res as [|t res]; cbn [List.length Nat.eqb].
    + now rewrite renderThreads_after_notice.
    + now rewrite renderThreads_twice.
  - rewrite (performSearch_throw st E). cbn [fst]. apply (performSearch_throw st E).
Qed.

Lemma trimStart_blank (s : jsstring) :
  forallb isWhiteSpace s = true -> trimStart s = [].
Proof.
  induction s as [|c s IH]; simpl; [reflexivity|].
  intros H. apply andb_true_iff in H as [Hc Hs]. rewrite Hc. auto.
Qed.

Lemma trim_blank (s : jsstring) : forallb isWhiteSpace s = true -> trim s = [].
Proof. intros H. unfold trim. now rewrite (trimStart_blank _ H). Qed.

(** X9.  A search box holding only white space counts as empty: the search never
    raises and shows exactly the threads that meet the keyword and date
    criteria, each absent field notwithstanding. *)
Theorem blank_search_box_searches_nothing (st : State) :
  forallb isWhiteSpace (searchInput st) = true ->
  snd (performSearch st) = None
  /\ forall t, In t (threadsCards (fst (performSearch st))) <->
       In t (allThreads st) /\ KeywordCriterion (activeFilters st) t
       /\ DateCriterion (activeFilters st) t.
Proof.
  intros Hb.
  assert (E : filterThreads (toLowerCase (trim (searchInput st))) st
              = Ok (filter (fun t => keywordPasses (activeFilters st) t
                                     && dateRangePasses (activeFilters st) t)
                           (allThreads st))).
  { rewrite (trim_blank _ Hb), toLowerCase_nil. apply filterThreads_no_term. }
  destruct (performSearch_ok st E) as [H1 [_ [_ [_ H5]]]].
  split; [exact H1|]. intros t.
  rewrite H5, filter_In, andb_true_iff. unfold KeywordCriterion.
  rewrite <- keywordPasses_spec, <- dateRangePasses_criterion. tauto.
Qed.

(** X10.  Reset empties the filters and the filter controls and shows the whole
    collection, but leaves the search box as it is: the list shown does not
    take the term in the box into account, and the next search applies that
    term alone. *)
Theorem reset_shows_everything_and_keeps_the_term (st : State) :
  let st' := resetFilters st in
  activeFilters st' = noFilters
  /\ (selectedChips st', startDateInput st', endDateInput st') = ([], None, None)
  /\ threadsCards st' = allThreads st
  /\ allThreads st' = allThreads st
  /\ searchInput st' = searchInput st
  /\ forall T res, filterThreads T st' = Ok res ->
       forall t, In t res <-> In t (allThreads st) /\ SearchCriterion T t.
Proof.
  intros st'. subst st'.
  destruct (resetFilters_shows_everything st) as [Hf [Ha Hc]].
  assert (Hi : searchInput (resetFilters st) = searchInput st
               /\ (selectedChips (resetFilters st), startDateInput (resetFilters st),
                   endDateInput (resetFilters st)) = ([], None, None)).
  { unfold resetFilters, renderThreads, showThreadsView, showNoResults, hideNoResults.
    cbn. destruct (allThreads st); cbn; auto. }
  destruct Hi as [Hi Hctl].
  repeat (split; [assumption|]).
  intros T res H t. unfold filterThreads in H.
  rewrite (filterArray_In _ _ t H), threadPasses_true_iff, Hf, Ha.
  unfold KeywordCriterion, DateCriterion. cbn. tauto.
Qed.

(** *** The date range, day by day *)

Lemma dateParts_nonempty (tm : jsstring) (parts : list jsstring) :
  dateParts tm = Some parts -> truthy (Some tm) = true.
Proof. destruct tm; [discriminate | reflexivity]. Qed.

(** X11.  Which replies an applied range keeps, in terms of days.  A reply written
    on local day [Dr] at time of day [tod] is kept exactly when it is not
    earlier than the start day taken at the time of day of the UTC offset,
    and its day is not after the end day (east of UTC or at UTC) or the day
    before the end day (west of UTC).  When local time is UTC this is: the
    reply's day lies between the start day and the end day, both included. *)
Theorem applied_date_range_in_days
    (st : State) (cs ce : calendarDate) (r : Reply) (tm : jsstring)
    (parts : list jsstring) (Dr tod : Z) :
  startDateInput st = Some cs ->
  endDateInput st = Some ce ->
  Z.abs (dayNumber cs) <= 99999999 ->
  Z.abs (dayNumber ce) <= 99999999 ->
  - msPerDay < LocalTZA < msPerDay ->
  time r = Some tm ->
  dateParts tm = Some parts ->
  replyDate parts = Finite (MakeDate Dr tod - LocalTZA) ->
  0 <= tod < msPerDay ->
  exists start finish,
    startDate (activeFilters (fst (applyFilters st))) = Some start
    /\ endDate (activeFilters (fst (applyFilters st))) = Some finish
    /\ (replyInDateRange start finish r = true <->
        MakeDate (dayNumber cs) LocalTZA <= MakeDate Dr tod
        /\ Dr <= (if 0 <=? LocalTZA then dayNumber ce else dayNumber ce - 1))
    /\ (LocalTZA = 0 ->
        (replyInDateRange start finish r = true <->
         dayNumber cs <= Dr <= dayNumber ce)).
Proof.
  intros Hs He Hbs Hbe Htz Htm Hparts Hrd Htod.
  rewrite applyFilters_activeFilters, Hs, He. cbn [startDate endDate valueAsDate option_map].
  fold (dayNumber cs). fold (dayNumber ce).
  set (Ds := dayNumber cs) in *. set (De := dayNumber ce) in *.
  assert (Hstart : TimeClip (MakeDate Ds 0) = Finite (MakeDate Ds 0)).
  { unfold TimeClip, MakeDate, msPerDay.
    replace (Z.abs (Ds * 86400000 + 0) <=? 8640000000000000) with true
      by (symmetry; apply Z.leb_le; lia).
    reflexivity. }
  assert (Hend0 : TimeClip (MakeDate De 0) = Finite (MakeDate De 0)).
  { unfold TimeClip, MakeDate, msPerDay.
    replace (Z.abs (De * 86400000 + 0) <=? 8640000000000000) with true
      by (symmetry; apply Z.leb_le; lia).
    reflexivity. }
  rewrite Hstart, Hend0.
  assert (Hday : Day (LocalTime (MakeDate De 0)) = if 0 <=? LocalTZA then De else De - 1).
  { unfold LocalTime, MakeDate, Day, msPerDay in *.
    destruct (Z.leb_spec 0 LocalTZA).
    - replace (De * 86400000 + 0 + LocalTZA) with (LocalTZA + De * 86400000) by lia.
      rewrite Z.div_add by lia. rewrite Z.div_small by lia. lia.
    - replace (De * 86400000 + 0 + LocalTZA)
        with ((LocalTZA + 86400000) + (De - 1) * 86400000) by lia.
      rewrite Z.div_add by lia. rewrite Z.div_small by lia. lia. }
  assert (Hclip : Z.abs (MakeDate (Day (LocalTime (MakeDate De 0))) 86399999 - LocalTZA)
                  <= 8640000000000000).
  { rewrite Hday. unfold MakeDate, msPerDay in *.
    destruct (Z.leb_spec 0 LocalTZA); lia. }
  destruct (setHours_on_utc_midnight De (conj (Z.lt_le_incl _ _ (proj1 Htz)) (proj2 Htz))
              Hclip) as [u [Hu [Hmod Hud]]].
  rewrite Hu. exists (Finite (MakeDate Ds 0)), (Finite u).
  split; [reflexivity|]. split; [reflexivity|].
  assert (Hu' : u = MakeDate (if 0 <=? LocalTZA then De else De - 1) 86399999 - LocalTZA).
  { unfold LocalTime, Day, MakeDate, msPerDay in *.
    pose proof (Z.div_mod (u + LocalTZA) 86400000 ltac:(lia)) as Hdm.
    rewrite Hud, Hmod in Hdm. lia. }
  assert (Hiff : replyInDateRange (Finite (MakeDate Ds 0)) (Finite u) r = true <->
                 MakeDate Ds LocalTZA <= MakeDate Dr tod
                 /\ Dr <= (if 0 <=? LocalTZA then De else De - 1)).
  { unfold replyInDateRange. rewrite Htm, (dateParts_nonempty _ Hparts), Hparts, Hrd.
    cbn [negb]. unfold date_ge, date_le.
    rewrite andb_true_iff, !Z.leb_le, Hu'. unfold MakeDate, msPerDay in *.
    destruct (0 <=? LocalTZA); lia. }
  split; [exact Hiff|].
  intros H0. rewrite Hiff, H0. cbn [Z.leb Z.compare].
  unfold MakeDate, msPerDay in *. lia.
Qed.

(* ===================================================================== *)
(** ** Loading, chips and events *)
(* ===================================================================== *)

(** *** Calendar fields *)

Lemma YearFromDay_spec (d : Z) :
  DayFromYear (YearFromDay d) <= d < DayFromYear (YearFromDay d + 1).
Proof.
  unfold YearFromDay, DayFromYear.
  repeat match goal with |- context [Z.leb ?a ?b] => destruct (Z.leb_spec a b) end;
  repeat match goal with |- context [Z.ltb ?a ?b] => destruct (Z.ltb_spec a b) end.
  all: Z.div_mod_to_equations; lia.
Qed.

Lemma DayFromYear_succ (y : Z) :
  DayFromYear (y + 1) = DayFromYear y + 365 + (if InLeapYear y then 1 else 0).
Proof.
  unfold DayFromYear, InLeapYear.
  repeat match goal with |- context [Z.eqb ?a ?b] => destruct (Z.eqb_spec a b) end;
    cbn [andb orb negb]; Z.div_mod_to_equations; lia.
Qed.

(** Year, month and day of a day number give that day number back. *)
Lemma MakeDay_decompose (d : Z) :
  MakeDay (YearFromDay d) (MonthFromDay d) (DateFromDay d) = d
  /\ 0 <= MonthFromDay d <= 11 /\ 1 <= DateFromDay d <= 31.
Proof.
  pose proof (YearFromDay_spec d) as Hy.
  rewrite DayFromYear_succ in Hy.
  unfold MakeDay, DateFromDay, MonthFromDay in *.
  set (y := YearFromDay d) in *. set (n := d - DayFromYear y) in *.
  assert (Hn : 0 <= n < 365 + (if InLeapYear y then 1 else 0)) by (subst n; lia).
  assert (Hm : 0 <= MonthFromDayInYear (InLeapYear y) n <= 11
               /\ 0 <= n - monthStart (InLeapYear y)
                             (MonthFromDayInYear (InLeapYear y) n) <= 30).
  { unfold MonthFromDayInYear, monthStart. destruct (InLeapYear y);
    repeat match goal with |- context [Z.ltb ?a ?b] => destruct (Z.ltb_spec a b) end;
    cbn; lia. }
  destruct Hm as [Hm Hd].
  set (m := MonthFromDayInYear (InLeapYear y) n) in *. clearbody m.
  replace (m / 12) with 0 by (symmetry; apply Z.div_small; lia).
  replace (m mod 12) with m by (symmetry; apply Z.mod_small; lia).
  replace (y + 0) with y by lia. subst n. lia.
Qed.

(** The same day of the month before lies 28 to 31 days back. *)
Lemma MakeDay_previous_month (y m d : Z) :
  0 <= m <= 11 -> 28 <= MakeDay y m d - MakeDay y (m - 1) d <= 31.
Proof.
  intros Hm. unfold MakeDay.
  replace (m / 12) with 0 by (symmetry; apply Z.div_small; lia).
  replace (m mod 12) with m by (symmetry; apply Z.mod_small; lia).
  replace (y + 0) with y by lia.
  destruct (Z.eq_dec m 0) as [-> | Hne].
  - change ((0 - 1) / 12) with (-1). change ((0 - 1) mod 12) with 11.
    replace (y + -1) with (y - 1) by lia.
    pose proof (DayFromYear_succ (y - 1)) as H. replace (y - 1 + 1) with y in H by lia.
    rewrite H. unfold monthStart. cbn.
    destruct (InLeapYear (y - 1)), (InLeapYear y); lia.
  - replace ((m - 1) / 12) with 0 by (symmetry; apply Z.div_small; lia).
    replace ((m - 1) mod 12) with (m - 1) by (symmetry; apply Z.mod_small; lia).
    replace (y + 0) with y by lia.
    assert (Hc : m = 1 \/ m = 2 \/ m = 3 \/ m = 4 \/ m = 5 \/ m = 6 \/ m = 7
                 \/ m = 8 \/ m = 9 \/ m = 10 \/ m = 11) by lia.
    destruct (InLeapYear y);
      repeat (destruct Hc as [-> | Hc]; [cbn; lia|]); subst; cbn; lia.
Qed.

(** Reading a date input back after a Date was assigned to it gives midnight
    UTC of that Date's day. *)
Lemma valueAsDate_setValueAsDate (t : Z) :
  valueAsDate (setValueAsDate (Finite t)) = Some (TimeClip (MakeDate (Day t) 0)).
Proof.
  unfold valueAsDate, setValueAsDate. cbn [cyear cmonth cday].
  unfold YearFromTime, MonthFromTime, DateFromTime.
  replace (MonthFromDay (Day t) + 1 - 1) with (MonthFromDay (Day t)) by lia.
  now rewrite (proj1 (MakeDay_decompose (Day t))).
Qed.

(** [setMonth(getMonth() - 1)] moves a Date back by 28 to 31 whole days. *)
Lemma setMonth_previous (now : Z) :
  Z.abs now <= 8640000000000000 - 32 * msPerDay ->
  exists k, 28 <= k <= 31
    /\ setMonth (getMonth now - 1) (Finite now) = Finite (now - k * msPerDay).
Proof.
  intros Hnow. unfold setMonth, getMonth, YearFromTime, MonthFromTime, DateFromTime.
  set (lt := LocalTime now).
  destruct (MakeDay_decompose (Day lt)) as [Hd [Hm _]].
  pose proof (MakeDay_previous_month (YearFromDay (Day lt)) (DateFromDay (Day lt)) Hm)
    as Hk.
  set (prev := MakeDay (YearFromDay (Day lt)) (MonthFromDay (Day lt) - 1)
                       (DateFromDay (Day lt))) in *.
  rewrite Hd in Hk. exists (Day lt - prev). split; [exact Hk|].
  assert (Hlt : lt = Day lt * msPerDay + TimeWithinDay lt).
  { unfold Day, TimeWithinDay, msPerDay.
    pose proof (Z.div_mod lt 86400000 ltac:(lia)). lia. }
  unfold UTC, MakeDate, TimeClip.
  assert (E : prev * msPerDay + TimeWithinDay lt - LocalTZA
              = now - (Day lt - prev) * msPerDay).
  { unfold lt, LocalTime in *. lia. }
  rewrite E.
  replace (Z.abs (now - (Day lt - prev) * msPerDay) <=? 8640000000000000) with true;
    [reflexivity|].
  symmetry. apply Z.leb_le. unfold msPerDay in *. lia.
Qed.

(** *** Unique keywords and chips *)

Lemma setAdd_In (k x : jsstring) (s : list jsstring) :
  In x (setAdd k s) <-> In x s \/ x = k.
Proof.
  unfold setAdd. destruct (existsb (jsstring_eqb k) s) eqn:E.
  - apply existsb_exists in E as [y [Hy Hky]]. apply jsstring_eqb_eq in Hky. subst y.
    split; [auto | intros [H | ->]; assumption].
  - rewrite in_app_iff. simpl. intuition.
Qed.

Lemma setAdd_NoDup (k : jsstring) (s : list jsstring) :
  NoDup s -> NoDup (setAdd k s).
Proof.
  intros Hs. unfold setAdd. destruct (existsb (jsstring_eqb k) s) eqn:E; [exact Hs|].
  apply NoDup_app; [exact Hs | repeat constructor; intros [] |].
  intros x Hx [Hk | []]. subst x.
  assert (existsb (jsstring_eqb k) s = true)
    by (apply existsb_exists; exists k; split; [exact Hx | now apply jsstring_eqb_eq]).
  congruence.
Qed.

Lemma uniqueKeywords_fold (threads : list Thread) :
  forall acc,
    let out := fold_left
                 (fun set thread =>
                    if truthy (keyword thread)
                    then match keyword thread with
                         | Some k => setAdd k set
                         | None => set
                         end
                    else set)
                 threads acc in
    (NoDup acc -> NoDup out)
    /\ forall k, In k out <->
         In k acc \/ (k <> [] /\ exists t, In t threads /\ keyword t = Some k).
Proof.
  induction threads as [|t threads IH]; intros acc; cbn [fold_left].
  - split; [auto|]. intros k. split; [auto | intros [H | [_ [t [[] _]]]]; exact H].
  - destruct (keyword t) as [[|c k0]|] eqn:Ek; cbn [truthy].
    + destruct (IH acc) as [Hnd Hin]. split; [exact Hnd|].
      intros k. rewrite Hin. split.
      * intros [H | [Hne [u [Hu Hk]]]]; [now left | right].
        split; [exact Hne|]. exists u. split; [now right | exact Hk].
      * intros [H | [Hne [u [[<- | Hu] Hk]]]]; [now left | congruence | right].
        split; [exact Hne|]. now exists u.
    + destruct (IH (setAdd (c :: k0) acc)) as [Hnd Hin]. split.
      * intros Hacc. apply Hnd. now apply setAdd_NoDup.
      * intros k. rewrite Hin, setAdd_In. split.
        -- intros [[H | ->] | [Hne [u [Hu Hk]]]]; [now left | right | right].
           ++ split; [discriminate|]. exists t. split; [now left | exact Ek].
           ++ split; [exact Hne|]. exists u. split; [now right | exact Hk].
        -- intros [H | [Hne [u [[<- | Hu] Hk]]]]; [now left; left | | right].
           ++ left; right. congruence.
           ++ split; [exact Hne|]. now exists u.
    + destruct (IH acc) as [Hnd Hin]. split; [exact Hnd|].
      intros k. rewrite Hin. split.
      * intros [H | [Hne [u [Hu Hk]]]]; [now left | right].
        split; [exact Hne|]. exists u. split; [now right | exact Hk].
      * intros [H | [Hne [u [[<- | Hu] Hk]]]]; [now left | congruence | right].
        split; [exact Hne|]. now exists u.
Qed.

(** X12.  [extractUniqueKeywords] collects each keyword once: the result has no
    duplicates and holds exactly the non-empty keywords that some thread of
    the collection carries.  A thread with no keyword, or an empty one,
    contributes nothing. *)
Theorem extractUniqueKeywords_spec (threads : list Thread) :
  NoDup (extractUniqueKeywords threads)
  /\ forall k, In k (extractUniqueKeywords threads) <->
       k <> [] /\ exists t, In t threads /\ keyword t = Some k.
Proof.
  destruct (uniqueKeywords_fold threads []) as [Hnd Hin]. split.
  - apply Hnd. constructor.
  - intros k. unfold extractUniqueKeywords. rewrite Hin. simpl. tauto.
Qed.

(** *** What every listener preserves *)

Ltac split_conj := repeat match goal with |- _ /\ _ => split end.

Lemma showThreadsView_coherent (uk : list jsstring) (st : State) :
  PageCoherent uk st -> PageCoherent uk (showThreadsView st).
Proof.
  unfold PageCoherent, showThreadsView, showNoResults, hideNoResults.
  destruct st; cbn. intros [H1 [H2 [H3 [H4 H5]]]].
  destruct allThreads0; cbn; split_conj; auto; try discriminate; try congruence;
    split; intros; congruence.
Qed.

Lemma showNoResults_coherent (uk : list jsstring) (st : State) :
  PageCoherent uk st -> PageCoherent uk (showNoResults st).
Proof.
  unfold PageCoherent, showNoResults. destruct st; cbn.
  intros [H1 [H2 [H3 [H4 H5]]]]. split_conj; auto; try discriminate; apply H4.
Qed.

Lemma renderThreads_coherent (uk : list jsstring) (l : list Thread) (st : State) :
  (exists keep : Thread -> bool, l = filter keep (allThreads st)) ->
  PageCoherent uk st -> PageCoherent uk (renderThreads l st).
Proof.
  intros Hl H. unfold renderThreads. destruct l as [|t l]; cbn [List.length Nat.eqb].
  - apply showNoResults_coherent. destruct H as [H1 [_ [H3 [H4 H5]]]].
    unfold PageCoherent. destruct st; cbn in *. split_conj; auto; apply H4.
  - apply showThreadsView_coherent. destruct H as [H1 [_ [H3 [H4 H5]]]].
    unfold PageCoherent, hideNoResults. destruct st; cbn in *.
    split_conj; auto; try apply H4; intros Ht; split; [reflexivity | now apply H5].
Qed.

Lemma performSearch_coherent (uk : list jsstring) (st : State) :
  PageCoherent uk st -> PageCoherent uk (fst (performSearch st)).
Proof.
  intros H. unfold performSearch.
  destruct (filterThreads (toLowerCase (trim (searchInput st))) st) as [res|e] eqn:E;
    [|exact H].
  assert (Hres : exists keep : Thread -> bool, res = filter keep (allThreads st)).
  { unfold filterThreads in E. destruct (filterArray_inv _ _ E) as [_ Hr]. eauto. }
  destruct (Nat.eqb (List.length res) 0); cbn [fst].
  - apply showNoResults_coherent. now apply renderThreads_coherent.
  - now apply renderThreads_coherent.
Qed.

Lemma toggleFilterPanel_coherent (uk : list jsstring) (st : State) :
  PageCoherent uk st -> PageCoherent uk (toggleFilterPanel st).
Proof. unfold PageCoherent, toggleFilterPanel. destruct st; cbn. auto. Qed.

Lemma applyFilters_coherent (uk : list jsstring) (st : State) :
  incl (selectedChips st) uk ->
  PageCoherent uk st -> PageCoherent uk (fst (applyFilters st)).
Proof.
  intros Hsel H. unfold applyFilters.
  set (st1 := set_activeFilters _ st).
  assert (H1 : PageCoherent uk st1).
  { subst st1. destruct H as [_ H]. unfold PageCoherent. destruct st; cbn in *.
    split; [exact Hsel | exact H]. }
  apply performSearch_coherent in H1.
  destruct (performSearch st1) as [st2 [e|]]; cbn [fst] in *; [exact H1|].
  now apply toggleFilterPanel_coherent.
Qed.

Lemma resetFilters_coherent (uk : list jsstring) (st : State) :
  PageCoherent uk st -> PageCoherent uk (resetFilters st).
Proof.
  intros H. unfold resetFilters. apply renderThreads_coherent.
  - exists (fun _ => true). cbn. symmetry. apply filter_all. reflexivity.
  - destruct H as [_ H]. unfold PageCoherent. destruct st; cbn in *.
    split; [intros x [] | exact H].
Qed.

Lemma onKeydown_coherent (uk : list jsstring) (key : jsstring) (st : State) :
  PageCoherent uk st -> PageCoherent uk (onKeydown key st).
Proof.
  intros H. unfold onKeydown.
  destruct (jsstring_eqb key Escape); [|exact H].
  destruct (filterPanelHidden st); cbn [negb].
  - destruct (threadsHidden st); cbn [negb]; [exact H|].
    now apply showThreadsView_coherent.
  - now apply toggleFilterPanel_coherent.
Qed.

Lemma showThreadDetail_coherent (uk : list jsstring) (t : Thread) (st : State) :
  In t (threadsCards st) ->
  PageCoherent uk st -> PageCoherent uk (showThreadDetail t st).
Proof.
  intros Hin [H1 [[keep H2] [H3 [H4 H5]]]].
  assert (Ht : In t (allThreads st)).
  { rewrite H2 in Hin. now apply filter_In in Hin. }
  unfold PageCoherent, showThreadDetail. destruct st; cbn in *.
  split_conj; eauto; try discriminate; try congruence.
  split; [discriminate | reflexivity].
Qed.

(** What no listener touches: the collection and the loading indicator. *)
Lemma performSearch_collection (st : State) :
  allThreads (fst (performSearch st)) = allThreads st
  /\ loadingHidden (fst (performSearch st)) = loadingHidden st
  /\ selectedChips (fst (performSearch st)) = selectedChips st.
Proof.
  unfold performSearch.
  destruct (filterThreads (toLowerCase (trim (searchInput st))) st) as [res|e];
    [|auto].
  unfold renderThreads, showThreadsView, showNoResults, hideNoResults.
  destruct res as [|t res]; cbn; [auto|].
  destruct (allThreads st) eqn:Ea; cbn; auto.
Qed.

Lemma applyFilters_collection (st : State) :
  allThreads (fst (applyFilters st)) = allThreads st
  /\ loadingHidden (fst (applyFilters st)) = loadingHidden st
  /\ selectedChips (fst (applyFilters st)) = selectedChips st.
Proof.
  unfold applyFilters. set (st1 := set_activeFilters _ st).
  destruct (performSearch_collection st1) as [H1 [H2 H3]].
  destruct (performSearch st1) as [st2 [e|]]; cbn [fst] in *; auto.
Qed.

Lemma showThreadsView_collection (st : State) :
  allThreads (showThreadsView st) = allThreads st
  /\ loadingHidden (showThreadsView st) = loadingHidden st
  /\ selectedChips (showThreadsView st) = selectedChips st.
Proof.
  unfold showThreadsView, showNoResults, hideNoResults. cbn.
  destruct (allThreads st) eqn:Ea; cbn; auto.
Qed.

Lemma onKeydown_collection (key : jsstring) (st : State) :
  allThreads (onKeydown key st) = allThreads st
  /\ loadingHidden (onKeydown key st) = loadingHidden st
  /\ selectedChips (onKeydown key st) = selectedChips st.
Proof.
  unfold onKeydown. destruct (jsstring_eqb key Escape); [|auto].
  destruct (filterPanelHidden st); cbn [negb]; [|cbn; auto].
  destruct (threadsHidden st); cbn [negb]; [auto|].
  apply showThreadsView_collection.
Qed.

Lemma resetFilters_collection (st : State) :
  allThreads (resetFilters st) = allThreads st
  /\ loadingHidden (resetFilters st) = loadingHidden st
  /\ selectedChips (resetFilters st) = [].
Proof.
  unfold resetFilters, renderThreads, showThreadsView, showNoResults, hideNoResults.
  cbn. destruct (allThreads st) eqn:Ea; cbn; auto.
Qed.

Lemma toggleChip_keywords (n : nat) (chips : list (jsstring * bool)) :
  map fst (toggleChip n chips) = map fst chips.
Proof.
  revert n. induction chips as [|[k b] chips IH]; intros [|n]; cbn; try reflexivity.
  now rewrite IH.
Qed.

Lemma selectedKeywords_incl (chips : list (jsstring * bool)) :
  incl (selectedKeywords chips) (map fst chips).
Proof.
  intros k Hk. unfold selectedKeywords in Hk. apply in_map_iff in Hk as [c [<- Hc]].
  apply filter_In in Hc as [Hc _]. now apply in_map.
Qed.

Lemma selectedKeywords_cleared (chips : list (jsstring * bool)) :
  selectedKeywords (map (fun c => (fst c, false)) chips) = [].
Proof. induction chips as [|c chips IH]; [reflexivity | exact IH]. Qed.

Lemma dispatch_coherent (e : Event) (d : Document) :
  Coherent d ->
  Coherent (fst (dispatch e d))
  /\ allThreads (page (fst (dispatch e d))) = allThreads (page d)
  /\ loadingHidden (page (fst (dispatch e d))) = loadingHidden (page d)
  /\ errorMessages (fst (dispatch e d)) = errorMessages d.
Proof.
  intros (Hu & Hc & Hs & Hp).
  assert (Hsel : incl (selectedChips (page d)) (uniqueKeywords d)).
  { rewrite Hs, <- Hc. apply selectedKeywords_incl. }
  assert (Hframe : forall st',
     allThreads st' = allThreads (page d) /\ loadingHidden st' = loadingHidden (page d)
     /\ selectedChips st' = selectedChips (page d) ->
     PageCoherent (uniqueKeywords d) st' ->
     Coherent (set_page st' d)
     /\ allThreads (page (set_page st' d)) = allThreads (page d)
     /\ loadingHidden (page (set_page st' d)) = loadingHidden (page d)
     /\ errorMessages (set_page st' d) = errorMessages d).
  { intros st' (Ha & Hl & Hsc) Hp'. unfold Coherent. cbn.
    rewrite Ha, Hsc. split_conj; auto. }
  destruct e; cbn [dispatch].
  - apply Hframe; [apply showThreadsView_collection | now apply showThreadsView_coherent].
  - pose proof (performSearch_collection (page d)) as Hcol.
    pose proof (performSearch_coherent Hp) as Hco.
    destruct (performSearch (page d)) as [st x]; cbn [fst] in *. now apply Hframe.
  - destruct (jsstring_eqb key Enter).
    + pose proof (performSearch_collection (page d)) as Hcol.
      pose proof (performSearch_coherent Hp) as Hco.
      destruct (performSearch (page d)) as [st x]; cbn [fst] in *. now apply Hframe.
    + cbn [fst]. unfold Coherent. auto.
  - apply Hframe; [cbn; auto | now apply toggleFilterPanel_coherent].
  - pose proof (applyFilters_collection (page d)) as Hcol.
    pose proof (applyFilters_coherent Hsel Hp) as Hco.
    destruct (applyFilters (page d)) as [st x]; cbn [fst] in *. now apply Hframe.
  - cbn [fst]. destruct (resetFilters_collection (page d)) as (Ha & Hl & Hsc).
    unfold Coherent. cbn [page uniqueKeywords keywordChips errorMessages].
    rewrite Ha, Hsc, selectedKeywords_cleared, map_map. cbn [fst].
    split_conj; auto. now apply resetFilters_coherent.
  - apply Hframe; [apply onKeydown_collection | now apply onKeydown_coherent].
  - destruct (nth_error (threadsCards (page d)) card) as [t|] eqn:En; cbn [fst].
    + apply Hframe; [cbn; auto|].
      apply showThreadDetail_coherent; [|exact Hp]. eapply nth_error_In; eauto.
    + unfold Coherent. auto.
  - cbn [fst]. unfold Coherent. cbn [page uniqueKeywords keywordChips errorMessages].
    rewrite toggleChip_keywords. split_conj; auto;
      destruct Hp as (H1 & H2 & H3 & H4 & H5); unfold PageCoherent;
      destruct (page d); cbn in *; split_conj; auto; apply H4.
  - apply Hframe; [cbn; auto|];
      destruct Hp as (H1 & H2 & H3 & H4 & H5); unfold PageCoherent;
      destruct (page d); cbn in *; split_conj; auto; apply H4.
  - apply Hframe; [cbn; auto|];
      destruct Hp as (H1 & H2 & H3 & H4 & H5); unfold PageCoherent;
      destruct (page d); cbn in *; split_conj; auto; apply H4.
  - apply Hframe; [cbn; auto|];
      destruct Hp as (H1 & H2 & H3 & H4 & H5); unfold PageCoherent;
      destruct (page d); cbn in *; split_conj; auto; apply H4.
Qed.

Lemma run_coherent (events : list Event) (d : Document) :
  Coherent d ->
  Coherent (run events d)
  /\ allThreads (page (run events d)) = allThreads (page d)
  /\ loadingHidden (page (run events d)) = loadingHidden (page d)
  /\ errorMessages (run events d) = errorMessages d.
Proof.
  revert d. induction events as [|e events IH]; intros d H; [cbn; auto|].
  cbn [run fold_left]. destruct (dispatch_coherent e H) as (H1 & H2 & H3 & H4).
  destruct (IH _ H1) as (G1 & G2 & G3 & G4). fold (run events (fst (dispatch e d))).
  split_conj; congruence || assumption.
Qed.

(** *** Loading *)

Lemma loadThreadData_begin_coherent (d : Document) :
  Initial d ->
  Coherent (loadThreadData_begin d)
  /\ allThreads (page (loadThreadData_begin d)) = []
  /\ threadsHidden (page (loadThreadData_begin d)) = true.
Proof.
  intros (Ha & Hc & Hf & Hs & Hcards & Hu & Hk).
  unfold Coherent, PageCoherent, loadThreadData_begin, showLoading. cbn.
  rewrite Ha, Hc, Hf, Hs, Hcards, Hu, Hk. cbn.
  split_conj; auto; try discriminate.
  - intros x [].
  - now exists (fun _ => true).
  - split; intros; congruence.
Qed.

Lemma filter_none {A} (l : list A) : filter (fun _ => false) l = [].
Proof. induction l; auto. Qed.

Lemma renderThreads_selectedChips (l : list Thread) (st : State) :
  selectedChips (renderThreads l st) = selectedChips st.
Proof.
  unfold renderThreads, showThreadsView, showNoResults, hideNoResults.
  destruct l; cbn; [reflexivity|].
  destruct (allThreads st) eqn:E; reflexivity.
Qed.

Lemma loadThreadData_resume_coherent (now : Z) (r : fetchResult) (d : Document) :
  Coherent d -> allThreads (page d) = [] ->
  Coherent (loadThreadData_resume now r d)
  /\ allThreads (page (loadThreadData_resume now r d)) = loaded r
  /\ loadingHidden (page (loadThreadData_resume now r d)) = true.
Proof.
  intros (Hu & Hc & Hs & Hp) Hall.
  assert (Hfail : forall d',
     page d' = page d -> uniqueKeywords d' = uniqueKeywords d ->
     keywordChips d' = keywordChips d ->
     Coherent (set_page (hideLoading (page d')) d')
     /\ allThreads (page (set_page (hideLoading (page d')) d')) = []
     /\ loadingHidden (page (set_page (hideLoading (page d')) d')) = true).
  { intros d' E1 E2 E3. unfold Coherent, hideLoading. cbn. rewrite E1, E2, E3.
    split_conj; auto;
      destruct Hp as (H1 & H2 & H3 & H4 & H5); unfold PageCoherent;
      destruct (page d); cbn in *; split_conj; auto; apply H4. }
  destruct r as [| status | | data]; try (now apply Hfail).
  unfold loadThreadData_resume, loaded.
  set (d3 := initializeFilters now _).
  assert (Hcur : currentThread (page d) = None).
  { destruct Hp as (_ & _ & H3 & _). destruct (currentThread (page d)) as [t|]; auto.
    specialize (H3 t eq_refl). rewrite Hall in H3. contradiction. }
  assert (Hkw : keywords (activeFilters (page d)) = []).
  { destruct Hp as (H1 & _). rewrite Hu, Hall in H1. cbn in H1.
    destruct (keywords (activeFilters (page d))) as [|k ks]; auto.
    destruct (H1 k (or_introl eq_refl)). }
  assert (Hpre : PageCoherent (extractUniqueKeywords data) (page d3)).
  { destruct Hp as (H1 & [keep H2] & H3 & H4 & H5). unfold PageCoherent.
    subst d3. unfold initializeFilters. cbn.
    destruct (page d); cbn in *. subst. split_conj.
    - rewrite Hkw. intros x [].
    - exists (fun _ => false). cbn. now rewrite filter_none.
    - discriminate.
    - apply H4.
    - exact H5. }
  assert (Hdata : allThreads (page d3) = data) by reflexivity.
  assert (Hrender : PageCoherent (extractUniqueKeywords data)
                      (renderThreads (allThreads (page d3)) (page d3))).
  { apply renderThreads_coherent; [|exact Hpre].
    exists (fun _ => true). symmetry. apply filter_all. reflexivity. }
  destruct (renderThreads_frame (allThreads (page d3)) (page d3)) as (Ra & _ & _ & _).
  cbn zeta in Ra.
  assert (Rsel : selectedChips (renderThreads (allThreads (page d3)) (page d3)) = []).
  { rewrite renderThreads_selectedChips. reflexivity. }
  unfold Coherent, hideLoading. cbn [page uniqueKeywords keywordChips set_page].
  assert (Huk : uniqueKeywords d3 = extractUniqueKeywords data) by reflexivity.
  assert (Hchips : keywordChips d3
                   = map (fun keyword => (keyword, false)) (extractUniqueKeywords data))
    by reflexivity.
  rewrite Huk, Hchips.
  split_conj.
  - cbn [allThreads set_loadingHidden]. rewrite Ra. reflexivity.
  - rewrite map_map. cbn [fst]. apply map_id.
  - cbn [selectedChips set_loadingHidden]. rewrite Rsel.
    clear. induction (extractUniqueKeywords data); auto.
  - destruct Hrender as (H1 & H2 & H3 & H4 & H5). unfold PageCoherent.
    destruct (renderThreads _ _); cbn in *. split_conj; auto; apply H4.
  - cbn [allThreads set_loadingHidden]. rewrite Ra. reflexivity.
  - reflexivity.
Qed.

Lemma reachable_coherent (d0 : Document) (before after : list Event) (now : Z)
    (r : fetchResult) :
  Initial d0 ->
  let d := run after (loadThreadData_resume now r
                        (run before (loadThreadData_begin d0))) in
  Coherent d /\ allThreads (page d) = loaded r /\ loadingHidden (page d) = true.
Proof.
  intros Hi d. subst d.
  destruct (loadThreadData_begin_coherent Hi) as (H1 & H2 & _).
  destruct (run_coherent before H1) as (G1 & G2 & _).
  rewrite H2 in G2.
  destruct (loadThreadData_resume_coherent now r G1 G2) as (K1 & K2 & K3).
  destruct (run_coherent after K1) as (L1 & L2 & L3 & _).
  split; [exact L1|]. split; congruence.
Qed.

(** X13.  From the moment the page is set up, whatever the user does before and
    after the data arrives: the collection is the one that was loaded (empty
    if loading failed) and never changes; the cards shown are threads of the
    collection in collection order; the thread open in the detail view
    belongs to the collection, and the detail section is visible exactly
    while a thread is open; the list is never visible together with the
    detail section or with the no-results notice; there is one chip per
    distinct non-empty keyword of the collection, and every keyword in the
    active filter is one of them. *)
Theorem document_stays_coherent (d0 : Document) (before after : list Event)
    (now : Z) (r : fetchResult) :
  Initial d0 ->
  let d := run after (loadThreadData_resume now r
                        (run before (loadThreadData_begin d0))) in
  let st := page d in
  allThreads st = loaded r
  /\ loadingHidden st = true
  /\ (exists keep : Thread -> bool, threadsCards st = filter keep (loaded r))
  /\ (forall t, currentThread st = Some t -> In t (loaded r))
  /\ (threadDetailHidden st = false <-> currentThread st <> None)
  /\ (threadsHidden st = false ->
      noResultsHidden st = true /\ threadDetailHidden st = true)
  /\ map fst (keywordChips d) = extractUniqueKeywords (loaded r)
  /\ selectedChips st = selectedKeywords (keywordChips d)
  /\ incl (keywords (activeFilters st)) (extractUniqueKeywords (loaded r)).
Proof.
  intros Hi d st. subst st d.
  destruct (@reachable_coherent d0 before after now r Hi)
    as ((Hu & Hc & Hs & H1 & H2 & H3 & H4 & H5) & Ha & Hl).
  rewrite Hu, Ha in Hc, H1. rewrite Ha in H2, H3.
  split_conj; auto; apply H4.
Qed.

(* ===================================================================== *)
(** ** What the page shows after a search and after loading *)
(* ===================================================================== *)

Lemma renderThreads_shown (l : list Thread) (st : State) :
  l <> [] -> allThreads st <> [] ->
  let st' := renderThreads l st in
  threadsHidden st' = false /\ noResultsHidden st' = true
  /\ threadDetailHidden st' = true /\ currentThread st' = None.
Proof.
  intros Hl Ha. unfold renderThreads, showThreadsView, showNoResults, hideNoResults.
  destruct l as [|t l]; [contradiction|]. cbn.
  destruct (allThreads st) eqn:E; [contradiction|]. cbn. auto.
Qed.

Lemma renderThreads_nothing (st : State) :
  let st' := renderThreads [] st in
  threadsHidden st' = true /\ noResultsHidden st' = false
  /\ threadDetailHidden st' = threadDetailHidden st
  /\ currentThread st' = currentThread st
  /\ threadContent st' = threadContent st.
Proof. cbn. auto. Qed.

(** X14.  How a search that raised nothing changes the view.  When at least one
    thread matches, the list is shown, the notice and the detail section are
    hidden and no thread is current.  When none matches, the notice replaces
    the list, but the detail section is left as it was: a thread that was
    open stays on the screen, and stays the current thread, beside the
    notice. *)
Theorem search_without_match_keeps_the_open_thread (st : State) (res : list Thread) :
  filterThreads (toLowerCase (trim (searchInput st))) st = Ok res ->
  let st' := fst (performSearch st) in
  threadsCards st' = res
  /\ (res <> [] ->
      threadsHidden st' = false /\ noResultsHidden st' = true
      /\ threadDetailHidden st' = true /\ currentThread st' = None)
  /\ (res = [] ->
      threadsHidden st' = true /\ noResultsHidden st' = false
      /\ threadDetailHidden st' = threadDetailHidden st
      /\ currentThread st' = currentThread st
      /\ threadContent st' = threadContent st).
Proof.
  intros H st'. subst st'.
  destruct (performSearch_ok st H) as (_ & _ & _ & _ & Hc).
  split; [exact Hc|]. unfold performSearch. rewrite H. split.
  - intros Hne. destruct res as [|t res]; [contradiction|].
    cbn [List.length Nat.eqb fst]. apply renderThreads_shown; [discriminate|].
    intros Ha. unfold filterThreads in H. rewrite Ha in H. discriminate.
  - intros ->. cbn. auto.
Qed.

(** *** Loading *)

Lemma loaded_page_shape (data : list Thread) (a b : option calendarDate) (st : State) :
  let st' := hideLoading
               (renderThreads data
                  (set_dateInputs a b (set_selectedChips [] (set_allThreads data st)))) in
  allThreads st' = data /\ threadsCards st' = data /\ loadingHidden st' = true
  /\ selectedChips st' = []
  /\ startDateInput st' = a /\ endDateInput st' = b
  /\ activeFilters st' = activeFilters st /\ searchInput st' = searchInput st
  /\ (data <> [] ->
      threadsHidden st' = false /\ noResultsHidden st' = true
      /\ threadDetailHidden st' = true /\ currentThread st' = None)
  /\ (data = [] ->
      threadsHidden st' = true /\ noResultsHidden st' = false
      /\ threadDetailHidden st' = threadDetailHidden st).
Proof.
  unfold hideLoading, renderThreads, showThreadsView, showNoResults, hideNoResults.
  destruct data as [|t data]; cbn; split_conj; auto; try discriminate;
    intros; split_conj; auto; congruence.
Qed.

(** X15.  When the data arrives, whatever the page was showing and whatever the
    search box and the active filters hold by then: the collection is the
    array received, every thread of it is shown in its order (or the notice,
    when the array is empty), the loading indicator is hidden, and the filter
    panel gets one chip per distinct non-empty keyword, none selected.  The
    active filters and the search box are neither applied nor changed. *)
Theorem arriving_data_is_shown_in_full (now : Z) (data : list Thread) (d : Document) :
  let d' := loadThreadData_resume now (Body data) d in
  allThreads (page d') = data
  /\ threadsCards (page d') = data
  /\ loadingHidden (page d') = true
  /\ keywordChips d' = map (fun k => (k, false)) (extractUniqueKeywords data)
  /\ selectedChips (page d') = []
  /\ activeFilters (page d') = activeFilters (page d)
  /\ searchInput (page d') = searchInput (page d)
  /\ (data <> [] ->
      threadsHidden (page d') = false /\ noResultsHidden (page d') = true
      /\ threadDetailHidden (page d') = true /\ currentThread (page d') = None)
  /\ (data = [] ->
      threadsHidden (page d') = true /\ noResultsHidden (page d') = false).
Proof.
  intros d'.
  pose proof (loaded_page_shape data
                (setValueAsDate (setMonth (getMonth now - 1) (Finite now)))
                (setValueAsDate (Finite now)) (page d))
    as (H1 & H2 & H3 & H4 & _ & _ & H7 & H8 & H9 & H10).
  split_conj; try assumption; try reflexivity.
  intros Hd. destruct (H10 Hd) as (G1 & G2 & _). split; assumption.
Qed.

(** X16.  The date inputs after loading.  With the clock at [now] (in 1970 or
    later), the end input holds the UTC day of [now] and the start input a
    day 28 to 31 days before it, both in years a date input can hold; the
    active filters are left as they are, so
    the range shown in the panel is not in force until Apply is pressed. *)
Theorem loading_presets_the_date_inputs (now : Z) (data : list Thread) (d : Document) :
  0 <= now <= 8640000000000000 - 32 * msPerDay ->
  let d' := loadThreadData_resume now (Body data) d in
  exists (k : Z) (cs ce : calendarDate),
    28 <= k <= 31
    /\ startDateInput (page d') = Some cs /\ endDateInput (page d') = Some ce
    /\ dayNumber ce = Day now /\ dayNumber cs = Day now - k
    /\ 1969 <= cyear cs /\ 1970 <= cyear ce
    /\ activeFilters (page d') = activeFilters (page d).
Proof.
  intros Hnow d'.
  assert (Hn : Z.abs now <= 8640000000000000 - 32 * msPerDay) by lia.
  destruct (setMonth_previous now Hn) as (k & Hk & Hset).
  pose proof (loaded_page_shape data
                (setValueAsDate (setMonth (getMonth now - 1) (Finite now)))
                (setValueAsDate (Finite now)) (page d))
    as (_ & _ & _ & _ & H5 & H6 & H7 & _).
  change (startDateInput (page d')
          = setValueAsDate (setMonth (getMonth now - 1) (Finite now))) in H5.
  change (endDateInput (page d') = setValueAsDate (Finite now)) in H6.
  change (activeFilters (page d') = activeFilters (page d)) in H7.
  rewrite Hset in H5. unfold setValueAsDate in H5, H6.
  eexists k, _, _. split; [exact Hk|]. split; [exact H5|]. split; [exact H6|].
  unfold dayNumber. cbn [cyear cmonth cday].
  unfold YearFromTime, MonthFromTime, DateFromTime.
  replace (MonthFromDay (Day now) + 1 - 1) with (MonthFromDay (Day now)) by lia.
  replace (MonthFromDay (Day (now - k * msPerDay)) + 1 - 1)
    with (MonthFromDay (Day (now - k * msPerDay))) by lia.
  rewrite (proj1 (MakeDay_decompose (Day now))).
  rewrite (proj1 (MakeDay_decompose (Day (now - k * msPerDay)))).
  assert (Hday : Day (now - k * msPerDay) = Day now - k).
  { unfold Day. replace (now - k * msPerDay) with (now + (- k) * msPerDay) by lia.
    rewrite Z.div_add by (unfold msPerDay; lia). lia. }
  split; [reflexivity|]. split; [exact Hday|].
  rewrite Hday.
  assert (Hd0 : 0 <= Day now) by (apply Z.div_pos; unfold msPerDay; lia).
  pose proof (proj2 (YearFromDay_spec (Day now))) as Y1.
  pose proof (proj2 (YearFromDay_spec (Day now - k))) as Y2.
  unfold DayFromYear in Y1, Y2.
  split_conj; [| |exact H7]; Z.div_mod_to_equations; lia.
Qed.

(* ===================================================================== *)
(** ** Pages without threads, well-formed data, and chips *)
(* ===================================================================== *)

(** *** After a failed load *)

Lemma dispatch_without_threads (e : Event) (d : Document) :
  allThreads (page d) = [] -> threadsCards (page d) = [] ->
  threadsHidden (page d) = true -> threadDetailHidden (page d) = true ->
  keywordChips d = [] ->
  let d' := fst (dispatch e d) in
  allThreads (page d') = [] /\ threadsCards (page d') = []
  /\ threadsHidden (page d') = true /\ threadDetailHidden (page d') = true
  /\ keywordChips d' = []
  /\ errorMessages d' = errorMessages d
  /\ loadingHidden (page d') = loadingHidden (page d).
Proof.
  destruct d as [st uk chips errs]. destruct st. cbn [page keywordChips errorMessages
    allThreads threadsCards threadsHidden threadDetailHidden loadingHidden].
  intros -> -> -> -> ->.
  destruct e; cbn [dispatch]; try (cbn; split_conj; reflexivity).
  - destruct (jsstring_eqb key Enter); cbn; split_conj; reflexivity.
  - unfold onKeydown. destruct (jsstring_eqb key Escape); [|cbn; split_conj; reflexivity].
    cbn [filterPanelHidden threadsHidden page negb].
    destruct filterPanelHidden0; cbn; split_conj; reflexivity.
  - destruct card; cbn; split_conj; reflexivity.
  - destruct chip; cbn; split_conj; reflexivity.
Qed.

Lemma run_without_threads (events : list Event) (d : Document) :
  allThreads (page d) = [] -> threadsCards (page d) = [] ->
  threadsHidden (page d) = true -> threadDetailHidden (page d) = true ->
  keywordChips d = [] ->
  let d' := run events d in
  allThreads (page d') = [] /\ threadsCards (page d') = []
  /\ threadsHidden (page d') = true /\ threadDetailHidden (page d') = true
  /\ keywordChips d' = []
  /\ errorMessages d' = errorMessages d
  /\ loadingHidden (page d') = loadingHidden (page d).
Proof.
  revert d. induction events as [|e events IH]; intros d H1 H2 H3 H4 H5;
    [cbn; split_conj; auto|].
  cbn [run fold_left]. fold (run events (fst (dispatch e d))).
  destruct (dispatch_without_threads e d H1 H2 H3 H4 H5) as (G1 & G2 & G3 & G4 & G5 & G6 & G7).
  destruct (IH _ G1 G2 G3 G4 G5) as (K1 & K2 & K3 & K4 & K5 & K6 & K7).
  cbv zeta. split_conj; congruence.
Qed.

(** X17.  When the fetch fails in any of its ways, from then on and whatever the
    user does: the error message stays at the top of the page, alone; the
    collection is empty, there are no cards and no chips; and neither the
    list nor the detail section is ever shown. *)
Theorem failed_load_leaves_a_page_without_threads
    (d0 : Document) (before after : list Event) (now : Z) (r : fetchResult) :
  Initial d0 ->
  (forall data, r <> Body data) ->
  let d := run after (loadThreadData_resume now r
                        (run before (loadThreadData_begin d0))) in
  errorMessages d = [loadErrorText]
  /\ allThreads (page d) = [] /\ threadsCards (page d) = [] /\ keywordChips d = []
  /\ threadsHidden (page d) = true /\ threadDetailHidden (page d) = true
  /\ loadingHidden (page d) = true.
Proof.
  intros (Ha & _ & _ & _ & Hcards & _ & Hk) Hr d. subst d.
  assert (B : let b := loadThreadData_begin d0 in
              allThreads (page b) = [] /\ threadsCards (page b) = []
              /\ threadsHidden (page b) = true /\ threadDetailHidden (page b) = true
              /\ keywordChips b = []).
  { unfold loadThreadData_begin, showLoading. cbn. auto. }
  destruct B as (B1 & B2 & B3 & B4 & B5).
  destruct (run_without_threads before _ B1 B2 B3 B4 B5)
    as (C1 & C2 & C3 & C4 & C5 & _ & _).
  set (m := run before (loadThreadData_begin d0)) in *. clearbody m.
  assert (F : loadThreadData_resume now r m
              = set_page (hideLoading (page (showError loadErrorText m)))
                         (showError loadErrorText m)).
  { destruct r as [| status | | data]; try reflexivity. now destruct (Hr data). }
  rewrite F.
  set (f := set_page _ _).
  assert (D : allThreads (page f) = [] /\ threadsCards (page f) = []
              /\ threadsHidden (page f) = true /\ threadDetailHidden (page f) = true
              /\ keywordChips f = [] /\ errorMessages f = [loadErrorText]
              /\ loadingHidden (page f) = true).
  { subst f. unfold hideLoading, showError.
    cbn [page set_page keywordChips errorMessages set_loadingHidden allThreads
         threadsCards threadsHidden threadDetailHidden loadingHidden].
    split_conj; auto. }
  destruct D as (D1 & D2 & D3 & D4 & D5 & D6 & D7).
  destruct (run_without_threads after _ D1 D2 D3 D4 D5)
    as (E1 & E2 & E3 & E4 & E5 & E6 & E7).
  cbv zeta in *. split_conj; congruence.
Qed.

(** *** Well-formed data *)

Lemma performSearch_conforming (st : State) :
  (forall t, In t (allThreads st) -> ThreadConforms t) ->
  snd (performSearch st) = None.
Proof.
  intros H.
  assert (E : exists res,
             filterThreads (toLowerCase (trim (searchInput st))) st = Ok res).
  { eexists. unfold filterThreads. apply filterArray_ok.
    intros t Ht. apply threadPasses_conforms. auto. }
  destruct E as [res E]. exact (proj1 (performSearch_ok st E)).
Qed.

Lemma applyFilters_conforming (st : State) :
  (forall t, In t (allThreads st) -> ThreadConforms t) ->
  snd (applyFilters st) = None.
Proof.
  intros H. unfold applyFilters. set (st1 := set_activeFilters _ st).
  assert (H1 : snd (performSearch st1) = None) by (apply performSearch_conforming; exact H).
  destruct (performSearch st1) as [st2 [e|]]; cbn in *; congruence.
Qed.

Lemma dispatch_conforming (e : Event) (d : Document) :
  (forall t, In t (allThreads (page d)) -> ThreadConforms t) ->
  snd (dispatch e d) = None.
Proof.
  intros H. destruct e; cbn [dispatch]; try reflexivity.
  - pose proof (performSearch_conforming _ H) as E.
    destruct (performSearch (page d)); exact E.
  - destruct (jsstring_eqb key Enter); [|reflexivity].
    pose proof (performSearch_conforming _ H) as E.
    destruct (performSearch (page d)); exact E.
  - pose proof (applyFilters_conforming _ H) as E.
    destruct (applyFilters (page d)); exact E.
  - destruct (nth_error (threadsCards (page d)) card); reflexivity.
Qed.

(** X18.  When every thread of the data has its title, keyword and user name, and
    every reply its text, no listener ever ends with an exception: not
    while the data is still on its way, and not afterwards, whatever the user
    has done in between. *)
Theorem no_listener_raises_on_well_formed_data
    (d0 : Document) (before after : list Event) (now : Z) (r : fetchResult)
    (e : Event) :
  Initial d0 ->
  (forall t, In t (loaded r) -> ThreadConforms t) ->
  snd (dispatch e (run before (loadThreadData_begin d0))) = None
  /\ snd (dispatch e (run after (loadThreadData_resume now r
                                   (run before (loadThreadData_begin d0))))) = None.
Proof.
  intros Hi Hc. split; apply dispatch_conforming.
  - destruct (loadThreadData_begin_coherent Hi) as (H1 & H2 & _).
    destruct (run_coherent before H1) as (_ & G2 & _).
    rewrite G2, H2. intros t [].
  - destruct (@reachable_coherent d0 before after now r Hi) as (_ & Ha & _).
    rewrite Ha. exact Hc.
Qed.

(** *** Chips *)

Lemma toggleFilterPanel_view (st : State) :
  threadsCards (toggleFilterPanel st) = threadsCards st
  /\ threadsHidden (toggleFilterPanel st) = threadsHidden st
  /\ noResultsHidden (toggleFilterPanel st) = noResultsHidden st.
Proof. cbn. auto. Qed.

(** X19.  A selected chip always finds its threads.  At any moment after loading,
    with a blank search box, at least one chip selected and one of the date
    inputs empty, Apply raises nothing and shows a list that is not empty:
    the threads of the collection whose keyword is one of those selected. *)
Theorem selected_chips_always_find_threads
    (d0 : Document) (before after : list Event) (now : Z) (r : fetchResult) :
  Initial d0 ->
  let d := run after (loadThreadData_resume now r
                        (run before (loadThreadData_begin d0))) in
  forallb isWhiteSpace (searchInput (page d)) = true ->
  selectedChips (page d) <> [] ->
  startDateInput (page d) = None \/ endDateInput (page d) = None ->
  let st' := fst (applyFilters (page d)) in
  snd (applyFilters (page d)) = None
  /\ threadsCards st' <> []
  /\ threadsHidden st' = false /\ noResultsHidden st' = true
  /\ forall t, In t (threadsCards st') <->
       In t (loaded r)
       /\ exists k, keyword t = Some k /\ In k (selectedChips (page d)).
Proof.
  intros Hi d Hblank Hsel Hdates st'. subst st' d.
  destruct (@reachable_coherent d0 before after now r Hi)
    as ((Hu & Hc & Hs & _) & Ha & _).
  set (d := run after _) in *. set (st := page d) in *.
  unfold applyFilters.
  set (f := {| keywords := selectedChips st;
               startDate := valueAsDate (startDateInput st);
               endDate := option_map (setHours 23 59 59 999)
                            (valueAsDate (endDateInput st)) |}).
  set (st1 := set_activeFilters f st).
  assert (Hd : forall t, dateRangePasses f t = true).
  { intros t. unfold dateRangePasses, f. cbn [startDate endDate].
    destruct Hdates as [-> | ->]; cbn [valueAsDate option_map]; [reflexivity|].
    destruct (valueAsDate (startDateInput st)); reflexivity. }
  assert (E : filterThreads (toLowerCase (trim (searchInput st1))) st1
              = Ok (filter (fun t => keywordPasses f t) (loaded r))).
  { change (searchInput st1) with (searchInput st).
    rewrite (trim_blank _ Hblank), toLowerCase_nil, filterThreads_no_term.
    change (activeFilters st1) with f. change (allThreads st1) with (allThreads st).
    rewrite Ha. f_equal. apply filter_ext. intros t. rewrite Hd. apply andb_true_r. }
  assert (Hin : forall t, In t (filter (fun t => keywordPasses f t) (loaded r)) <->
                  In t (loaded r)
                  /\ exists k, keyword t = Some k /\ In k (selectedChips st)).
  { intros t. rewrite filter_In, keywordPasses_spec. change (keywords f) with (selectedChips st).
    split; [intros [H1 [H2 | H2]]; [contradiction | auto] | intros [H1 H2]; auto]. }
  assert (Hne : filter (fun t => keywordPasses f t) (loaded r) <> []).
  { destruct (selectedChips st) as [|k ks] eqn:Ek; [contradiction|].
    assert (Hk : In k (extractUniqueKeywords (loaded r))).
    { rewrite <- Ha, <- Hu, <- Hc. apply selectedKeywords_incl. rewrite <- Hs.
      now left. }
    unfold extractUniqueKeywords in Hk.
    apply (proj2 (uniqueKeywords_fold (loaded r) [])) in Hk.
    destruct Hk as [[] | (_ & t & Ht & Hkt)].
    intros Hnil.
    assert (In t (filter (fun t => keywordPasses f t) (loaded r))).
    { apply Hin. split; [exact Ht|]. exists k. split; [exact Hkt | now left]. }
    rewrite Hnil in H. destruct H. }
  destruct (performSearch_ok st1 E) as (H1 & _ & _ & _ & H5).
  assert (Hview : threadsHidden (fst (performSearch st1)) = false
                  /\ noResultsHidden (fst (performSearch st1)) = true).
  { unfold performSearch. rewrite E.
    destruct (filter (fun t => keywordPasses f t) (loaded r)) as [|t l] eqn:El;
      [contradiction|].
    cbn [List.length Nat.eqb fst].
    destruct (@renderThreads_shown (t :: l) st1) as (V1 & V2 & _).
    - discriminate.
    - change (allThreads st1) with (allThreads st). rewrite Ha. intros Hnil.
      rewrite Hnil in El. discriminate.
    - split; assumption. }
  destruct (performSearch st1) as [st2 [x|]]; cbn [fst snd] in *; [discriminate|].
  destruct (toggleFilterPanel_view st2) as (T1 & T2 & T3).
  rewrite T1, T2, T3, H5. destruct Hview. split_conj; auto.
Qed.

End Script.

(* ===================================================================== *)
(** ** The properties on sample pages *)
(* ===================================================================== *)

Example str_decodes_utf8 : str "年月日 :" = [nian; yue; ri; 32%N; colon].
Proof. reflexivity. Qed.

Example trim_strips_both_ends : trim (str "  ab c  ") = str "ab c".
Proof. reflexivity. Qed.

Example includes_is_case_sensitive :
  includes (str "thread a") (str "read") = true
  /\ includes (str "thread a") (str "Read") = false
  /\ includes (asciiLower (str "Thread A")) (asciiLower (str "READ")) = true.
Proof. repeat split; reflexivity. Qed.

(** The pattern is not anchored: the match starts at the first position
    where it succeeds and stops after at most two digits of seconds. *)
Example dateParts_inside_longer_text :
  dateParts (str "x12024年05月7日   21:24:395")
  = Some [str "2024年05月7日   21:24:39"; str "2024"; str "05"; str "7";
          str "21"; str "24"; str "39"].
Proof. vm_compute. reflexivity. Qed.

Example dateParts_needs_four_digit_year : dateParts (str "24年5月7日 21:24:39") = None.
Proof. vm_compute. reflexivity. Qed.

Example newDate_epoch :
  newDate 0 (Some 1970) (Some 0) (Some 1) (Some 0) (Some 0) (Some 0) = Finite 0
  /\ newDate 0 (Some 2000) (Some 2) (Some 1) (Some 0) (Some 0) (Some 0)
     = Finite 951868800000
  /\ newDate (hours 8) (Some 2024) (Some 4) (Some 7) (Some 21) (Some 24) (Some 39)
     = Finite 1715088279000.
Proof. repeat split; vm_compute; reflexivity. Qed.

(** A reply in the range is kept, one outside is dropped, and a thread
    whose replies all fail to parse is dropped as well. *)
Example date_range_on_threads_with_replies :
  let f := {| keywords := [];
              startDate := Some (Finite 1714521600000);
              endDate := Some (Finite 1717171199999) |} in
  let unparsable :=
    {| thread_number := None; post_title := None; keyword := None;
       username := None;
       replies := Some [ {| user := None; user_id := None;
                            time := Some (str "garbage"); reply := None |} ] |} in
  threadPasses asciiLower (hours 8) [] f threadA = Ok true
  /\ threadPasses asciiLower (hours 8) [] f threadEarly = Ok false
  /\ threadPasses asciiLower (hours 8) [] f unparsable = Ok false.
Proof. repeat split; vm_compute; reflexivity. Qed.

Lemma asciiLower_nil : asciiLower [] = [].
Proof. reflexivity. Qed.

Lemma asciiLower_nonempty (s : jsstring) : s <> [] -> asciiLower s <> [].
Proof. destruct s; [congruence | discriminate]. Qed.

Lemma samples_conform (t : Thread) :
  In t [threadA; threadB] -> ThreadConforms t.
Proof.
  intros [<- | [<- | []]]; repeat split; try discriminate.
  - intros rs r [= <-] [<- | []]. discriminate.
  - intros rs r [= <-] [].
Qed.

Lemma filter_empty_state_is_identity_witness :
  activeFilters (loadedPage [threadA; threadB]) = noFilters
  /\ filterThreads asciiLower (hours 8) [] (loadedPage [threadA; threadB])
     = Ok [threadA; threadB].
Proof.
  split; [reflexivity|].
  apply (proj1 (@filter_empty_state_is_identity asciiLower (hours 8)
                  (loadedPage [threadA; threadB]) eq_refl)).
Defined.

Lemma earlier_search_equals_filterThreads_witness :
  let st := set_searchInput (str " Reply ") (loadedPage [threadA; threadB]) in
  keywords (activeFilters st) = []
  /\ startDate (activeFilters st) = None
  /\ performSearch_v1 asciiLower st = performSearch asciiLower (hours 8) st.
Proof.
  intros st. split; [reflexivity|]. split; [reflexivity|].
  apply (@earlier_search_equals_filterThreads asciiLower (hours 8) st eq_refl
           (or_introl eq_refl)).
Defined.

Lemma keyword_filter_membership_witness :
  let st := set_activeFilters newsOnly (loadedPage [threadA; threadB]) in
  keywords (activeFilters st) <> []
  /\ filterThreads asciiLower (hours 8) [] st
     = Ok (filter (fun t => arrayIncludes (keywords (activeFilters st)) (keyword t))
                  (allThreads st)).
Proof.
  intros st.
  assert (H : keywords (activeFilters st) <> []) by discriminate.
  split; [exact H|].
  apply (proj2 (proj2 (@keyword_filter_membership asciiLower (hours 8) st H))).
  left. reflexivity.
Defined.

Lemma search_raises_nothing_when_fields_present_witness :
  (forall t, In t (allThreads (loadedPage [threadA; threadB])) -> ThreadConforms t)
  /\ exists res,
       filterThreads asciiLower (hours 8) (str "reply") (loadedPage [threadA; threadB])
       = Ok res.
Proof.
  split; [exact samples_conform|].
  apply (@search_raises_nothing_when_fields_present asciiLower (hours 8)
           (loadedPage [threadA; threadB]) (str "reply")).
  left. exact samples_conform.
Defined.

Lemma search_term_selects_matching_threads_witness :
  let st := loadedPage [threadA; threadB] in
  str "BOB" <> []
  /\ (forall t, In t (allThreads st) -> ThreadConforms t)
  /\ keywords (activeFilters st) = []
  /\ startDate (activeFilters st) = None
  /\ exists keep : Thread -> bool,
       (forall t, keep t = true <-> SearchTermOccurs asciiLower (str "BOB") t)
       /\ filterThreads asciiLower (hours 8) (asciiLower (str "BOB")) st
          = Ok (filter keep (allThreads st)).
Proof.
  intros st.
  assert (HT : str "BOB" <> []) by discriminate.
  split; [exact HT|]. split; [exact samples_conform|].
  split; [reflexivity|]. split; [reflexivity|].
  destruct (@search_term_selects_matching_threads asciiLower (hours 8)
              asciiLower_nil asciiLower_nonempty st (str "BOB") HT
              samples_conform eq_refl
              (or_introl eq_refl)) as [keep [H1 [H2 _]]].
  exists keep. split; assumption.
Defined.

Lemma escape_in_detail_changes_nothing_witness :
  let st := loadedPage [threadA; threadB] in
  loadingHidden st = true
  /\ filterPanelHidden st = true
  /\ viewState (onKeydown Escape (showThreadDetail threadA st))
     = Some (Detail (Some threadA)).
Proof.
  intros st. split; [reflexivity|]. split; [reflexivity|].
  apply (proj2 (proj2 (@escape_in_detail_changes_nothing st threadA eq_refl eq_refl))).
Defined.

Lemma detail_round_trip_preserves_filtered_list_witness :
  let st := loadedPage [threadA; threadB] in
  viewState st = Some List
  /\ In threadA (allThreads st)
  /\ viewState (showThreadsView (showThreadDetail threadA st)) = Some List
  /\ threadsCards (showThreadsView (showThreadDetail threadA st)) = threadsCards st.
Proof.
  intros st.
  assert (Hv : viewState st = Some List) by reflexivity.
  assert (Hin : In threadA (allThreads st)) by (left; reflexivity).
  split; [exact Hv|]. split; [exact Hin|].
  destruct (@detail_round_trip_preserves_filtered_list asciiLower (hours 8) st
              threadA Hv Hin) as [_ [_ [H3 [_ [_ [_ [_ [H8 _]]]]]]]].
  split; assumption.
Defined.


Lemma date_range_tests_only_threads_with_replies_witness :
  let st := fst (applyFilters asciiLower (hours 8)
                   (may2024 (loadedPage [threadA; threadB]))) in
  startDate (activeFilters st) = Some (Finite 1714521600000)
  /\ endDate (activeFilters st) = Some (Finite 1717171199999)
  /\ - hours 12 <= hours 8 <= hours 14
  /\ (forall T, threadPasses asciiLower (hours 8) T (activeFilters st) threadB
                = threadPasses asciiLower (hours 8) T
                    (withoutDates (activeFilters st)) threadB)
  /\ threadsCards st = [threadA; threadB].
Proof.
  intros st.
  assert (Hs : startDate (activeFilters st) = Some (Finite 1714521600000))
    by (vm_compute; reflexivity).
  assert (He : endDate (activeFilters st) = Some (Finite 1717171199999))
    by (vm_compute; reflexivity).
  assert (Htz : - hours 12 <= hours 8 <= hours 14) by (unfold hours; lia).
  split; [exact Hs|]. split; [exact He|]. split; [exact Htz|].
  destruct (@date_range_tests_only_threads_with_replies asciiLower (hours 8)
              asciiLower_nil st _ _ Hs He) as [H1 [_ [_ H4]]].
  split.
  - intros T. apply H1. right. reflexivity.
  - exact (proj2 (H4 Htz)).
Defined.

(** Counterexample to C1 as stated: with the range 1 May to 31 May 2024
    applied, thread B, which has no replies, is returned and shown. *)
Lemma thread_without_replies_passes_active_date_range :
  let st := fst (applyFilters asciiLower (hours 8)
                   (may2024 (loadedPage [threadA; threadB]))) in
  startDate (activeFilters st) = Some (Finite 1714521600000)
  /\ endDate (activeFilters st) = Some (Finite 1717171199999)
  /\ replies threadB = Some []
  /\ filterThreads asciiLower (hours 8) [] st = Ok [threadA; threadB]
  /\ In threadB (threadsCards st).
Proof.
  vm_compute. repeat split; try reflexivity. right. left. reflexivity.
Qed.

(** Counterexample to C2 as stated: a thread without [post_title] makes the
    search-term test raise a TypeError, and the whole filter with it; the
    search leaves the page as it was. *)
Lemma search_raises_on_thread_without_title :
  let st := set_searchInput (str "a") (loadedPage [threadA; threadUntitled]) in
  post_title threadUntitled = None
  /\ matchesSearch asciiLower (str "a") threadUntitled = Throw TypeError
  /\ filterThreads asciiLower (hours 8) (str "a") st = Throw TypeError
  /\ ~ (exists res, filterThreads asciiLower (hours 8) (str "a") st = Ok res)
  /\ performSearch asciiLower (hours 8) st = (st, Some TypeError).
Proof.
  intros st.
  assert (H : filterThreads asciiLower (hours 8) (str "a") st = Throw TypeError)
    by (vm_compute; reflexivity).
  split; [reflexivity|]. split; [reflexivity|]. split; [exact H|]. split.
  - intros [res Hres]. rewrite H in Hres. discriminate.
  - apply performSearch_throw. exact H.
Qed.

(** C8.  The end of the range is set with [setHours], which works in local
    time, on a Date that [valueAsDate] placed at midnight UTC; the start is
    left at midnight UTC.  Five hours west of UTC the end chosen as 31 May
    2024 becomes 23:59:59.999 of 30 May local time, and a reply written at
    noon on 31 May is left out.  Eight hours east of UTC the start chosen as
    1 May 2024 is 08:00 local time, and a reply written at 03:00 on 1 May is
    left out. *)
Theorem end_of_day_is_local_on_a_utc_date :
  (let west := hours (-5) in
   let st := fst (applyFilters asciiLower west (may2024 (loadedPage [threadNoon]))) in
   endDate (activeFilters st) = Some (Finite 1717131599999)
   /\ Day (LocalTime west 1717131599999) = MakeDay 2024 4 30
   /\ LocalTime west 1717131599999 mod msPerDay = MakeTime 23 59 59 999
   /\ (exists parts,
         dateParts (str "2024年5月31日 12:00:00") = Some parts
         /\ replyDate west parts = Finite 1717174800000)
   /\ threadsCards st = [])
  /\
  (let east := hours 8 in
   let st := fst (applyFilters asciiLower east (may2024 (loadedPage [threadEarly]))) in
   startDate (activeFilters st) = Some (Finite 1714521600000)
   /\ LocalTime east 1714521600000
      = MakeDate (MakeDay 2024 4 1) (MakeTime 8 0 0 0)
   /\ (exists parts,
         dateParts (str "2024年5月1日 03:00:00") = Some parts
         /\ replyDate east parts = Finite 1714503600000)
   /\ threadsCards st = []).
Proof.
  split; cbv zeta.
  - split; [vm_compute; reflexivity|]. split; [vm_compute; reflexivity|].
    split; [vm_compute; reflexivity|]. split; [|vm_compute; reflexivity].
    eexists. split; [vm_compute; reflexivity|]. vm_compute. reflexivity.
  - split; [vm_compute; reflexivity|]. split; [vm_compute; reflexivity|].
    split; [|vm_compute; reflexivity].
    eexists. split; [vm_compute; reflexivity|]. vm_compute. reflexivity.
Qed.

(* ===================================================================== *)
(** ** Further properties on sample pages *)
(* ===================================================================== *)

Lemma filterThreads_keeps_order_and_conjoins_witness :
  let st := set_activeFilters newsOnly (loadedPage [threadA; threadB; threadNoon]) in
  filterThreads asciiLower (hours 8) (str "reply") st = Ok [threadA; threadNoon]
  /\ exists keep : Thread -> bool,
       [threadA; threadNoon] = filter keep (allThreads st).
Proof.
  intros st.
  assert (H : filterThreads asciiLower (hours 8) (str "reply") st
              = Ok [threadA; threadNoon]) by (vm_compute; reflexivity).
  split; [exact H|].
  exact (proj1 (@filterThreads_keeps_order_and_conjoins asciiLower (hours 8) st
                  (str "reply") [threadA; threadNoon] H)).
Defined.

Lemma shorter_term_keeps_every_match_witness :
  let st := loadedPage [threadA; threadB; threadNoon] in
  Substring (str "rep") (str "reply")
  /\ filterThreads asciiLower (hours 8) (str "reply") st = Ok [threadA; threadNoon]
  /\ exists res1,
       filterThreads asciiLower (hours 8) (str "rep") st = Ok res1
       /\ incl [threadA; threadNoon] res1.
Proof.
  intros st.
  assert (Hs : Substring (str "rep") (str "reply"))
    by (exists [], (str "ly"); reflexivity).
  assert (H : filterThreads asciiLower (hours 8) (str "reply") st
              = Ok [threadA; threadNoon]) by (vm_compute; reflexivity).
  split; [exact Hs|]. split; [exact H|].
  exact (@shorter_term_keeps_every_match asciiLower (hours 8) st
           (str "rep") (str "reply") [threadA; threadNoon] Hs H).
Defined.

Lemma looser_filters_keep_every_match_witness :
  let st := set_activeFilters newsOnly (loadedPage [threadA; threadB]) in
  let st' := loadedPage [threadA; threadB] in
  allThreads st' = allThreads st
  /\ Loosens (activeFilters st') (activeFilters st)
  /\ filterThreads asciiLower (hours 8) [] st = Ok [threadA]
  /\ exists res',
       filterThreads asciiLower (hours 8) [] st' = Ok res' /\ incl [threadA] res'.
Proof.
  intros st st'.
  assert (Ha : allThreads st' = allThreads st) by reflexivity.
  assert (Hl : Loosens (activeFilters st') (activeFilters st))
    by (split; [left; reflexivity | exact I]).
  assert (H : filterThreads asciiLower (hours 8) [] st = Ok [threadA])
    by (vm_compute; reflexivity).
  split; [exact Ha|]. split; [exact Hl|]. split; [exact H|].
  exact (@looser_filters_keep_every_match asciiLower (hours 8) st st' []
           [threadA] Ha Hl H).
Defined.

Lemma half_filled_date_range_is_ignored_witness :
  let st := set_dateInputs (Some (CalendarDate 2024 6 1)) None
              (loadedPage [threadA; threadB]) in
  (startDateInput st = None \/ endDateInput st = None)
  /\ threadsCards (fst (applyFilters asciiLower (hours 8) st))
     = threadsCards (fst (applyFilters asciiLower (hours 8)
                            (set_dateInputs None None st))).
Proof.
  intros st.
  assert (H : startDateInput st = None \/ endDateInput st = None)
    by (right; reflexivity).
  split; [exact H|].
  exact (proj1 (proj2 (@half_filled_date_range_is_ignored asciiLower (hours 8) st H))).
Defined.

Lemma thread_with_only_unparsable_times_is_dropped_witness :
  let st := fst (applyFilters asciiLower (hours 8)
                   (may2024 (loadedPage [threadA; threadUndated]))) in
  startDate (activeFilters st) = Some (Finite 1714521600000)
  /\ endDate (activeFilters st) = Some (Finite 1717171199999)
  /\ filterThreads asciiLower (hours 8) [] st = Ok [threadA]
  /\ ~ In threadUndated [threadA].
Proof.
  intros st.
  assert (Hs : startDate (activeFilters st) = Some (Finite 1714521600000))
    by (vm_compute; reflexivity).
  assert (He : endDate (activeFilters st) = Some (Finite 1717171199999))
    by (vm_compute; reflexivity).
  assert (H : filterThreads asciiLower (hours 8) [] st = Ok [threadA])
    by (vm_compute; reflexivity).
  split; [exact Hs|]. split; [exact He|]. split; [exact H|].
  refine (@thread_with_only_unparsable_times_is_dropped asciiLower (hours 8) st
            _ _ threadUndated _ _ Hs He eq_refl _ [] [threadA] H).
  intros x [<- | []]. left. reflexivity.
Defined.

Lemma one_raising_thread_fails_the_whole_search_witness :
  let st := set_searchInput (str "News") (loadedPage [threadA; threadUntitled]) in
  In threadUntitled (allThreads st)
  /\ asciiLower (trim (searchInput st)) <> []
  /\ matchesSearch asciiLower (asciiLower (trim (searchInput st))) threadUntitled
     = Throw TypeError
  /\ performSearch asciiLower (hours 8) st = (st, Some TypeError).
Proof.
  intros st.
  assert (Hin : In threadUntitled (allThreads st)) by (right; left; reflexivity).
  assert (Hne : asciiLower (trim (searchInput st)) <> []) by (vm_compute; discriminate).
  assert (Ht : matchesSearch asciiLower (asciiLower (trim (searchInput st)))
                 threadUntitled = Throw TypeError) by (vm_compute; reflexivity).
  split; [exact Hin|]. split; [exact Hne|]. split; [exact Ht|].
  exact (proj1 (proj2 (@one_raising_thread_fails_the_whole_search asciiLower (hours 8)
                         st threadUntitled Hin Hne Ht))).
Defined.

Lemma blank_search_box_searches_nothing_witness :
  let st := set_searchInput (str "   ") (loadedPage [threadA; threadUntitled]) in
  forallb isWhiteSpace (searchInput st) = true
  /\ snd (performSearch asciiLower (hours 8) st) = None.
Proof.
  intros st.
  assert (H : forallb isWhiteSpace (searchInput st) = true) by reflexivity.
  split; [exact H|].
  exact (proj1 (@blank_search_box_searches_nothing asciiLower (hours 8)
                  asciiLower_nil st H)).
Defined.

Lemma applied_date_range_in_days_witness :
  let st := may2024 (loadedPage [threadA]) in
  let r := {| user := Some (str "bob"); user_id := Some (str "431346");
              time := Some (str "2024年5月7日 21:24:39");
              reply := Some (str "First reply") |} in
  let parts := [str "2024年5月7日 21:24:39"; str "2024"; str "5"; str "7";
                str "21"; str "24"; str "39"] in
  dateParts (str "2024年5月7日 21:24:39") = Some parts
  /\ replyDate (hours 8) parts = Finite (MakeDate 19850 77079000 - hours 8)
  /\ exists start finish,
       startDate (activeFilters (fst (applyFilters asciiLower (hours 8) st)))
       = Some start
       /\ endDate (activeFilters (fst (applyFilters asciiLower (hours 8) st)))
          = Some finish
       /\ (replyInDateRange (hours 8) start finish r = true <->
           MakeDate (dayNumber (CalendarDate 2024 5 1)) (hours 8)
           <= MakeDate 19850 77079000
           /\ 19850 <= (if 0 <=? hours 8 then dayNumber (CalendarDate 2024 5 31)
                        else dayNumber (CalendarDate 2024 5 31) - 1)).
Proof.
  intros st r parts.
  assert (Hp : dateParts (str "2024年5月7日 21:24:39") = Some parts)
    by (vm_compute; reflexivity).
  assert (Hr : replyDate (hours 8) parts = Finite (MakeDate 19850 77079000 - hours 8))
    by (vm_compute; reflexivity).
  split; [exact Hp|]. split; [exact Hr|].
  assert (Hbs : Z.abs (dayNumber (CalendarDate 2024 5 1)) <= 99999999)
    by (vm_compute; discriminate).
  assert (Hbe : Z.abs (dayNumber (CalendarDate 2024 5 31)) <= 99999999)
    by (vm_compute; discriminate).
  assert (Htz : - msPerDay < hours 8 < msPerDay) by (unfold msPerDay, hours; lia).
  assert (Htod : 0 <= 77079000 < msPerDay) by (unfold msPerDay; lia).
  destruct (@applied_date_range_in_days asciiLower (hours 8) st
              (CalendarDate 2024 5 1) (CalendarDate 2024 5 31) r
              (str "2024年5月7日 21:24:39") parts 19850 77079000
              eq_refl eq_refl Hbs Hbe Htz eq_refl Hp Hr Htod)
    as (start & finish & H1 & H2 & H3 & _).
  exists start, finish. split; [exact H1|]. split; [exact H2|]. exact H3.
Defined.

Lemma blankDocument_initial : Initial blankDocument.
Proof. unfold Initial. cbn. repeat split. Qed.

Lemma document_stays_coherent_witness :
  let d := run asciiLower (hours 8) [ViewClick 0; SearchClick]
             (loadThreadData_resume (hours 8) may7evening (Body [threadA; threadB])
                (run asciiLower (hours 8) [SearchClick]
                   (loadThreadData_begin blankDocument))) in
  Initial blankDocument
  /\ allThreads (page d) = [threadA; threadB]
  /\ map fst (keywordChips d) = extractUniqueKeywords [threadA; threadB].
Proof.
  intros d. split; [exact blankDocument_initial|].
  destruct (@document_stays_coherent asciiLower (hours 8) blankDocument
              [SearchClick] [ViewClick 0; SearchClick] may7evening
              (Body [threadA; threadB]) blankDocument_initial)
    as (H1 & _ & _ & _ & _ & _ & H7 & _).
  split; [exact H1 | exact H7].
Defined.

Lemma search_without_match_keeps_the_open_thread_witness :
  let st := set_searchInput (str "zebra")
              (showThreadDetail threadA (loadedPage [threadA; threadB])) in
  filterThreads asciiLower (hours 8) (asciiLower (trim (searchInput st))) st = Ok []
  /\ threadDetailHidden (fst (performSearch asciiLower (hours 8) st)) = false
  /\ noResultsHidden (fst (performSearch asciiLower (hours 8) st)) = false
  /\ currentThread (fst (performSearch asciiLower (hours 8) st)) = Some threadA.
Proof.
  intros st.
  assert (H : filterThreads asciiLower (hours 8) (asciiLower (trim (searchInput st))) st
              = Ok []) by (vm_compute; reflexivity).
  split; [exact H|].
  destruct (proj2 (proj2 (@search_without_match_keeps_the_open_thread asciiLower
                            (hours 8) st [] H)) eq_refl)
    as (_ & H2 & H3 & H4 & _).
  split; [exact H3|]. split; [exact H2 | exact H4].
Defined.

Lemma loading_presets_the_date_inputs_witness :
  0 <= may7evening <= 8640000000000000 - 32 * msPerDay
  /\ exists (k : Z) (cs ce : calendarDate),
       28 <= k <= 31
       /\ startDateInput (page (loadThreadData_resume (hours 8) may7evening
                                  (Body [threadA; threadB]) blankDocument)) = Some cs
       /\ endDateInput (page (loadThreadData_resume (hours 8) may7evening
                                (Body [threadA; threadB]) blankDocument)) = Some ce
       /\ dayNumber ce = Day may7evening /\ dayNumber cs = Day may7evening - k.
Proof.
  assert (H : 0 <= may7evening <= 8640000000000000 - 32 * msPerDay)
    by (unfold may7evening, msPerDay; lia).
  split; [exact H|].
  destruct (@loading_presets_the_date_inputs (hours 8) may7evening
              [threadA; threadB] blankDocument H)
    as (k & cs & ce & H1 & H2 & H3 & H4 & H5 & _).
  exists k, cs, ce. repeat split; assumption || apply H1.
Defined.

Lemma failed_load_leaves_a_page_without_threads_witness :
  let d := run asciiLower (hours 8) [SearchClick; BackClick; ResetClick]
             (loadThreadData_resume (hours 8) may7evening (ResponseNotOk 404)
                (run asciiLower (hours 8) [DocumentKeydown Escape]
                   (loadThreadData_begin blankDocument))) in
  Initial blankDocument
  /\ (forall data, ResponseNotOk 404 <> Body data)
  /\ errorMessages d = [loadErrorText]
  /\ threadsHidden (page d) = true.
Proof.
  intros d.
  assert (Hr : forall data, ResponseNotOk 404 <> Body data) by discriminate.
  split; [exact blankDocument_initial|]. split; [exact Hr|].
  destruct (@failed_load_leaves_a_page_without_threads asciiLower (hours 8)
              blankDocument [DocumentKeydown Escape]
              [SearchClick; BackClick; ResetClick] may7evening (ResponseNotOk 404)
              blankDocument_initial Hr)
    as (H1 & _ & _ & _ & H5 & _).
  split; [exact H1 | exact H5].
Defined.

Lemma samples_well_formed (t : Thread) :
  In t (loaded (Body [threadA; threadB])) -> ThreadConforms t.
Proof. exact (@samples_conform t). Qed.

Lemma no_listener_raises_on_well_formed_data_witness :
  Initial blankDocument
  /\ (forall t, In t (loaded (Body [threadA; threadB])) -> ThreadConforms t)
  /\ snd (dispatch asciiLower (hours 8) ApplyClick
            (run asciiLower (hours 8) [SearchInputEdit (str "bob"); ChipClick 0]
               (loadThreadData_resume (hours 8) may7evening (Body [threadA; threadB])
                  (run asciiLower (hours 8) []
                     (loadThreadData_begin blankDocument))))) = None.
Proof.
  split; [exact blankDocument_initial|]. split; [exact samples_well_formed|].
  exact (proj2 (@no_listener_raises_on_well_formed_data asciiLower (hours 8)
                  blankDocument [] [SearchInputEdit (str "bob"); ChipClick 0]
                  may7evening (Body [threadA; threadB]) ApplyClick
                  blankDocument_initial samples_well_formed)).
Defined.

Lemma selected_chips_always_find_threads_witness :
  let d := run asciiLower (hours 8) [ChipClick 1; EndDateEdit None]
             (loadThreadData_resume (hours 8) may7evening (Body [threadA; threadB])
                (run asciiLower (hours 8) []
                   (loadThreadData_begin blankDocument))) in
  Initial blankDocument
  /\ forallb isWhiteSpace (searchInput (page d)) = true
  /\ selectedChips (page d) = [str "Sport"]
  /\ endDateInput (page d) = None
  /\ threadsCards (fst (applyFilters asciiLower (hours 8) (page d))) <> [].
Proof.
  intros d.
  assert (Hb : forallb isWhiteSpace (searchInput (page d)) = true)
    by (vm_compute; reflexivity).
  assert (Hs : selectedChips (page d) = [str "Sport"]) by (vm_compute; reflexivity).
  assert (He : endDateInput (page d) = None) by (vm_compute; reflexivity).
  assert (Hne : selectedChips (page d) <> []) by (rewrite Hs; discriminate).
  split; [exact blankDocument_initial|]. split; [exact Hb|]. split; [exact Hs|].
  split; [exact He|].
  exact (proj1 (proj2 (@selected_chips_always_find_threads asciiLower (hours 8)
                         asciiLower_nil blankDocument []
                         [ChipClick 1; EndDateEdit None] may7evening
                         (Body [threadA; threadB]) blankDocument_initial
                         Hb Hne (or_intror He)))).
Defined.
